(** * Client financial summaries: date extraction, report agent and aggregators

    A shallow embedding of [src/agent/agent.py] and
    [src/data/data_functions.py], followed by the properties established
    about them.

    Modelling conventions.
    - A Python [str] is a [string] holding its UTF-8 bytes.  Substring
      containment on the bytes of two well-formed UTF-8 texts coincides with
      containment on their code points, and so does their order.  The
      regular-expression class [\d] and the conversion [int] read the
      decimal digits of Unicode 14.0 (the tables of Python 3.11): the
      ASCII digits and the digits of the other scripts, each a run of ten
      code points.
    - A Python [datetime] is a record of year, month and day (the time of day
      of every value built by [extract_dates] is midnight).  A pandas
      timestamp is taken at day resolution and represented by its proleptic
      Gregorian ordinal, [NaT] by [None].
    - The [date] column of the table holds calendar dates: timestamps, as
      the comparison with [datetime] values in [run_agent] requires.  (For
      the aggregators a column of ISO texts [YYYY-MM-DD] behaves alike:
      they parse it, or compare it as text, and the order of such texts is
      the order of their dates.)  The [amount] column holds texts.  The two
      bounds of a range, which the aggregators receive as texts
      [YYYY-MM-DD] and hand to pandas, are given as the timestamps they
      denote.
    - A float is an exact rational; the values [inf], [-inf] and [nan] arise
      only where the code divides by zero.  Binary rounding error, signed
      zeros and overflow of float64 are outside the model.
    - [pd.to_numeric] and the category lookup read from disk are parameters
      of the aggregators; the examples use a parser of decimal literals.
    - An exception is a value [Raises e] of the [outcome] type.
    - [strftime] writes the year as the C library of Linux does, without
      padding: a year under 1000 has fewer than four digits.
    - The language model and the file system seen by [run_agent] are
      explicit: the former is a function from prompt to an outcome, a text
      or an exception, the latter a state threaded through the calls.
      Writing the report fails on an empty folder path
      ([FileNotFoundError] of [os.makedirs]) and on a text with a
      character outside Latin-1 ([UnicodeEncodeError] of the PDF writer,
      raised once the folder exists and before the file is opened).
    - [cash_flow_summary] on a selection without rows raises [KeyError]
      on the column ['Inflows']; [cash_flow_summary_result] is the call
      with that failure, [cash_flow_summary] its table.  The charts that two aggregators
      draw and save are not modelled: an aggregator is a function from the
      table to its result table. *)

From Stdlib Require Import ZArith QArith Qabs Qminmax Lia Lqa Bool List.
From Stdlib Require Import Ascii String.
From stdpp Require Import base option list sorting strings gmap.

Import ListNotations.
Local Open Scope Z_scope.

(** ** Outcomes of a Python call *)

Inductive exn : Type :=
| ValueError (msg : string)
| KeyError (key : string)
| FileNotFoundError (path : string)
| UnicodeEncodeError (text : string)
| Exception (msg : string).

Inductive outcome (A : Type) : Type :=
| Returns (a : A)
| Raises (e : exn).

Arguments Returns {A} a.
Arguments Raises {A} e.

Definition bind {A B : Type} (m : outcome A) (k : A -> outcome B) : outcome B :=
  match m with
  | Returns a => k a
  | Raises e => Raises e
  end.

Notation "'let*' x ':=' m 'in' k" := (bind m (fun x => k))
  (at level 10, x pattern, m at level 100, k at level 200).

(** ** Strings and the two regular expressions of [agent.py] *)

Module PyStr.

(** [needle in hay] *)
Fixpoint contains (needle hay : string) : bool :=
  String.prefix needle hay ||
  match hay with
  | EmptyString => false
  | String _ hay' => contains needle hay'
  end.

(** An ASCII digit, and its value. *)
Definition is_digit (c : ascii) : bool :=
  (("0" <=? c) && (c <=? "9"))%char.

Definition digit_val (c : ascii) : Z :=
  Z.of_N (N_of_ascii c) - 48.

(** The value of a byte of a text. *)
Definition byte (c : ascii) : Z := Z.of_N (N_of_ascii c).

(** A byte that continues a character written on several bytes. *)
Definition continues (c : ascii) : bool :=
  (128 <=? byte c) && (byte c <? 192).

(** The character at the start of a text: its code point, its bytes and the
    text after it. *)
Definition decode (s : string) : option (Z * string * string) :=
  match s with
  | EmptyString => None
  | String b0 r0 =>
      if byte b0 <? 128 then Some (byte b0, String b0 EmptyString, r0)
      else
        match r0 with
        | EmptyString => None
        | String b1 r1 =>
            if (194 <=? byte b0) && (byte b0 <? 224) then
              if continues b1
              then Some (64 * (byte b0 - 192) + (byte b1 - 128),
                         String b0 (String b1 EmptyString), r1)
              else None
            else
              match r1 with
              | EmptyString => None
              | String b2 r2 =>
                  if (224 <=? byte b0) && (byte b0 <? 240) then
                    let cp := 64 * (64 * (byte b0 - 224) + (byte b1 - 128))
                              + (byte b2 - 128) in
                    if continues b1 && continues b2 && (2048 <=? cp)
                       && negb ((55296 <=? cp) && (cp <? 57344))
                    then Some (cp,
                               String b0 (String b1 (String b2 EmptyString)),
                               r2)
                    else None
                  else
                    match r2 with
                    | EmptyString => None
                    | String b3 r3 =>
                        let cp := 64 * (64 * (64 * (byte b0 - 240)
                                                  + (byte b1 - 128))
                                            + (byte b2 - 128))
                                  + (byte b3 - 128) in
                        if (240 <=? byte b0) && (byte b0 <? 245)
                           && continues b1 && continues b2 && continues b3
                           && (65536 <=? cp) && (cp <? 1114112)
                        then Some (cp,
                                   String b0 (String b1 (String b2
                                     (String b3 EmptyString))),
                                   r3)
                        else None
                    end
              end
        end
  end.

(** The decimal digits of Unicode 14.0, the version of Python 3.11: they
    come in runs of ten, from the digit zero to the digit nine, and the list
    holds the code point of each zero.  The class [\d] of a pattern on
    [str] and the constructor [int] accept all of them. *)
Definition decimal_zeros : list Z :=
  [48; 1632; 1776; 1984; 2406; 2534; 2662; 2790; 2918; 3046; 3174; 3302;
   3430; 3558; 3664; 3792; 3872; 4160; 4240; 6112; 6160; 6470; 6608; 6784;
   6800; 6992; 7088; 7232; 7248; 42528; 43216; 43264; 43472; 43504; 43600;
   44016; 65296; 66720; 68912; 69734; 69872; 69942; 70096; 70384; 70736;
   70864; 71248; 71360; 71472; 71904; 72016; 72784; 73040; 73120; 92768;
   92864; 93008; 120782; 120792; 120802; 120812; 120822; 123200; 123632;
   125264; 130032].

(** The value of a decimal digit. *)
Definition decimal (cp : Z) : option Z :=
  match List.find (fun z => (z <=? cp) && (cp <? z + 10)) decimal_zeros with
  | Some z => Some (cp - z)
  | None => None
  end.

(** A match of [\d] at the start of a text: the value of the digit, its
    bytes and the text after it. *)
Definition digit_at (s : string) : option (Z * string * string) :=
  match decode s with
  | Some (cp, p, rest) =>
      match decimal cp with
      | Some v => Some (v, p, rest)
      | None => None
      end
  | None => None
  end.

(** A match of [\d{n}] at the start of a text: the text matched and the
    text after it. *)
Fixpoint digits_at (n : nat) (s : string) : option (string * string) :=
  match n with
  | O => Some (EmptyString, s)
  | S n' =>
      match digit_at s with
      | Some (_, p, rest) =>
          match digits_at n' rest with
          | Some (t, rest') => Some ((p ++ t)%string, rest')
          | None => None
          end
      | None => None
      end
  end.

(** [int(s)] on a text of decimal digits; [fuel] bounds the number of
    digits read. *)
Fixpoint int_from (fuel : nat) (acc : Z) (s : string) : Z :=
  match fuel with
  | O => acc
  | S fuel' =>
      match digit_at s with
      | Some (v, _, rest) => int_from fuel' (10 * acc + v) rest
      | None => acc
      end
  end.

Definition int (s : string) : Z := int_from (String.length s) 0 s.

(** A match of [\d{4}] anchored at the start of [s]. *)
Definition match_d4 (s : string) : option string :=
  match digits_at 4 s with
  | Some (t, _) => Some t
  | None => None
  end.

(** [re.search(r"\d{4}", s)]: the leftmost match, if any.  The scan moves
    one byte at a time; no character starts on a byte that continues
    another one. *)
Fixpoint re_search_d4 (s : string) : option string :=
  match match_d4 s with
  | Some m => Some m
  | None =>
      match s with
      | EmptyString => None
      | String _ s' => re_search_d4 s'
      end
  end.

(** A match of [\d{4}-\d{2}-\d{2}] anchored at the start of [s]. *)
Definition match_date (s : string) : option string :=
  match digits_at 4 s with
  | Some (y, String h1 r1) =>
      match digits_at 2 r1 with
      | Some (m, String h2 r2) =>
          match digits_at 2 r2 with
          | Some (d, _) =>
              if (h1 =? "-")%char && (h2 =? "-")%char
              then Some (y ++ "-" ++ m ++ "-" ++ d)%string
              else None
          | None => None
          end
      | _ => None
      end
  | _ => None
  end.

(** [re.findall(r"(\d{4}-\d{2}-\d{2})", s)]: the scan resumes after the
    end of each match, so the matches do not overlap.  [skip] counts the
    bytes of the last match still to pass. *)
Fixpoint re_findall_date_from (skip : nat) (s : string) : list string :=
  match s with
  | EmptyString => []
  | String _ s' =>
      match skip with
      | S k => re_findall_date_from k s'
      | O =>
          match match_date s with
          | Some m => m :: re_findall_date_from (String.length m - 1) s'
          | None => re_findall_date_from 0 s'
          end
      end
  end.

Definition re_findall_date (s : string) : list string :=
  re_findall_date_from 0 s.

(** Decimal rendering, [str(n)] for an integer and the zero-padded fields
    of [strftime]. *)
Definition digit_char (d : Z) : ascii :=
  ascii_of_N (Z.to_N (48 + d)).

Fixpoint digits_of (fuel : nat) (n : Z) (acc : string) : string :=
  match fuel with
  | O => acc
  | S fuel' =>
      let acc' := String (digit_char (n mod 10)) acc in
      if n / 10 =? 0 then acc' else digits_of fuel' (n / 10) acc'
  end.

Definition str_of_nonneg (n : Z) : string :=
  digits_of (S (Z.to_nat (Z.log2 n))) n EmptyString.

Definition str (n : Z) : string :=
  if n <? 0 then String "-" (str_of_nonneg (- n)) else str_of_nonneg n.

Fixpoint zeros (k : nat) : string :=
  match k with
  | O => EmptyString
  | S k' => String "0" (zeros k')
  end.

(** [n] in decimal, left-padded with zeros to [width] characters *)
Definition zfill (width : nat) (n : Z) : string :=
  let s := str_of_nonneg n in
  zeros (width - String.length s) ++ s.

End PyStr.

(** ** Calendar arithmetic behind [datetime] and the pandas timestamps *)

Module Calendar.

Definition is_leap (year : Z) : bool :=
  (year mod 4 =? 0) && (negb (year mod 100 =? 0) || (year mod 400 =? 0)).

Definition days_in_month (year month : Z) : Z :=
  match month with
  | 2 => if is_leap year then 29 else 28
  | 4 | 6 | 9 | 11 => 30
  | _ => 31
  end.

Definition days_before_year (year : Z) : Z :=
  let y := year - 1 in
  y * 365 + y / 4 - y / 100 + y / 400.

Definition days_before_month_common (month : Z) : Z :=
  match month with
  | 1 => 0 | 2 => 31 | 3 => 59 | 4 => 90 | 5 => 120 | 6 => 151
  | 7 => 181 | 8 => 212 | 9 => 243 | 10 => 273 | 11 => 304 | _ => 334
  end.

Definition days_before_month (year month : Z) : Z :=
  days_before_month_common month
  + (if (2 <? month) && is_leap year then 1 else 0).

(** Proleptic Gregorian ordinal: day 1 is 0001-01-01. *)
Definition ymd2ord (year month day : Z) : Z :=
  days_before_year year + days_before_month year month + day.

(** The inverse of [ymd2ord], as a triple (year, month, day). *)
Definition ord2ymd (ordinal : Z) : Z * Z * Z :=
  let n := ordinal - 1 in
  let n400 := n / 146097 in
  let n := n mod 146097 in
  let n100 := n / 36524 in
  let n := n mod 36524 in
  let n4 := n / 1461 in
  let n := n mod 1461 in
  let n1 := n / 365 in
  let n := n mod 365 in
  let year := n400 * 400 + 1 + n100 * 100 + n4 * 4 + n1 in
  if (n1 =? 4) || (n100 =? 4) then (year - 1, 12, 31)
  else
    let leapyear := (n1 =? 3) && (negb (n4 =? 24) || (n100 =? 3)) in
    let month := (n + 50) / 32 in
    let preceding :=
      days_before_month_common month
      + (if (2 <? month) && leapyear then 1 else 0) in
    if n <? preceding then
      let month' := month - 1 in
      let preceding' :=
        preceding
        - ((match month' with
            | 2 => 28
            | 4 | 6 | 9 | 11 => 30
            | _ => 31
            end)
           + (if (month' =? 2) && leapyear then 1 else 0)) in
      (year, month', n - preceding' + 1)
    else (year, month, n - preceding + 1).

(** Monday is 0, Sunday is 6. *)
Definition weekday (ordinal : Z) : Z := (ordinal + 6) mod 7.

(** Last day of the Monday-to-Sunday week that holds the day: the day on
    which the period [to_period('W')] of pandas ends. *)
Definition week_end (ordinal : Z) : Z := ordinal + (6 - weekday ordinal).

(** [strftime] for the three formats the program uses.  The C library
    writes [%Y] without padding, so that a year under 1000 has fewer than
    four digits; [%m] and [%d] are padded to two. *)
Definition fmt_Y_m_d (ymd : Z * Z * Z) : string :=
  let '(y, m, d) := ymd in
  (PyStr.str y ++ "-" ++ PyStr.zfill 2 m ++ "-" ++ PyStr.zfill 2 d)%string.

Definition fmt_Ymd (ymd : Z * Z * Z) : string :=
  let '(y, m, d) := ymd in
  (PyStr.str y ++ PyStr.zfill 2 m ++ PyStr.zfill 2 d)%string.

Definition fmt_Y_m (ymd : Z * Z * Z) : string :=
  let '(y, m, _) := ymd in
  (PyStr.str y ++ "-" ++ PyStr.zfill 2 m)%string.

End Calendar.

(** ** The input table *)

(** A merchant category code as the table holds it: an integer or a text. *)
Inductive code : Type :=
| IntCode (n : Z)
| StrCode (s : string).

(** One row of a table with the four columns of the transactions data.
    [date] is a timestamp ([None] is [NaT]).  The type of the [amount]
    column is a parameter: the input table holds the text of the amount,
    with its currency sign, and the program replaces the column by the
    number parsed from it. *)
Record row (A : Type) : Type := {
  client_id : Z;
  date : option Z;
  amount : A;
  mcc : code
}.

Arguments client_id {A} r.
Arguments date {A} r.
Arguments amount {A} r.
Arguments mcc {A} r.

Definition transaction : Type := row string.

(** [df['amount'] = f(df['amount'])], row by row *)
Definition with_amount {A B : Type} (f : A -> B) (r : row A) : row B :=
  {| client_id := client_id r; date := date r;
     amount := f (amount r); mcc := mcc r |}.

(** Comparison of a timestamp column with a timestamp: false on [NaT]. *)
Definition date_ge (d : option Z) (t : Z) : bool :=
  match d with
  | Some x => t <=? x
  | None => false
  end.

Definition date_le (d : option Z) (t : Z) : bool :=
  match d with
  | Some x => x <=? t
  | None => false
  end.

(** The mask shared by every function of the program:
    [(df['client_id'] == client_id) & (df['date'] >= start_date)
     & (df['date'] <= end_date)]. *)
Definition in_client_range {A : Type} (cid start_date end_date : Z) (r : row A)
  : bool :=
  (client_id r =? cid) && date_ge (date r) start_date && date_le (date r) end_date.

(** A timestamp written year, month, day. *)
Definition ts (year month day : Z) : option Z :=
  Some (Calendar.ymd2ord year month day).

(** ** [agent.py] *)

Module Agent.

Record datetime : Type := {
  year : Z;
  month : Z;
  day : Z
}.

(** [datetime(year=.., month=.., day=..)]: the constructor checks its fields
    and raises [ValueError] on a date that does not exist. *)
Definition datetime_new (y m d : Z) : outcome datetime :=
  if negb ((1 <=? y) && (y <=? 9999)) then
    Raises (ValueError ("year " ++ PyStr.str y ++ " is out of range"))
  else if negb ((1 <=? m) && (m <=? 12)) then
    Raises (ValueError "month must be in 1..12")
  else if negb ((1 <=? d) && (d <=? Calendar.days_in_month y m)) then
    Raises (ValueError "day is out of range for month")
  else Returns {| year := y; month := m; day := d |}.

(** The month field [1[0-2]|0[1-9]|[1-9]] of the format, on the two bytes
    that follow the first hyphen of a text of the shape [dddd-dd-dd]: the
    last alternative would need the second hyphen right after one digit. *)
Definition month_field (m1 m2 : ascii) : option Z :=
  if ((m1 =? "1") && ("0" <=? m2) && (m2 <=? "2"))%char
  then Some (10 + PyStr.digit_val m2)
  else if ((m1 =? "0") && ("1" <=? m2) && (m2 <=? "9"))%char
  then Some (PyStr.digit_val m2)
  else None.

(** The day field [3[01]|[12]\d|0[1-9]|[1-9]| [1-9]] of the format: the first
    alternative that matches gives the day, and the text it leaves unread
    comes with it. *)
Definition day_field (d1 : ascii) (rest : string) : option (Z * string) :=
  let one_digit :=
    if (("1" <=? d1) && (d1 <=? "9"))%char
    then Some (PyStr.digit_val d1, rest) else None in
  let after_zero :=
    match rest with
    | String d2 rest' =>
        if (("1" <=? d2) && (d2 <=? "9"))%char
        then Some (PyStr.digit_val d2, rest') else None
    | EmptyString => None
    end in
  if (d1 =? "3")%char then
    match rest with
    | String d2 rest' =>
        if (("0" <=? d2) && (d2 <=? "1"))%char
        then Some (30 + PyStr.digit_val d2, rest') else one_digit
    | EmptyString => one_digit
    end
  else if (("1" <=? d1) && (d1 <=? "2"))%char then
    match PyStr.digit_at rest with
    | Some (v, _, rest') => Some (10 * PyStr.digit_val d1 + v, rest')
    | None => one_digit
    end
  else if ((d1 =? "0") || (d1 =? " "))%char then after_zero
  else one_digit.

(** [datetime.strptime(s, "%Y-%m-%d")] on a text of the shape
    [dddd-dd-dd], the only texts the program passes to it.  The format is a
    pattern of its own: the year is any four decimal digits, the month and
    the day are read by the two fields above, which want ASCII digits but
    for the second digit of a day from 10 to 29.  A text that the pattern
    does not match, and a text that it matches in part only, are refused.
    The date is then built, which checks it against the calendar. *)
Definition strptime (s : string) : outcome datetime :=
  let no_match :=
    Raises (ValueError
      ("time data '" ++ s ++ "' does not match format '%Y-%m-%d'")) in
  match PyStr.digits_at 4 s with
  | Some (y, String h1 (String m1 (String m2 (String h2 (String d1 rest))))) =>
      match month_field m1 m2, day_field d1 rest with
      | Some m, Some (d, unread) =>
          if negb ((h1 =? "-") && (h2 =? "-"))%char then no_match
          else if negb (String.eqb unread "") then
            Raises (ValueError ("unconverted data remains: " ++ unread))
          else datetime_new (PyStr.int y) m d
      | _, _ => no_match
      end
  | _ => no_match
  end.

Definition toordinal (t : datetime) : Z :=
  Calendar.ymd2ord (year t) (month t) (day t).

Definition strftime_Y_m_d (t : datetime) : string :=
  Calendar.fmt_Y_m_d (year t, month t, day t).

Definition strftime_Ymd (t : datetime) : string :=
  Calendar.fmt_Ymd (year t, month t, day t).

(** Month mappings for Spanish and English, in the order of the source:
    a Python dict is iterated in insertion order. *)
Definition month_mapping : list (string * Z) :=
  [ ("primer", 1); ("first", 1);
    ("segundo", 2); ("second", 2);
    ("tercer", 3); ("third", 3);
    ("cuarto", 4); ("fourth", 4);
    ("quinto", 5); ("fifth", 5);
    ("sexto", 6); ("sixth", 6);
    ("séptimo", 7); ("seventh", 7);
    ("octavo", 8); ("eighth", 8);
    ("noveno", 9); ("ninth", 9);
    ("décimo", 10); ("tenth", 10);
    ("undécimo", 11); ("eleventh", 11);
    ("duodécimo", 12); ("twelfth", 12) ].

(** The body run for a month word found in a prompt that holds a year. *)
Definition month_range (year_text : string) (month_num : Z)
  : outcome (datetime * datetime) :=
  let year := PyStr.int year_text in
  let* start_date := datetime_new year month_num 1 in
  let* end_date :=
    if month_num =? 2 then datetime_new year month_num 28
    else if existsb (Z.eqb month_num) [4; 6; 9; 11]
         then datetime_new year month_num 30
         else datetime_new year month_num 31 in
  Returns (start_date, end_date).

(** The loop over the month table.  [None]: the loop ended without a
    [return]. *)
Fixpoint scan_months (items : list (string * Z)) (prompt : string)
  : option (outcome (datetime * datetime)) :=
  match items with
  | [] => None
  | (month_name, month_num) :: rest =>
      if PyStr.contains month_name prompt then
        match PyStr.re_search_d4 prompt with
        | Some year_match => Some (month_range year_match month_num)
        | None => scan_months rest prompt
        end
      else scan_months rest prompt
  end.

Definition extract_dates (prompt : string)
  : outcome (option datetime * option datetime) :=
  match scan_months month_mapping prompt with
  | Some found =>
      let* dates := found in
      Returns (Some (fst dates), Some (snd dates))
  | None =>
      match PyStr.re_findall_date prompt with
      | [d0; d1] =>
          let* start_date := strptime d0 in
          let* end_date := strptime d1 in
          Returns (Some start_date, Some end_date)
      | _ => Returns (None, None)
      end
  end.

(** The document handed to the PDF library: the two header cells and the
    body. *)
Record pdf : Type := {
  pdf_title : string;
  pdf_range : string;
  pdf_body : string
}.

(** What the program can see and change outside itself: the paths that
    exist as directories, the files and the lines printed. *)
Record world : Type := {
  dirs : gset string;
  files : gmap string pdf;
  stdout : list string
}.

(** A text that the Latin-1 encoding can write: all its characters are at
    most U+00FF, which in UTF-8 means that no byte is above 0xC3. *)
Definition latin1 (s : string) : bool :=
  forallb (fun c => PyStr.byte c <? 196) (list_ascii_of_string s).

(** The document is built in memory, the folder is made if the path does
    not exist, and [pdf.output] writes the file.  Two failures are
    modelled: [os.makedirs] refuses the empty path, and [pdf.output] (of
    PyFPDF) encodes the pages in Latin-1 before it opens the file, which
    fails on a report text with a character outside Latin-1.  Permissions,
    a full disk and a path that exists as a file are outside the model. *)
Definition create_pdf_report (cid : Z) (start_date end_date : datetime)
    (report_content output_folder : string) (w : world)
  : outcome string * world :=
  let doc :=
    {| pdf_title := "Informe del Cliente " ++ PyStr.str cid;
       pdf_range := "Rango de fechas: " ++ strftime_Y_m_d start_date
                    ++ " a " ++ strftime_Y_m_d end_date;
       pdf_body := report_content |} in
  let output_path :=
    (output_folder ++ "reporte_cliente_" ++ PyStr.str cid ++ "_"
     ++ strftime_Ymd start_date ++ "_" ++ strftime_Ymd end_date ++ ".pdf")%string in
  if String.eqb output_folder "" then (Raises (FileNotFoundError ""), w)
  else
    let w1 :=
      if decide (output_folder ∈ dirs w) then w
      else {| dirs := {[ output_folder ]} ∪ dirs w;
              files := files w; stdout := stdout w |} in
    if latin1 report_content then
      (Returns output_path,
       {| dirs := dirs w1;
          files := <[ output_path := doc ]> (files w1);
          stdout := stdout w1 |})
    else (Raises (UnicodeEncodeError report_content), w1).

Record variables_dict : Type := {
  vd_start_date : string;
  vd_end_date : string;
  vd_client_id : Z;
  vd_create_report : bool
}.

Section WithModel.

(** [model.predict]: the text the language model answers to a prompt, or
    the error that the call to its server raises.  Building the client, the
    first statement of [run_agent], contacts no server. *)
Variable predict : string -> outcome string.

Definition report_prompt (cid : Z) (start_date end_date : datetime) : string :=
  ("Cliente " ++ PyStr.str cid
   ++ " solicita un informe detallado sobre datos financieros y de transacciones "
   ++ "relevantes entre " ++ strftime_Y_m_d start_date ++ " y "
   ++ strftime_Y_m_d end_date ++ ". "
   ++ "El informe debe incluir: " ++ String "010" ""
   ++ "- Resumen de ingresos y gastos." ++ String "010" ""
   ++ "- Análisis de inversiones y pagos realizados." ++ String "010" ""
   ++ "- Datos organizados por meses y totales anuales." ++ String "010" ""
   ++ "- Visualizaciones de las tendencias en el tiempo." ++ String "010" ""
   ++ "Asegúrate de usar todos los datos disponibles para proporcionar un resumen claro y relevante.")%string.

Definition run_agent (df : list transaction) (cid : Z) (input : string)
    (w : world) : outcome variables_dict * world :=
  match extract_dates input with
  | Raises e => (Raises e, w)
  | Returns (Some start_date, Some end_date) =>
      let df_client :=
        List.filter
          (in_client_range cid (toordinal start_date) (toordinal end_date)) df in
      let create_report :=
        negb (match df_client with [] => true | _ => false end) in
      let variables_dict :=
        {| vd_start_date := strftime_Y_m_d start_date;
           vd_end_date := strftime_Y_m_d end_date;
           vd_client_id := cid;
           vd_create_report := create_report |} in
      if create_report then
        match predict (report_prompt cid start_date end_date) with
        | Raises e => (Raises e, w)
        | Returns report_content =>
            match
              create_pdf_report cid start_date end_date report_content
                "reports/" w
            with
            | (Raises e, w1) => (Raises e, w1)
            | (Returns pdf_path, w1) =>
                (Returns variables_dict,
                 {| dirs := dirs w1; files := files w1;
                    stdout :=
                      stdout w1
                      ++ [("Informe generado en: " ++ pdf_path)%string] |})
            end
        end
      else (Returns variables_dict, w)
  | Returns _ => (Raises (ValueError "Fechas no válidas en el prompt."), w)
  end.

End WithModel.

End Agent.

(** ** Numbers *)

Module Numeric.

Local Open Scope Q_scope.

Definition Qlt_bool (x y : Q) : bool := negb (Qle_bool y x).

(** The integer nearest to [x], a tie going to the even neighbour: the
    rounding of [numpy.rint]. *)
Definition rint (x : Q) : Z :=
  let n := Qnum x in
  let d := Zpos (Qden x) in
  let q := (n / d)%Z in
  let r := (n mod d)%Z in
  if (2 * r <? d)%Z then q
  else if (d <? 2 * r)%Z then (q + 1)%Z
  else if Z.even q then q else (q + 1)%Z.

(** [x.round(2)]: a number of hundredths *)
Definition round2 (x : Q) : Q := rint (x * 100) # 100.

Definition Qsum (l : list Q) : Q := fold_right Qplus 0 l.

(** Largest and smallest element ([0] on the empty list, which no group of
    a [groupby] is). *)
Definition Qmaximum (l : list Q) : Q :=
  match l with
  | [] => 0
  | x :: l' => fold_left Qmax l' x
  end.

Definition Qminimum (l : list Q) : Q :=
  match l with
  | [] => 0
  | x :: l' => fold_left Qmin l' x
  end.

Definition Qmean (l : list Q) : Q :=
  Qsum l / inject_Z (Z.of_nat (List.length l)).

(** A float that may be infinite or not a number. *)
Inductive fval : Type :=
| Fin (q : Q)
| PInf
| NInf
| NaN.

(** Division of two finite floats, as numpy does it: no exception, a zero
    divisor gives [nan] for a zero dividend and a signed infinity
    otherwise. *)
Definition fdiv (a b : Q) : fval :=
  if Qeq_bool b 0 then
    if Qeq_bool a 0 then NaN
    else if Qlt_bool 0 a then PInf else NInf
  else Fin (a / b).

Definition fillna0 (x : fval) : fval :=
  match x with
  | NaN => Fin 0
  | _ => x
  end.

Definition fmul100 (x : fval) : fval :=
  match x with
  | Fin q => Fin (q * 100)
  | _ => x
  end.

Definition fround2 (x : fval) : fval :=
  match x with
  | Fin q => Fin (round2 q)
  | _ => x
  end.

(** [s.replace('$', '')]: every dollar sign is removed. *)
Fixpoint remove_dollar (s : string) : string :=
  match s with
  | EmptyString => EmptyString
  | String c s' =>
      if (c =? "$")%char then remove_dollar s' else String c (remove_dollar s')
  end.

(** The text before the first dot, and the text after it. *)
Fixpoint split_dot (s : string) : string * string :=
  match s with
  | EmptyString => (EmptyString, EmptyString)
  | String c s' =>
      if (c =? ".")%char then (EmptyString, s')
      else let '(a, b) := split_dot s' in (String c a, b)
  end.

Definition all_digits (s : string) : bool :=
  forallb PyStr.is_digit (list_ascii_of_string s).

(** An instance of the number parser, on plain decimal literals: an
    optional sign, digits, and an optional fraction.  Any other text is not a
    number. *)
Definition decimal_to_numeric (s : string) : option Q :=
  let '(negative, body) :=
    match s with
    | String "-" rest => (true, rest)
    | String "+" rest => (false, rest)
    | _ => (false, s)
    end in
  let '(ip, fp) := split_dot body in
  if all_digits ip && all_digits fp
     && (0 <? String.length ip + String.length fp)%nat
  then
    let mantissa := PyStr.int (ip ++ fp) in
    Some ((if negative then (- mantissa)%Z else mantissa)
          # Z.to_pos (10 ^ Z.of_nat (String.length fp)))
  else None.

End Numeric.

(** ** [data_functions.py] *)

Module DataFunctions.

Import Numeric.
Local Open Scope Q_scope.

(** [groupby(key)] with the defaults of pandas: the groups come in
    ascending order of their key, and a row whose key is missing belongs to
    no group. *)
Definition group_keys (keys : list (option string)) : list string :=
  merge_sort String.le (remove_dups (omap id keys)).

(** The members of the group of a key. *)
Definition members {A : Type} (key : A -> option string) (k : string)
    (l : list A) : list A :=
  List.filter (fun r => bool_decide (key r = Some k)) l.

Definition groupby {A : Type} (key : A -> option string) (l : list A)
  : list (string * list A) :=
  map (fun k => (k, members key k l)) (group_keys (map key l)).

(** The numbers of a column, the missing ones skipped as the reductions of
    pandas skip them. *)
Definition numbers (g : list (row (option Q))) : list Q :=
  omap amount g.

Definition astype_str (c : code) : string :=
  match c with
  | IntCode n => PyStr.str n
  | StrCode s => s
  end.

(** The table of [earnings_and_expenses]: its column names and its rows. *)
Record frame : Type := {
  columns : list string;
  values : list (list Q)
}.

Record expenses_row : Type := {
  Expenses_Type : string;
  Total_Amount : Q;
  Average : Q;
  Max : Q;
  Min : Q;
  Num_Transactions : Z
}.

Record cash_flow_row : Type := {
  Date : string;
  Inflows : Q;
  Outflows : Q;
  Net_Cash_Flow : Q;
  Savings : fval
}.

Section WithParser.

(** [pd.to_numeric(_, errors='coerce')] on one text: the number it denotes,
    or [None] for the [NaN] of a text that is not a number. *)
Variable to_numeric : string -> option Q.

Definition convert_amount (df : list transaction) : list (row (option Q)) :=
  map (with_amount (fun s => to_numeric (remove_dollar s))) df.

(** [lambda x: x if x > 0 else 0] and [lambda x: x if x < 0 else 0]; a
    comparison with [NaN] is false. *)
Definition earning (x : option Q) : Q :=
  match x with
  | Some q => if Qlt_bool 0 q then q else 0
  | None => 0
  end.

Definition expense (x : option Q) : Q :=
  match x with
  | Some q => if Qlt_bool q 0 then q else 0
  | None => 0
  end.

Definition earnings_and_expenses (df : list transaction)
    (cid start_date end_date : Z) : frame :=
  let df := List.filter (in_client_range cid start_date end_date) df in
  let df := convert_amount df in
  let Earnings := map (fun r => earning (amount r)) df in
  let Expenses := map (fun r => expense (amount r)) df in
  let Earnings := map round2 Earnings in
  let Expenses := map round2 Expenses in
  let sums_Earnings := Qsum Earnings in
  let sums_Expenses := Qsum Expenses in
  {| columns := ["Earnings"; "Expenses"]%string;
     values := [[round2 sums_Earnings; round2 sums_Expenses]] |}.

(** The category lookup read from [data/raw/mcc_codes.json]. *)
Variable mcc_codes : gmap string string.

Definition is_expense (x : option Q) : bool :=
  match x with
  | Some q => Qlt_bool q 0
  | None => false
  end.

(** The value of the column ['Expenses Type'] on a row: [None] is the
    missing value that [map] leaves for a code absent from the lookup. *)
Definition expenses_type {A : Type} (r : row A) : option string :=
  mcc_codes !! astype_str (mcc r).

(** [df[mask]] of [expenses_summary]: the rows of the client in the range
    whose amount is negative. *)
Definition expense_rows (df : list transaction) (cid start_date end_date : Z)
  : list (row (option Q)) :=
  List.filter
    (fun r => in_client_range cid start_date end_date r && is_expense (amount r))
    (convert_amount df).

(** The statistics of one group: each is rounded, then made absolute. *)
Definition expenses_stats (name : string) (g : list (row (option Q)))
  : expenses_row :=
  {| Expenses_Type := name;
     Total_Amount := Qabs (round2 (Qsum (numbers g)));
     Average := Qabs (round2 (Qmean (numbers g)));
     Max := Qabs (round2 (Qmaximum (numbers g)));
     Min := Qabs (round2 (Qminimum (numbers g)));
     Num_Transactions := Z.of_nat (List.length (numbers g)) |}.

Definition expenses_summary (df : list transaction)
    (cid start_date end_date : Z) : list expenses_row :=
  let filtered_df := expense_rows df cid start_date end_date in
  let summary :=
    map (fun '(name, g) => expenses_stats name g)
        (groupby expenses_type filtered_df) in
  merge_sort (fun a b => String.le (Expenses_Type a) (Expenses_Type b)) summary.

(** The label of the period of a day: the month, or the last day of the
    week. *)
Definition month_label (d : Z) : string :=
  Calendar.fmt_Y_m (Calendar.ord2ymd d).

Definition week_label (d : Z) : string :=
  Calendar.fmt_Y_m_d (Calendar.ord2ymd (Calendar.week_end d)).

Definition period_label (period_days : Z) (d : Z) : string :=
  if (60 <? period_days)%Z then month_label d else week_label d.

Definition is_inflow (x : option Q) : bool :=
  match x with
  | Some q => Qle_bool 0 q
  | None => false
  end.

(** [df[mask].dropna(subset=['date'])] of [cash_flow_summary] *)
Definition period_rows (df : list transaction) (cid start_date end_date : Z)
  : list (row (option Q)) :=
  List.filter (fun r => bool_decide (is_Some (date r)))
    (List.filter (in_client_range cid start_date end_date) (convert_amount df)).

(** The sums of one period before any rounding. *)
Definition inflows (x : list (row (option Q))) : Q :=
  Qsum (numbers (List.filter (fun r => is_inflow (amount r)) x)).

Definition outflows (x : list (row (option Q))) : Q :=
  Qsum (map Qabs (numbers (List.filter (fun r => is_expense (amount r)) x))).

(** The row of one period: the net flow and the savings rate are computed
    from the sums, then the four columns are rounded. *)
Definition cash_flow_stats (label : string) (x : list (row (option Q)))
  : cash_flow_row :=
  let net_cash_flow := inflows x - outflows x in
  let savings := fmul100 (fillna0 (fdiv net_cash_flow (inflows x))) in
  {| Date := label;
     Inflows := round2 (inflows x);
     Outflows := round2 (outflows x);
     Net_Cash_Flow := round2 net_cash_flow;
     Savings := fround2 savings |}.

(** The rows of the summary, one per period that holds a selected row.  A
    selection without any row has no period, and the list is empty; the
    call itself then fails, see [cash_flow_summary_result]. *)
Definition cash_flow_summary (df : list transaction)
    (cid start_date end_date : Z) : list cash_flow_row :=
  let filtered_df := period_rows df cid start_date end_date in
  let period_days := (end_date - start_date)%Z in
  let summary :=
    map (fun '(label, x) => cash_flow_stats label x)
        (groupby (fun r => period_label period_days <$> date r) filtered_df) in
  merge_sort (fun a b => String.le (Date a) (Date b)) summary.

(** The outcome of the call.  On a selection without any row the table that
    [groupby(...).apply(...)] gives has neither row nor an ['Inflows']
    column, and the next statement, which reads that column, raises
    [KeyError]. *)
Definition cash_flow_summary_result (df : list transaction)
    (cid start_date end_date : Z) : outcome (list cash_flow_row) :=
  match period_rows df cid start_date end_date with
  | [] => Raises (KeyError "Inflows")
  | _ => Returns (cash_flow_summary df cid start_date end_date)
  end.

End WithParser.

End DataFunctions.

(** ** Vocabulary of the statements about [extract_dates] *)

Module AgentSpec.

Import Agent.

(** The word of a table entry occurs in the prompt. *)
Definition occurs_in (prompt : string) (entry : string * Z) : bool :=
  PyStr.contains (fst entry) prompt.

(** The first entry of the month table, in its order, whose word occurs in
    the prompt. *)
Definition first_month_word (prompt : string) : option (string * Z) :=
  List.find (occurs_in prompt) month_mapping.

(** The fixed rule for the last day of a month. *)
Definition last_day (month_num : Z) : Z :=
  if month_num =? 2 then 28
  else if existsb (Z.eqb month_num) [4; 6; 9; 11] then 30
  else 31.

(** The month strategy gives nothing: no month word occurs in the prompt,
    or no run of four digits does. *)
Definition no_month_year (prompt : string) : Prop :=
  first_month_word prompt = None \/ PyStr.re_search_d4 prompt = None.

(** The code points of a text, read from its UTF-8 bytes. *)
Fixpoint code_points_from (pending : nat) (acc : Z) (s : string) : list Z :=
  match s with
  | EmptyString => []
  | String b r =>
      let n := PyStr.byte b in
      match pending with
      | O =>
          if n <? 128 then n :: code_points_from 0 0 r
          else if n <? 224 then code_points_from 1 (n - 192) r
          else if n <? 240 then code_points_from 2 (n - 224) r
          else code_points_from 3 (n - 240) r
      | 1%nat => (64 * acc + (n - 128)) :: code_points_from 0 0 r
      | S k => code_points_from k (64 * acc + (n - 128)) r
      end
  end.

Definition code_points (s : string) : list Z := code_points_from 0 0 s.

(** The value of a character as a decimal digit ([0] for another
    character). *)
Definition digit_value (cp : Z) : Z := default 0 (PyStr.decimal cp).

(** The text [p] is the decimal digit of code point [cp]: an ASCII digit on
    one byte, or a character of several bytes. *)
Definition digit_text (p : string) (cp : Z) : Prop :=
  (forall r',
     PyStr.digit_at (p ++ r') = Some (digit_value cp, p, r')
     /\ code_points (p ++ r') = cp :: code_points r')
  /\ ((cp < 128
       /\ exists c, p = String c EmptyString /\ PyStr.is_digit c = true
                    /\ PyStr.digit_val c = digit_value cp
                    /\ PyStr.byte c = cp)
      \/ (128 <= cp
          /\ exists c p', p = String c p' /\ 194 <= PyStr.byte c)).

(** The number that a run of decimal digits writes. *)
Fixpoint number (cps : list Z) : Z :=
  match cps with
  | [] => 0
  | cp :: l => 10 ^ Z.of_nat (List.length l) * digit_value cp + number l
  end.

(** The date that a text of ten characters [dddd-dd-dd] writes. *)
Definition date_of_text (s : string) : datetime :=
  match code_points s with
  | [y1; y2; y3; y4; _; m1; m2; _; d1; d2] =>
      {| year := number [y1; y2; y3; y4];
         month := number [m1; m2];
         day := number [d1; d2] |}
  | _ => {| year := 0; month := 0; day := 0 |}
  end.

(** The month and the day of a text [dddd-dd-dd] are written as [strptime]
    wants them: in ASCII digits, but for the second digit of a day that
    begins with 1 or 2, which may be any decimal digit. *)
Definition readable (s : string) : bool :=
  match code_points s with
  | [_; _; _; _; _; m1; m2; _; d1; d2] =>
      (m1 <? 128) && (m2 <? 128) && (d1 <? 128)
      && ((d2 <? 128) || (d1 =? 49) || (d1 =? 50))
  | _ => false
  end.

(** The date exists in the calendar, with a year from 1 to 9999. *)
Definition valid_date (t : datetime) : bool :=
  (1 <=? year t) && (year t <=? 9999)
  && (1 <=? month t) && (month t <=? 12)
  && (1 <=? day t) && (day t <=? Calendar.days_in_month (year t) (month t)).

(** The entries of a table that come before the first one for the word. *)
Fixpoint entries_before (word : string) (items : list (string * Z))
  : list (string * Z) :=
  match items with
  | [] => []
  | (name, num) :: rest =>
      if String.eqb name word then []
      else (name, num) :: entries_before word rest
  end.

(** None of the given words occurs in the prompt. *)
Definition none_occurs (items : list (string * Z)) (prompt : string) : bool :=
  forallb (fun entry => negb (occurs_in prompt entry)) items.

(** The validation error that [run_agent] raises itself. *)
Definition run_agent_error : exn :=
  ValueError "Fechas no válidas en el prompt.".

(** Some row of the table is of the client and dated within the two dates,
    both included. *)
Definition selected (df : list transaction) (cid : Z) (s e : datetime)
  : Prop :=
  exists r d,
    In r df /\ client_id r = cid /\ date r = Some d
    /\ toordinal s <= d <= toordinal e.

End AgentSpec.

(** ** Vocabulary of the statements about the aggregators *)

Module DataSpec.

(** A number with at most two decimals. *)
Definition two_decimals (q : Q) : Prop := (Numeric.round2 q == q)%Q.

(** Some row of the table is of the client and has a date within the
    range, both ends included. *)
Definition dated_row (df : list transaction) (cid s e : Z) : Prop :=
  exists r d,
    In r df /\ client_id r = cid /\ date r = Some d /\ s <= d <= e.

(** The table cut down in advance to the client and the range. *)
Definition restrict (df : list transaction) (cid s e : Z) : list transaction :=
  List.filter (in_client_range cid s e) df.

End DataSpec.

(** ** Vocabulary of the further statements *)

Module Measures.

(** The total of a column of integers. *)
Definition Ztotal (l : list Z) : Z := fold_right Z.add 0 l.

(** The amount of a row is a text that the parser reads as a number. *)
Definition parsable (to_numeric : string -> option Q) (r : transaction) : bool :=
  bool_decide (is_Some (to_numeric (Numeric.remove_dollar (amount r)))).

(** The code of a row is a key of the lookup. *)
Definition mapped {A : Type} (mcc_codes : gmap string string) (r : row A)
  : bool :=
  bool_decide (is_Some (DataFunctions.expenses_type mcc_codes r)).

End Measures.

(** ** Vocabulary of the statements about the rendered texts *)

Module TextSpec.

(** The two and the four decimal digits of a number, written out. *)
Definition two_digits (n : Z) : string :=
  String (PyStr.digit_char (n / 10))
    (String (PyStr.digit_char (n mod 10)) EmptyString).

Definition four_digits (n : Z) : string :=
  String (PyStr.digit_char (n / 1000))
    (String (PyStr.digit_char ((n / 100) mod 10))
       (String (PyStr.digit_char ((n / 10) mod 10))
          (String (PyStr.digit_char (n mod 10)) EmptyString))).

(** The characters of a text. *)
Definition chars (s : string) : list ascii := list_ascii_of_string s.

(** The prompt made of the two dates of a record of [run_agent]. *)
Definition dates_prompt (r : Agent.variables_dict) : string :=
  (Agent.vd_start_date r ++ " " ++ Agent.vd_end_date r)%string.

(** The ten characters of a date text, followed by [rest]. *)
Definition date_chars (y1 y2 y3 y4 m1 m2 d1 d2 : ascii) (rest : string)
  : string :=
  String y1 (String y2 (String y3 (String y4 (String "-"
    (String m1 (String m2 (String "-" (String d1 (String d2 rest))))))))).

(** The characters of a prompt made of date texts: digits, hyphens and
    spaces. *)
Definition plain (c : ascii) : bool :=
  PyStr.is_digit c || (c =? "-")%char || (c =? " ")%char.

(** The characters of the text of an integer: digits and the sign. *)
Definition id_char (c : ascii) : bool :=
  PyStr.is_digit c || (c =? "-")%char.

(** A date of the calendar whose year has four digits without padding. *)
Definition written_date (t : Agent.datetime) : bool :=
  AgentSpec.valid_date t && (1000 <=? Agent.year t).

(** The value read by [int] when it has already read [a]. *)
Definition value_from (a : Z) (s : string) : Z :=
  fold_left (fun acc c => 10 * acc + PyStr.digit_val c) (chars s) a.

End TextSpec.

(** ** Vocabulary of the statements about the calendar *)

Module CalendarSpec.

(** A day of the calendar: a month from 1 to 12 and a day that the month
    has in the year. *)
Definition is_date (y m d : Z) : bool :=
  (1 <=? m) && (m <=? 12) && (1 <=? d) && (d <=? Calendar.days_in_month y m).

Definition same_day (a b : Z * Z * Z) : bool :=
  let '(y, m, d) := a in
  let '(y', m', d') := b in
  (y =? y') && (m =? m') && (d =? d').

(** [ord2ymd] gives back every day of the year [y] from its ordinal. *)
Definition year_round_trip (y : Z) : bool :=
  forallb
    (fun m =>
       forallb
         (fun d =>
            negb (is_date y m d)
            || same_day (Calendar.ord2ymd (Calendar.ymd2ord y m d)) (y, m, d))
         (map Z.of_nat (seq 1 31)))
    (map Z.of_nat (seq 1 12)).

End CalendarSpec.

(** ** Tables used in the examples *)

Module Examples.

Definition may_1 : Z := Calendar.ymd2ord 2021 5 1.
Definition may_31 : Z := Calendar.ymd2ord 2021 5 31.
Definition jan_1 : Z := Calendar.ymd2ord 2021 1 1.
Definition mar_2 : Z := Calendar.ymd2ord 2021 3 2.
Definition mar_3 : Z := Calendar.ymd2ord 2021 3 3.

Definition codes : gmap string string :=
  {[ "5411"%string := "Grocery Stores, Supermarkets"%string ]}.

Definition txn (cid : Z) (d : option Z) (a : string) (c : Z) : transaction :=
  {| client_id := cid; date := d; amount := a; mcc := IntCode c |}.

(** One expense of client 1 in May 2021 whose code the lookup lacks. *)
Definition unmapped_df : list transaction :=
  [ txn 1 (ts 2021 5 10) "-$3" 9999 ].

(** The three expenses of client 1 in May 2021: two mapped, one not. *)
Definition mixed_df : list transaction :=
  [ txn 1 (ts 2021 5 10) "-$10" 5411; txn 1 (ts 2021 5 11) "-$2.50" 5411;
    txn 1 (ts 2021 5 12) "-$3" 9999 ].

(** Two grocery expenses of client 1 in the same week of May 2021. *)
Definition groceries_df : list transaction :=
  [ txn 1 (ts 2021 5 10) "-$10" 5411; txn 1 (ts 2021 5 11) "-$2.50" 5411 ].

(** The two transactions of the worked example of the specification. *)
Definition spec_df : list transaction :=
  [ txn 1 (ts 2021 5 2) "$100" 5411; txn 1 (ts 2021 5 10) "-$40" 5411 ].

(** Two earnings of four thousandths each. *)
Definition thousandths_df : list transaction :=
  [ txn 1 (ts 2021 5 2) "$0.004" 5411; txn 1 (ts 2021 5 3) "$0.004" 5411 ].

(** An earning and an expense of one week, with three decimals. *)
Definition three_decimals_df : list transaction :=
  [ txn 1 (ts 2021 5 10) "$1.004" 5411; txn 1 (ts 2021 5 11) "-$0.006" 5411 ].

(** A single expense, and no earning, in its week. *)
Definition only_expense_df : list transaction :=
  [ txn 1 (ts 2021 5 10) "-$40" 5411 ].

(** Two transactions of one week whose amounts are not numbers. *)
Definition unreadable_df : list transaction :=
  [ txn 1 (ts 2021 5 10) "n/a" 5411; txn 1 (ts 2021 5 11) "" 5411 ].

(** An earning or an expense in each of the first three weeks of May 2021,
    with amounts of three decimals. *)
Definition three_weeks_df : list transaction :=
  [ txn 1 (ts 2021 5 3) "$10.004" 5411; txn 1 (ts 2021 5 4) "-$1.006" 5411;
    txn 1 (ts 2021 5 12) "$0.004" 5411; txn 1 (ts 2021 5 20) "-$7.255" 5411 ].

(** A single transaction on 15 January 2021. *)
Definition january_df : list transaction :=
  [ txn 1 (ts 2021 1 15) "$5" 5411 ].

End Examples.

(** * Properties *)

(** ** Substrings and the year pattern *)

Section StringFacts.

Lemma append_String (c : ascii) (a b : string) :
  (String c a ++ b = String c (a ++ b))%string.
Proof. reflexivity. Qed.

Lemma append_Empty (b : string) : (EmptyString ++ b = b)%string.
Proof. reflexivity. Qed.

Lemma prefix_spec (a h : string) :
  String.prefix a h = true <-> exists post, h = (a ++ post)%string.
Proof.
  revert h. induction a as [|c a IH]; intros h.
  - destruct h; simpl; split; eauto.
  - destruct h as [|c' h]; simpl.
    + split; [discriminate | intros [post H]; discriminate].
    + destruct (ascii_dec c c') as [->|Hne].
      * rewrite IH. split; intros [post H]; exists post;
          rewrite append_String in *; congruence.
      * split; [discriminate | intros [post H]].
        rewrite append_String in H. congruence.
Qed.

Lemma contains_Empty (a : string) :
  PyStr.contains a EmptyString = String.prefix a EmptyString || false.
Proof. reflexivity. Qed.

Lemma contains_String (a : string) (c : ascii) (h : string) :
  PyStr.contains a (String c h)
  = String.prefix a (String c h) || PyStr.contains a h.
Proof. reflexivity. Qed.

Lemma contains_spec (a h : string) :
  PyStr.contains a h = true <->
  exists pre post, h = (pre ++ a ++ post)%string.
Proof.
  induction h as [|c h IH].
  - rewrite contains_Empty, orb_false_r, prefix_spec. split.
    + intros [post H]. exists EmptyString, post. exact H.
    + intros [[|c pre] [post H]]; [eauto | discriminate].
  - rewrite contains_String, orb_true_iff, prefix_spec, IH. split.
    + intros [[post H] | (pre & post & H)].
      * exists EmptyString, post. exact H.
      * exists (String c pre), post. rewrite append_String. congruence.
    + intros ([|c' pre] & post & H).
      * left. exists post. exact H.
      * right. exists pre, post. rewrite append_String in H. congruence.
Qed.

Lemma append_assoc (a b c : string) :
  ((a ++ b) ++ c = a ++ (b ++ c))%string.
Proof.
  induction a as [|x a IH]; [reflexivity|].
  rewrite !append_String. congruence.
Qed.

Lemma contains_trans (a b c : string) :
  PyStr.contains a b = true -> PyStr.contains b c = true ->
  PyStr.contains a c = true.
Proof.
  rewrite !contains_spec.
  intros (p1 & q1 & ->) (p2 & q2 & ->).
  exists (p2 ++ p1)%string, (q1 ++ q2)%string.
  now rewrite !append_assoc.
Qed.

Lemma is_digit_val (c : ascii) :
  PyStr.is_digit c = true -> 0 <= PyStr.digit_val c <= 9.
Proof.
  unfold PyStr.is_digit, PyStr.digit_val, Ascii.leb, Ascii.compare.
  rewrite andb_true_iff. intros [H1 H2].
  change (N_of_ascii "0") with 48%N in H1.
  change (N_of_ascii "9") with 57%N in H2.
  destruct (N.compare_spec 48 (N_of_ascii c)), (N.compare_spec (N_of_ascii c) 57);
    try discriminate; lia.
Qed.

Lemma find_above (cp : Z) (l : list Z) :
  Forall (fun z => cp < z) l ->
  List.find (fun z => (z <=? cp) && (cp <? z + 10)) l = None.
Proof.
  induction 1 as [|z l Hz _ IH]; simpl; [reflexivity|].
  destruct (Z.leb_spec z cp); [lia | exact IH].
Qed.

Lemma decimal_ascii (cp : Z) :
  cp < 128 ->
  PyStr.decimal cp
  = if (48 <=? cp) && (cp <? 58) then Some (cp - 48) else None.
Proof.
  intros H. unfold PyStr.decimal.
  set (f := fun z => (z <=? cp) && (cp <? z + 10)).
  change (List.find f PyStr.decimal_zeros)
    with (if f 48 then Some 48 else List.find f (tl PyStr.decimal_zeros)).
  unfold f at 1. change (48 + 10) with 58.
  destruct ((48 <=? cp) && (cp <? 58)); [reflexivity|].
  unfold f. rewrite find_above; [reflexivity|].
  cbn [tl PyStr.decimal_zeros].
  repeat (constructor; [lia|]). constructor.
Qed.

Lemma decimal_range (cp v : Z) :
  PyStr.decimal cp = Some v -> 0 <= v <= 9.
Proof.
  unfold PyStr.decimal.
  destruct (List.find _ _) as [z|] eqn:Hf; [|discriminate].
  apply find_some in Hf. destruct Hf as [_ Hz].
  intros [= <-]. lia.
Qed.

Lemma is_digit_byte (c : ascii) :
  PyStr.is_digit c = (48 <=? PyStr.byte c) && (PyStr.byte c <? 58).
Proof.
  unfold PyStr.is_digit, PyStr.byte, Ascii.leb, Ascii.compare.
  change (N_of_ascii "0") with 48%N. change (N_of_ascii "9") with 57%N.
  destruct (N.compare_spec 48 (N_of_ascii c)),
    (N.compare_spec (N_of_ascii c) 57);
    destruct (Z.leb_spec 48 (Z.of_N (N_of_ascii c))),
      (Z.ltb_spec (Z.of_N (N_of_ascii c)) 58); try reflexivity; lia.
Qed.

Lemma byte_range (c : ascii) : 0 <= PyStr.byte c < 256.
Proof.
  unfold PyStr.byte. pose proof (N_ascii_bounded c). lia.
Qed.

(** What a successful [decode] says. *)
Lemma decode_inv (s : string) (cp : Z) (p r : string) :
  PyStr.decode s = Some (cp, p, r) ->
  s = (p ++ r)%string
  /\ (forall r', PyStr.decode (p ++ r') = Some (cp, p, r'))
  /\ (forall r', AgentSpec.code_points (p ++ r') = cp :: AgentSpec.code_points r')
  /\ ((cp < 128 /\ exists c, p = String c EmptyString /\ PyStr.byte c = cp)
      \/ (128 <= cp /\ exists c p', p = String c p' /\ 194 <= PyStr.byte c
                                    /\ p' <> EmptyString)).
Proof.
  unfold PyStr.decode.
  destruct s as [|b0 r0]; [discriminate|].
  destruct (Z.ltb_spec (PyStr.byte b0) 128) as [H0|H0].
  { intros [= <- <- <-]. repeat split.
    - intros r'. rewrite ?append_String, ?append_Empty. cbn. destruct (Z.ltb_spec (PyStr.byte b0) 128); [reflexivity|lia].
    - intros r'. unfold AgentSpec.code_points. rewrite ?append_String, ?append_Empty. cbn.
      destruct (Z.ltb_spec (PyStr.byte b0) 128); [reflexivity|lia].
    - left. split; [exact H0|]. now exists b0. }
  destruct r0 as [|b1 r1]; [discriminate|].
  destruct ((194 <=? PyStr.byte b0) && (PyStr.byte b0 <? 224)) eqn:H2.
  { destruct (PyStr.continues b1) eqn:C1; [|discriminate].
    intros [= <- <- <-].
    apply andb_true_iff in H2. destruct H2 as [H2a H2b].
    apply Z.leb_le in H2a. apply Z.ltb_lt in H2b.
    pose proof C1 as C1'. unfold PyStr.continues in C1'.
    apply andb_true_iff in C1'. destruct C1' as [C1a C1b].
    apply Z.leb_le in C1a. apply Z.ltb_lt in C1b.
    repeat split.
    - intros r'. rewrite ?append_String, ?append_Empty. cbn.
      destruct (Z.ltb_spec (PyStr.byte b0) 128); [lia|].
      destruct (Z.leb_spec 194 (PyStr.byte b0)); [|lia].
      destruct (Z.ltb_spec (PyStr.byte b0) 224); [|lia].
      cbn. now rewrite C1.
    - intros r'. unfold AgentSpec.code_points. rewrite ?append_String, ?append_Empty. cbn.
      destruct (Z.ltb_spec (PyStr.byte b0) 128); [lia|].
      destruct (Z.ltb_spec (PyStr.byte b0) 224); [|lia]. reflexivity.
    - right. split; [lia|]. exists b0, (String b1 EmptyString).
      repeat split; [lia | discriminate]. }
  destruct r1 as [|b2 r2]; [discriminate|].
  destruct ((224 <=? PyStr.byte b0) && (PyStr.byte b0 <? 240)) eqn:H3.
  { cbv zeta.
    destruct (PyStr.continues b1) eqn:C1; [|discriminate].
    destruct (PyStr.continues b2) eqn:C2; [|discriminate].
    cbn [andb].
    destruct (2048 <=? _) eqn:V1; [|discriminate].
    destruct ((55296 <=? _) && _) eqn:V2; [discriminate|].
    cbn [andb negb].
    intros [= <- <- <-]. apply Z.leb_le in V1.
    apply andb_true_iff in H3. destruct H3 as [H3a H3b].
    apply Z.leb_le in H3a. apply Z.ltb_lt in H3b.
    pose proof C1 as C1'. unfold PyStr.continues in C1'.
    apply andb_true_iff in C1'. destruct C1' as [C1a C1b].
    apply Z.leb_le in C1a. apply Z.ltb_lt in C1b.
    pose proof C2 as C2'. unfold PyStr.continues in C2'.
    apply andb_true_iff in C2'. destruct C2' as [C2a C2b].
    apply Z.leb_le in C2a. apply Z.ltb_lt in C2b.
    repeat split.
    - intros r'. rewrite ?append_String, ?append_Empty. cbn.
      destruct (Z.ltb_spec (PyStr.byte b0) 128); [lia|].
      destruct (Z.leb_spec 194 (PyStr.byte b0)); [|lia].
      destruct (Z.ltb_spec (PyStr.byte b0) 224); [lia|].
      destruct (Z.leb_spec 224 (PyStr.byte b0)); [|lia].
      destruct (Z.ltb_spec (PyStr.byte b0) 240); [|lia].
      cbn. rewrite C1, C2. cbn [andb].
      apply Z.leb_le in V1. rewrite V1, V2. reflexivity.
    - intros r'. unfold AgentSpec.code_points. rewrite ?append_String, ?append_Empty. cbn.
      destruct (Z.ltb_spec (PyStr.byte b0) 128); [lia|].
      destruct (Z.ltb_spec (PyStr.byte b0) 224); [lia|].
      destruct (Z.ltb_spec (PyStr.byte b0) 240); [|lia]. reflexivity.
    - right. split; [lia|]. exists b0, (String b1 (String b2 EmptyString)).
      repeat split; [lia | discriminate]. }
  destruct r2 as [|b3 r3]; [discriminate|].
  destruct ((240 <=? PyStr.byte b0) && (PyStr.byte b0 <? 245)) eqn:H4;
    [|discriminate].
  cbv zeta.
  destruct (PyStr.continues b1) eqn:C1; [|discriminate].
  destruct (PyStr.continues b2) eqn:C2; [|discriminate].
  destruct (PyStr.continues b3) eqn:C3; [|discriminate].
  cbn [andb].
  destruct (65536 <=? _) eqn:V1; [|discriminate].
  destruct (_ <? 1114112) eqn:V2; [|discriminate].
  cbn [andb]. intros [= <- <- <-]. apply Z.leb_le in V1.
  apply andb_true_iff in H4. destruct H4 as [H4a H4b].
  apply Z.leb_le in H4a. apply Z.ltb_lt in H4b.
  pose proof C1 as C1'. unfold PyStr.continues in C1'.
  apply andb_true_iff in C1'. destruct C1' as [C1a C1b].
  apply Z.leb_le in C1a. apply Z.ltb_lt in C1b.
  pose proof C2 as C2'. unfold PyStr.continues in C2'.
  apply andb_true_iff in C2'. destruct C2' as [C2a C2b].
  apply Z.leb_le in C2a. apply Z.ltb_lt in C2b.
  pose proof C3 as C3'. unfold PyStr.continues in C3'.
  apply andb_true_iff in C3'. destruct C3' as [C3a C3b].
  apply Z.leb_le in C3a. apply Z.ltb_lt in C3b.
  repeat split.
  - intros r'. rewrite ?append_String, ?append_Empty. cbn.
    destruct (Z.ltb_spec (PyStr.byte b0) 128); [lia|].
    destruct (Z.leb_spec 194 (PyStr.byte b0)); [|lia].
    destruct (Z.ltb_spec (PyStr.byte b0) 224); [lia|].
    destruct (Z.leb_spec 224 (PyStr.byte b0)); [|lia].
    destruct (Z.ltb_spec (PyStr.byte b0) 240); [lia|].
    destruct (Z.leb_spec 240 (PyStr.byte b0)); [|lia].
    destruct (Z.ltb_spec (PyStr.byte b0) 245); [|lia].
    cbn. rewrite C1, C2, C3. cbn [andb].
    apply Z.leb_le in V1. rewrite V1, V2. reflexivity.
  - intros r'. unfold AgentSpec.code_points. rewrite ?append_String, ?append_Empty. cbn.
    destruct (Z.ltb_spec (PyStr.byte b0) 128); [lia|].
    destruct (Z.ltb_spec (PyStr.byte b0) 224); [lia|].
    destruct (Z.ltb_spec (PyStr.byte b0) 240); [lia|]. reflexivity.
  - right. split; [lia|].
    exists b0, (String b1 (String b2 (String b3 EmptyString))).
    repeat split; [lia | discriminate].
Qed.

Lemma append_nil_r (s : string) : (s ++ "")%string = s.
Proof.
  induction s as [|c s IH]; [reflexivity|].
  rewrite append_String. now rewrite IH.
Qed.

Lemma length_append (a b : string) :
  String.length (a ++ b) = (String.length a + String.length b)%nat.
Proof.
  induction a as [|c a IH]; [reflexivity|].
  rewrite append_String. simpl. now rewrite IH.
Qed.

(** What a match of [\d] says: the digit is an ASCII digit on one byte, or
    a character of several bytes. *)
Lemma digit_at_inv (s : string) (v : Z) (p r : string) :
  PyStr.digit_at s = Some (v, p, r) ->
  s = (p ++ r)%string
  /\ 0 <= v <= 9
  /\ (forall r', PyStr.digit_at (p ++ r') = Some (v, p, r'))
  /\ exists cp,
       PyStr.decimal cp = Some v
       /\ (forall r', AgentSpec.code_points (p ++ r') = cp :: AgentSpec.code_points r')
       /\ ((cp < 128
            /\ exists c, p = String c EmptyString
                         /\ PyStr.is_digit c = true /\ PyStr.digit_val c = v)
           \/ (128 <= cp
               /\ exists c p', p = String c p' /\ 194 <= PyStr.byte c
                               /\ p' <> EmptyString)).
Proof.
  unfold PyStr.digit_at.
  destruct (PyStr.decode s) as [[[cp p0] r0]|] eqn:Hd; [|discriminate].
  destruct (PyStr.decimal cp) as [v0|] eqn:Hv; [|discriminate].
  intros [= <- <- <-].
  destruct (decode_inv _ _ _ _ Hd) as (Hs & Ha & Hc & Hk).
  split; [exact Hs|]. split; [eapply decimal_range; eauto|].
  split; [intros r'; now rewrite Ha, Hv|].
  exists cp. split; [exact Hv|]. split; [exact Hc|].
  destruct Hk as [[Hlt (c & -> & Hb)]|[Hge H]]; [left|right; auto].
  split; [exact Hlt|]. exists c. split; [reflexivity|].
  rewrite decimal_ascii in Hv by exact Hlt.
  rewrite is_digit_byte, Hb.
  destruct ((48 <=? cp) && (cp <? 58)); [|discriminate].
  split; [reflexivity|]. injection Hv as <-.
  unfold PyStr.digit_val. fold (PyStr.byte c). lia.
Qed.

Lemma digit_at_ascii (c : ascii) (r : string) :
  PyStr.is_digit c = true ->
  PyStr.digit_at (String c r)
  = Some (PyStr.digit_val c, String c EmptyString, r).
Proof.
  intros H. rewrite is_digit_byte in H.
  apply andb_true_iff in H. destruct H as [H1 H2].
  pose proof H1 as H1'. pose proof H2 as H2'.
  apply Z.leb_le in H1'. apply Z.ltb_lt in H2'.
  unfold PyStr.digit_at, PyStr.decode.
  destruct (Z.ltb_spec (PyStr.byte c) 128); [|lia].
  rewrite decimal_ascii by lia. rewrite H1, H2. reflexivity.
Qed.

Lemma digit_at_other (c : ascii) (r : string) :
  PyStr.byte c < 128 -> PyStr.is_digit c = false ->
  PyStr.digit_at (String c r) = None.
Proof.
  intros Hb H. rewrite is_digit_byte in H.
  unfold PyStr.digit_at, PyStr.decode.
  destruct (Z.ltb_spec (PyStr.byte c) 128); [|lia].
  rewrite decimal_ascii by lia. now rewrite H.
Qed.

(** What a match of [\d{n}] says. *)
Lemma digits_at_inv (n : nat) :
  forall (s t r : string),
    PyStr.digits_at n s = Some (t, r) ->
    s = (t ++ r)%string
    /\ (forall r', PyStr.digits_at n (t ++ r') = Some (t, r'))
    /\ (n <= String.length t)%nat
    /\ exists cps,
         List.length cps = n
         /\ (forall r',
               AgentSpec.code_points (t ++ r')
               = cps ++ AgentSpec.code_points r')
         /\ 0 <= AgentSpec.number cps < 10 ^ Z.of_nat n
         /\ forall fuel acc r',
              PyStr.digit_at r' = None ->
              PyStr.int_from (n + fuel) acc (t ++ r')
              = 10 ^ Z.of_nat n * acc + AgentSpec.number cps.
Proof.
  induction n as [|n IH]; intros s t r; cbn [PyStr.digits_at].
  - intros [= <- <-]. repeat split; [lia|].
    exists []. split; [reflexivity|]. split; [reflexivity|].
    split; [simpl; lia|]. intros fuel acc r' Hr'.
    rewrite append_Empty. cbn [Nat.add].
    destruct fuel; cbn [PyStr.int_from]; [|rewrite Hr']; simpl; lia.
  - destruct (PyStr.digit_at s) as [[[v p] r0]|] eqn:Hd; [|discriminate].
    destruct (PyStr.digits_at n r0) as [[t0 r1]|] eqn:Hn; [|discriminate].
    intros [= <- <-].
    destruct (digit_at_inv _ _ _ _ Hd) as (Hs & Hv & Ha & cp & Hcp & Hc & Hk).
    destruct (IH _ _ _ Hn) as (Hs0 & Ha0 & Hl0 & cps & Hlen & Hc0 & Hv0 & Hi0).
    split; [rewrite append_assoc; congruence|].
    split.
    { intros r'. rewrite append_assoc, Ha, Ha0. reflexivity. }
    split.
    { rewrite length_append.
      assert (1 <= String.length p)%nat.
      { destruct Hk as [[_ (c & -> & _)]|[_ (c & p' & -> & _)]]; simpl; lia. }
      lia. }
    exists (cp :: cps).
    assert (10 ^ Z.of_nat (S n) = 10 * 10 ^ Z.of_nat n) as Hp.
    { rewrite Nat2Z.inj_succ, Z.pow_succ_r by lia. reflexivity. }
    assert (AgentSpec.number (cp :: cps)
            = 10 ^ Z.of_nat n * v + AgentSpec.number cps) as Hnum.
    { cbn [AgentSpec.number]. unfold AgentSpec.digit_value.
      rewrite Hcp, Hlen. reflexivity. }
    split; [simpl; congruence|].
    split.
    { intros r'. rewrite append_assoc, Hc, Hc0. reflexivity. }
    split; [rewrite Hnum, Hp; nia|].
    intros fuel acc r' Hr'.
    cbn [Nat.add PyStr.int_from]. rewrite append_assoc, Ha.
    rewrite Hi0 by exact Hr'. rewrite Hnum, Hp. ring.
Qed.

Lemma digit_at_Empty : PyStr.digit_at EmptyString = None.
Proof. reflexivity. Qed.

(** The text of a match of [\d{n}] is read by [int] as the number that its
    [n] digits write. *)
Lemma int_digits_at (n : nat) (s t r : string) :
  PyStr.digits_at n s = Some (t, r) ->
  0 <= PyStr.int t < 10 ^ Z.of_nat n
  /\ exists cps,
       List.length cps = n
       /\ (forall r',
             AgentSpec.code_points (t ++ r')
             = cps ++ AgentSpec.code_points r')
       /\ PyStr.int t = AgentSpec.number cps.
Proof.
  intros H.
  destruct (digits_at_inv _ _ _ _ H)
    as (_ & _ & Hl & cps & Hlen & Hc & Hv & Hi).
  assert (PyStr.int t = 10 ^ Z.of_nat n * 0 + AgentSpec.number cps) as E.
  { unfold PyStr.int.
    replace (String.length t) with (n + (String.length t - n))%nat by lia.
    rewrite <- (append_nil_r t) at 2.
    now rewrite Hi. }
  split; [lia|]. exists cps. repeat split; auto. lia.
Qed.

Lemma match_d4_year (s m : string) :
  PyStr.match_d4 s = Some m -> 0 <= PyStr.int m <= 9999.
Proof.
  unfold PyStr.match_d4.
  destruct (PyStr.digits_at 4 s) as [[t r]|] eqn:H; [|discriminate].
  intros [= <-]. apply int_digits_at in H. destruct H as [H _].
  simpl in H. lia.
Qed.

Lemma re_search_d4_String (c : ascii) (s : string) :
  PyStr.re_search_d4 (String c s)
  = match PyStr.match_d4 (String c s) with
    | Some m => Some m
    | None => PyStr.re_search_d4 s
    end.
Proof. reflexivity. Qed.

Lemma re_search_d4_year (s m : string) :
  PyStr.re_search_d4 s = Some m -> 0 <= PyStr.int m <= 9999.
Proof.
  induction s as [|c s IH].
  - discriminate.
  - rewrite re_search_d4_String.
    destruct (PyStr.match_d4 (String c s)) as [m'|] eqn:Hm.
    + intros [= <-]. eapply match_d4_year; eauto.
    + exact IH.
Qed.

End StringFacts.

(** ** Numbers written in decimal *)

Section DecimalTexts.

Import TextSpec.

Lemma range_forallb (P : Z -> bool) (n : nat) :
  forallb P (map Z.of_nat (seq 0 n)) = true ->
  forall z, 0 <= z < Z.of_nat n -> P z = true.
Proof.
  intros H z Hz. rewrite forallb_forall in H. apply H.
  apply in_map_iff. exists (Z.to_nat z). split; [lia|].
  apply in_seq. lia.
Qed.

(** A year of four digits is written with its four digits. *)
Lemma str_four_digits (n : Z) :
  1000 <= n <= 9999 -> PyStr.str n = four_digits n.
Proof.
  intros Hn.
  pose proof (range_forallb
                (fun z => (z <? 1000)
                          || String.eqb (PyStr.str z) (four_digits z))
                (Z.to_nat 10000)) as H.
  specialize (H ltac:(vm_compute; reflexivity) n ltac:(lia)).
  cbv beta in H. destruct (Z.ltb_spec n 1000); [lia|].
  now apply String.eqb_eq.
Qed.

Lemma zfill_2 (n : Z) : 0 <= n <= 99 -> PyStr.zfill 2 n = two_digits n.
Proof.
  intros Hn. apply String.eqb_eq.
  apply (range_forallb
           (fun z => String.eqb (PyStr.zfill 2 z) (two_digits z))
           (Z.to_nat 100));
    [vm_compute; reflexivity | lia].
Qed.

Lemma digit_char_digit (k : Z) :
  0 <= k <= 9 ->
  PyStr.is_digit (PyStr.digit_char k) = true
  /\ PyStr.digit_val (PyStr.digit_char k) = k.
Proof.
  intros Hk.
  assert (k = 0 \/ k = 1 \/ k = 2 \/ k = 3 \/ k = 4 \/ k = 5 \/ k = 6
          \/ k = 7 \/ k = 8 \/ k = 9) as H by lia.
  repeat (destruct H as [->|H]); try subst k; split; reflexivity.
Qed.

Lemma digit_char_val (c : ascii) :
  PyStr.is_digit c = true -> PyStr.digit_char (PyStr.digit_val c) = c.
Proof.
  intros H. pose proof (is_digit_val c H) as Hv.
  unfold PyStr.digit_char, PyStr.digit_val in *.
  replace (Z.to_N (48 + (Z.of_N (N_of_ascii c) - 48))) with (N_of_ascii c)
    by lia.
  apply ascii_N_embedding.
Qed.

Lemma digit_char_inj (a b : Z) :
  0 <= a <= 9 -> 0 <= b <= 9 ->
  PyStr.digit_char a = PyStr.digit_char b -> a = b.
Proof.
  intros Ha Hb H.
  rewrite <- (proj2 (digit_char_digit a Ha)), <- (proj2 (digit_char_digit b Hb)).
  now rewrite H.
Qed.

Lemma value_four_digits (n : Z) :
  0 <= n <= 9999 -> value_from 0 (four_digits n) = n.
Proof.
  intros Hn. unfold four_digits, value_from, chars.
  cbn [list_ascii_of_string fold_left].
  rewrite !(fun k H => proj2 (digit_char_digit k H))
    by (Z.to_euclidean_division_equations; lia).
  Z.to_euclidean_division_equations. lia.
Qed.

Lemma value_two_digits (n : Z) :
  0 <= n <= 99 -> value_from 0 (two_digits n) = n.
Proof.
  intros Hn. unfold two_digits, value_from, chars.
  cbn [list_ascii_of_string fold_left].
  rewrite !(fun k H => proj2 (digit_char_digit k H))
    by (Z.to_euclidean_division_equations; lia).
  Z.to_euclidean_division_equations. lia.
Qed.

Lemma int_from_ascii (fuel : nat) (acc : Z) (c : ascii) (r : string) :
  PyStr.is_digit c = true ->
  PyStr.int_from (S fuel) acc (String c r)
  = PyStr.int_from fuel (10 * acc + PyStr.digit_val c) r.
Proof.
  intros H. cbn [PyStr.int_from]. now rewrite (digit_at_ascii c r H).
Qed.

Lemma digits_at_ascii (n : nat) (c : ascii) (r : string) :
  PyStr.is_digit c = true ->
  PyStr.digits_at (S n) (String c r)
  = match PyStr.digits_at n r with
    | Some (t, r') => Some (String c t, r')
    | None => None
    end.
Proof.
  intros H. cbn [PyStr.digits_at]. now rewrite (digit_at_ascii c r H).
Qed.

Lemma int_four_digits (n : Z) :
  0 <= n <= 9999 -> PyStr.int (four_digits n) = n.
Proof.
  intros Hn. unfold four_digits, PyStr.int. cbn [String.length].
  rewrite !int_from_ascii
    by (apply digit_char_digit; Z.to_euclidean_division_equations; lia).
  cbn [PyStr.int_from].
  rewrite !(fun k H => proj2 (digit_char_digit k H))
    by (Z.to_euclidean_division_equations; lia).
  Z.to_euclidean_division_equations. lia.
Qed.

End DecimalTexts.

(** ** The calendar *)

Section CalendarFacts.

Import CalendarSpec.

(** The 400 years of the first cycle of the calendar, day by day. *)
Lemma first_cycle :
  forallb year_round_trip (map Z.of_nat (seq 1 400)) = true.
Proof. vm_cast_no_check (eq_refl true). Qed.

Lemma is_leap_shift (y : Z) : Calendar.is_leap (y + 400) = Calendar.is_leap y.
Proof.
  unfold Calendar.is_leap.
  replace ((y + 400) mod 4) with (y mod 4)
    by (Z.to_euclidean_division_equations; lia).
  replace ((y + 400) mod 100) with (y mod 100)
    by (Z.to_euclidean_division_equations; lia).
  replace ((y + 400) mod 400) with (y mod 400)
    by (Z.to_euclidean_division_equations; lia).
  reflexivity.
Qed.

Lemma is_date_shift (y m d : Z) : is_date (y + 400) m d = is_date y m d.
Proof.
  unfold is_date, Calendar.days_in_month. now rewrite is_leap_shift.
Qed.

Lemma ymd2ord_shift (y m d : Z) :
  Calendar.ymd2ord (y + 400) m d = Calendar.ymd2ord y m d + 146097.
Proof.
  unfold Calendar.ymd2ord, Calendar.days_before_month,
    Calendar.days_before_year.
  rewrite is_leap_shift. cbv zeta.
  Z.to_euclidean_division_equations. lia.
Qed.

Lemma ord2ymd_shift (n : Z) :
  Calendar.ord2ymd (n + 146097)
  = let '(y, m, d) := Calendar.ord2ymd n in (y + 400, m, d).
Proof.
  unfold Calendar.ord2ymd.
  replace ((n + 146097 - 1) / 146097) with ((n - 1) / 146097 + 1)
    by (Z.to_euclidean_division_equations; lia).
  replace ((n + 146097 - 1) mod 146097) with ((n - 1) mod 146097)
    by (Z.to_euclidean_division_equations; lia).
  cbv zeta.
  set (r := (n - 1) mod 146097).
  destruct ((r mod 36524 mod 1461 / 365 =? 4) || (r / 36524 =? 4));
    [f_equal; f_equal; lia|].
  match goal with
  | |- context [if ?c then _ else _] => destruct c
  end; f_equal; f_equal; lia.
Qed.

Lemma round_trip_cycles (k : nat) :
  forall y m d,
    1 <= y <= 400 -> is_date y m d = true ->
    Calendar.ord2ymd (Calendar.ymd2ord (y + 400 * Z.of_nat k) m d)
    = (y + 400 * Z.of_nat k, m, d).
Proof.
  induction k as [|k IH]; intros y m d Hy Hd.
  - replace (y + 400 * Z.of_nat 0) with y by lia.
    pose proof first_cycle as H. rewrite forallb_forall in H.
    specialize (H y). unfold year_round_trip in H.
    rewrite forallb_forall in H.
    assert (In y (map Z.of_nat (seq 1 400))) as Hin.
    { apply in_map_iff. exists (Z.to_nat y). split; [lia|].
      apply in_seq. lia. }
    specialize (H Hin m).
    unfold is_date in Hd. rewrite !andb_true_iff, !Z.leb_le in Hd.
    assert (Calendar.days_in_month y m <= 31) as Hdim.
    { unfold Calendar.days_in_month. destruct m as [|p|p]; try lia.
      do 4 (try destruct p as [p|p|]; try lia);
        try destruct (Calendar.is_leap y); lia. }
    assert (In m (map Z.of_nat (seq 1 12))) as Hm.
    { apply in_map_iff. exists (Z.to_nat m). split; [lia|].
      apply in_seq. lia. }
    specialize (H Hm). rewrite forallb_forall in H.
    assert (In d (map Z.of_nat (seq 1 31))) as Hdd.
    { apply in_map_iff. exists (Z.to_nat d). split; [lia|].
      apply in_seq. lia. }
    specialize (H d Hdd).
    assert (is_date y m d = true) as Hdate.
    { unfold is_date. rewrite !andb_true_iff, !Z.leb_le. lia. }
    rewrite Hdate in H. cbn [negb orb] in H.
    destruct (Calendar.ord2ymd (Calendar.ymd2ord y m d)) as [[y' m'] d'].
    unfold same_day in H. rewrite !andb_true_iff, !Z.eqb_eq in H.
    destruct H as [[-> ->] ->]. reflexivity.
  - replace (y + 400 * Z.of_nat (S k)) with (y + 400 * Z.of_nat k + 400)
      by lia.
    rewrite ymd2ord_shift, ord2ymd_shift, (IH y m d Hy Hd). reflexivity.
Qed.

(** [ord2ymd] gives back every day of the calendar from its ordinal. *)
Lemma ord2ymd_ymd2ord (y m d : Z) :
  1 <= y -> is_date y m d = true ->
  Calendar.ord2ymd (Calendar.ymd2ord y m d) = (y, m, d).
Proof.
  intros Hy Hd.
  set (k := (y - 1) / 400). set (y0 := (y - 1) mod 400 + 1).
  assert (y = y0 + 400 * Z.of_nat (Z.to_nat k)) as E.
  { subst k y0. rewrite Z2Nat.id by (Z.to_euclidean_division_equations; lia).
    Z.to_euclidean_division_equations. lia. }
  assert (1 <= y0 <= 400) as H0
    by (subst y0; Z.to_euclidean_division_equations; lia).
  assert (is_date y0 m d = true) as Hd0.
  { rewrite <- Hd, E. clear.
    induction (Z.to_nat k) as [|n IH].
    - now replace (y0 + 400 * Z.of_nat 0) with y0 by lia.
    - replace (y0 + 400 * Z.of_nat (S n)) with (y0 + 400 * Z.of_nat n + 400)
        by lia.
      now rewrite is_date_shift. }
  rewrite E. now apply round_trip_cycles.
Qed.

(** The day on which a week ends is the only Sunday among the day and the
    six days after it. *)
Lemma week_end_unique (n w : Z) :
  n <= w <= n + 6 -> Calendar.weekday w = 6 -> Calendar.week_end n = w.
Proof.
  unfold Calendar.week_end, Calendar.weekday. intros H1 H2.
  Z.to_euclidean_division_equations. lia.
Qed.

End CalendarFacts.

(** ** The date extractor *)

Section ExtractDates.

Import Agent AgentSpec.

Lemma scan_months_no_year (items : list (string * Z)) (prompt : string) :
  PyStr.re_search_d4 prompt = None -> scan_months items prompt = None.
Proof.
  intros Hy. induction items as [|[name num] rest IH]; simpl.
  - reflexivity.
  - rewrite Hy, IH. now destruct (PyStr.contains name prompt).
Qed.

Lemma scan_months_no_word (items : list (string * Z)) (prompt : string) :
  List.find (occurs_in prompt) items = None ->
  scan_months items prompt = None.
Proof.
  induction items as [|[name num] rest IH]; simpl.
  - reflexivity.
  - unfold occurs_in at 1. simpl.
    destruct (PyStr.contains name prompt); [discriminate | exact IH].
Qed.

Lemma scan_months_find (items : list (string * Z)) (prompt yt word : string)
    (num : Z) :
  PyStr.re_search_d4 prompt = Some yt ->
  List.find (occurs_in prompt) items = Some (word, num) ->
  scan_months items prompt = Some (month_range yt num).
Proof.
  intros Hy. induction items as [|[name k] rest IH]; simpl.
  - discriminate.
  - rewrite Hy. unfold occurs_in at 1. simpl.
    destruct (PyStr.contains name prompt).
    + now intros [= _ ->].
    + exact IH.
Qed.

Lemma month_mapping_range (word : string) (num : Z) :
  In (word, num) month_mapping -> 1 <= num <= 12.
Proof.
  unfold month_mapping. simpl.
  intros H.
  repeat (destruct H as [H|H]; [inversion H; lia|]).
  contradiction.
Qed.

Lemma datetime_new_valid (y m d : Z) :
  1 <= y <= 9999 -> 1 <= m <= 12 -> 1 <= d <= Calendar.days_in_month y m ->
  datetime_new y m d = Returns {| year := y; month := m; day := d |}.
Proof.
  intros Hy Hm Hd. unfold datetime_new.
  replace ((1 <=? y) && (y <=? 9999)) with true by (symmetry; apply andb_true_iff; lia).
  replace ((1 <=? m) && (m <=? 12)) with true by (symmetry; apply andb_true_iff; lia).
  replace ((1 <=? d) && (d <=? Calendar.days_in_month y m)) with true
    by (symmetry; apply andb_true_iff; lia).
  reflexivity.
Qed.

Lemma last_day_in_month (y m : Z) :
  1 <= m <= 12 -> 1 <= last_day m <= Calendar.days_in_month y m.
Proof.
  intros Hm.
  assert (m = 1 \/ m = 2 \/ m = 3 \/ m = 4 \/ m = 5 \/ m = 6 \/ m = 7 \/ m = 8
          \/ m = 9 \/ m = 10 \/ m = 11 \/ m = 12) as H by lia.
  unfold last_day, Calendar.days_in_month.
  repeat (destruct H as [->|H]); try subst m; simpl;
    try destruct (Calendar.is_leap y); lia.
Qed.

Lemma month_range_valid (yt : string) (m : Z) :
  1 <= PyStr.int yt <= 9999 -> 1 <= m <= 12 ->
  month_range yt m
  = Returns ({| year := PyStr.int yt; month := m; day := 1 |},
             {| year := PyStr.int yt; month := m; day := last_day m |}).
Proof.
  intros Hy Hm. unfold month_range.
  pose proof (last_day_in_month (PyStr.int yt) m Hm) as Hl.
  rewrite datetime_new_valid by lia. cbn [bind].
  assert ((if m =? 2 then datetime_new (PyStr.int yt) m 28
           else if existsb (Z.eqb m) [4; 6; 9; 11]
                then datetime_new (PyStr.int yt) m 30
                else datetime_new (PyStr.int yt) m 31)
          = datetime_new (PyStr.int yt) m (last_day m)) as ->.
  { unfold last_day. destruct (m =? 2); [reflexivity|].
    now destruct (existsb (Z.eqb m) [4; 6; 9; 11]). }
  rewrite datetime_new_valid by lia. reflexivity.
Qed.

(** The month strategy: the first month word of the table found in the
    prompt and the leftmost run of four digits decide the result. *)
Lemma extract_dates_month (prompt word yt : string) (m : Z) :
  first_month_word prompt = Some (word, m) ->
  PyStr.re_search_d4 prompt = Some yt ->
  1 <= PyStr.int yt ->
  extract_dates prompt
  = Returns (Some {| year := PyStr.int yt; month := m; day := 1 |},
             Some {| year := PyStr.int yt; month := m; day := last_day m |}).
Proof.
  intros Hw Hy Hpos. unfold extract_dates.
  rewrite (scan_months_find _ _ _ _ _ Hy Hw).
  pose proof (re_search_d4_year _ _ Hy) as Hr.
  apply find_some in Hw. destruct Hw as [Hin _].
  apply month_mapping_range in Hin.
  rewrite month_range_valid by lia. reflexivity.
Qed.

Lemma extract_dates_month_year0 (prompt word yt : string) (m : Z) :
  first_month_word prompt = Some (word, m) ->
  PyStr.re_search_d4 prompt = Some yt ->
  PyStr.int yt = 0 ->
  extract_dates prompt = Raises (ValueError "year 0 is out of range").
Proof.
  intros Hw Hy H0. unfold extract_dates.
  rewrite (scan_months_find _ _ _ _ _ Hy Hw).
  unfold month_range, datetime_new. rewrite H0. reflexivity.
Qed.

Lemma scan_months_none (prompt : string) :
  no_month_year prompt -> scan_months month_mapping prompt = None.
Proof.
  intros [H|H].
  - now apply scan_months_no_word.
  - now apply scan_months_no_year.
Qed.

Lemma ascii_eqb_byte (a b : ascii) :
  (a =? b)%char = (PyStr.byte a =? PyStr.byte b).
Proof.
  destruct (Ascii.eqb_spec a b) as [->|Hne].
  - now rewrite Z.eqb_refl.
  - symmetry. apply Z.eqb_neq. intros H. apply Hne.
    unfold PyStr.byte in H. apply N2Z.inj in H.
    rewrite <- (ascii_N_embedding a), <- (ascii_N_embedding b).
    now rewrite H.
Qed.

Lemma ascii_leb_byte (a b : ascii) :
  (a <=? b)%char = (PyStr.byte a <=? PyStr.byte b).
Proof.
  unfold Ascii.leb, Ascii.compare, PyStr.byte.
  destruct (N.compare_spec (N_of_ascii a) (N_of_ascii b)),
    (Z.leb_spec (Z.of_N (N_of_ascii a)) (Z.of_N (N_of_ascii b)));
    try reflexivity; lia.
Qed.

Ltac bytes :=
  rewrite ?is_digit_byte, ?ascii_eqb_byte, ?ascii_leb_byte;
  unfold PyStr.digit_val;
  repeat match goal with
         | |- context [Z.of_N (N_of_ascii ?c)] => fold (PyStr.byte c)
         end;
  change (PyStr.byte "0") with 48; change (PyStr.byte "1") with 49;
  change (PyStr.byte "2") with 50; change (PyStr.byte "3") with 51;
  change (PyStr.byte "9") with 57; change (PyStr.byte " ") with 32;
  change (PyStr.byte "-") with 45.

Ltac split_tests :=
  repeat (match goal with
          | |- context [?a =? ?b] => destruct (Z.eqb_spec a b)
          | |- context [?a <=? ?b] => destruct (Z.leb_spec a b)
          | |- context [?a <? ?b] => destruct (Z.ltb_spec a b)
          end; try (exfalso; lia); cbn [andb orb negb]).

(** The month field reads two ASCII digits that write a month. *)
Lemma month_field_spec (m1 m2 : ascii) :
  month_field m1 m2
  = if PyStr.is_digit m1 && PyStr.is_digit m2
       && (1 <=? 10 * PyStr.digit_val m1 + PyStr.digit_val m2)
       && (10 * PyStr.digit_val m1 + PyStr.digit_val m2 <=? 12)
    then Some (10 * PyStr.digit_val m1 + PyStr.digit_val m2)
    else None.
Proof.
  unfold month_field. bytes.
  split_tests; try reflexivity; f_equal; lia.
Qed.

(** The day field on two ASCII digits. *)
Lemma day_field_ascii (d1 d2 : ascii) :
  PyStr.is_digit d1 = true -> PyStr.is_digit d2 = true ->
  day_field d1 (String d2 EmptyString)
  = if (1 <=? 10 * PyStr.digit_val d1 + PyStr.digit_val d2)
       && (10 * PyStr.digit_val d1 + PyStr.digit_val d2 <=? 31)
    then Some (10 * PyStr.digit_val d1 + PyStr.digit_val d2, EmptyString)
    else if PyStr.digit_val d1 =? 0 then None
         else Some (PyStr.digit_val d1, String d2 EmptyString).
Proof.
  intros H1 H2. unfold day_field. rewrite (digit_at_ascii d2 _ H2).
  revert H1 H2. bytes. intros H1 H2.
  apply andb_true_iff in H1, H2. destruct H1 as [A1 A2], H2 as [B1 B2].
  apply Z.leb_le in A1, B1. apply Z.ltb_lt in A2, B2.
  split_tests; try reflexivity; repeat f_equal; lia.
Qed.

(** The day field on an ASCII digit followed by a digit of several bytes. *)
Lemma day_field_wide (d1 c : ascii) (v : Z) (p' r : string) :
  PyStr.is_digit d1 = true -> 194 <= PyStr.byte c ->
  PyStr.digit_at (String c p' ++ r) = Some (v, String c p', r) ->
  day_field d1 (String c p' ++ r)
  = if (PyStr.digit_val d1 =? 1) || (PyStr.digit_val d1 =? 2)
    then Some (10 * PyStr.digit_val d1 + v, r)
    else if PyStr.digit_val d1 =? 0 then None
         else Some (PyStr.digit_val d1, (String c p' ++ r)%string).
Proof.
  intros H1 Hc Hd. unfold day_field. rewrite Hd. rewrite append_String.
  revert H1. bytes. intros H1.
  apply andb_true_iff in H1. destruct H1 as [A1 A2].
  apply Z.leb_le in A1. apply Z.ltb_lt in A2.
  split_tests; try reflexivity; repeat f_equal; lia.
Qed.

(** Neither field reads a character of several bytes first. *)
Lemma day_field_lead (d1 : ascii) (rest : string) :
  194 <= PyStr.byte d1 -> day_field d1 rest = None.
Proof.
  intros H. unfold day_field. bytes.
  split_tests; reflexivity.
Qed.

Lemma month_field_lead (m1 m2 : ascii) :
  194 <= PyStr.byte m1 \/ 194 <= PyStr.byte m2 -> month_field m1 m2 = None.
Proof.
  intros H. rewrite month_field_spec. bytes.
  destruct H; split_tests; reflexivity.
Qed.

Lemma valid_date_days (t : datetime) :
  valid_date t = true ->
  1 <= year t <= 9999 /\ 1 <= month t <= 12
  /\ 1 <= day t <= Calendar.days_in_month (year t) (month t)
  /\ day t <= 31.
Proof.
  unfold valid_date. rewrite !andb_true_iff, !Z.leb_le.
  intros (((((H1 & H2) & H3) & H4) & H5) & H6).
  assert (Calendar.days_in_month (year t) (month t) <= 31).
  { unfold Calendar.days_in_month. destruct (month t) as [|p|p]; try lia.
    do 4 (try destruct p as [p|p|]; try lia);
      try destruct (Calendar.is_leap (year t)); lia. }
  lia.
Qed.

Lemma datetime_new_date (y m d : Z) :
  valid_date {| year := y; month := m; day := d |} = true ->
  datetime_new y m d = Returns {| year := y; month := m; day := d |}.
Proof.
  intros H. apply valid_date_days in H. cbn [year month day] in H.
  apply datetime_new_valid; lia.
Qed.

Lemma datetime_new_no_date (y m d : Z) :
  valid_date {| year := y; month := m; day := d |} = false ->
  exists msg, datetime_new y m d = Raises (ValueError msg).
Proof.
  unfold valid_date, datetime_new. cbn [year month day]. intros H.
  destruct ((1 <=? y) && (y <=? 9999)) eqn:Hy; cbn [negb]; [|eauto].
  destruct ((1 <=? m) && (m <=? 12)) eqn:Hm; cbn [negb]; [|eauto].
  destruct ((1 <=? d) && (d <=? Calendar.days_in_month y m)) eqn:Hd;
    cbn [negb]; [|eauto].
  exfalso. rewrite !andb_true_iff in *.
  rewrite <- not_true_iff_false in H. apply H.
  rewrite !andb_true_iff. tauto.
Qed.

(** [strptime] refuses a text when a field does not read it. *)
Lemma strptime_no_month (s y : string) (h1 m1 : ascii) (tail : string) :
  PyStr.digits_at 4 s = Some (y, String h1 (String m1 tail)) ->
  (forall m2, month_field m1 m2 = None) ->
  exists msg, strptime s = Raises (ValueError msg).
Proof.
  intros H Hm. unfold strptime. rewrite H.
  destruct tail as [|m2 [|h2 [|d1 rest]]]; eauto.
  rewrite Hm. eauto.
Qed.

Lemma strptime_no_fields (s y : string) (h1 m1 m2 : ascii) (tail : string) :
  PyStr.digits_at 4 s = Some (y, String h1 (String m1 (String m2 tail))) ->
  month_field m1 m2 = None ->
  exists msg, strptime s = Raises (ValueError msg).
Proof.
  intros H Hm. unfold strptime. rewrite H.
  destruct tail as [|h2 [|d1 rest]]; eauto.
  rewrite Hm. eauto.
Qed.

Lemma strptime_fields (s y : string) (m1 m2 d1 : ascii) (rest : string) :
  PyStr.digits_at 4 s
  = Some (y, String "-" (String m1 (String m2 (String "-" (String d1 rest))))) ->
  strptime s
  = match month_field m1 m2, day_field d1 rest with
    | Some m, Some (d, unread) =>
        if negb (String.eqb unread "") then
          Raises (ValueError ("unconverted data remains: " ++ unread))
        else datetime_new (PyStr.int y) m d
    | _, _ =>
        Raises (ValueError
          ("time data '" ++ s ++ "' does not match format '%Y-%m-%d'"))
    end.
Proof.
  intros H. unfold strptime. rewrite H.
  destruct (month_field m1 m2) as [m|]; [|reflexivity].
  destruct (day_field d1 rest) as [[d unread]|]; reflexivity.
Qed.

Ltac norm_append :=
  repeat (rewrite append_assoc || rewrite append_String
          || rewrite append_Empty).

Lemma append_inv_head (p a b : string) :
  (p ++ a)%string = (p ++ b)%string -> a = b.
Proof.
  induction p as [|c p IH]; intros H; [exact H|].
  rewrite !append_String in H. injection H as H. auto.
Qed.

Lemma code_points_hyphen (r : string) :
  code_points (String "-" r) = 45 :: code_points r.
Proof. reflexivity. Qed.

Lemma number_two (a b : Z) :
  number [a; b] = 10 * digit_value a + digit_value b.
Proof. cbn [number List.length]. simpl. lia. Qed.

Lemma digit_at_text (s : string) (v : Z) (p r : string) :
  PyStr.digit_at s = Some (v, p, r) ->
  exists cp, digit_text p cp /\ v = digit_value cp.
Proof.
  intros H.
  destruct (digit_at_inv _ _ _ _ H) as (_ & _ & Ha & cp & Hcp & Hc & Hk).
  assert (digit_value cp = v) as Hv by (unfold digit_value; now rewrite Hcp).
  exists cp. split; [|congruence]. split.
  - intros r'. rewrite Hv. auto.
  - destruct Hk as [[Hlt (c & -> & Hd & Hval)]|[Hge (c & p' & -> & Hb & _)]].
    + left. split; [exact Hlt|]. exists c. repeat split; auto; [congruence|].
      specialize (Hc EmptyString). unfold code_points in Hc.
      rewrite append_String, append_Empty in Hc. cbn in Hc.
      destruct (PyStr.byte c <? 128) eqn:E; [now injection Hc|].
      exfalso. rewrite is_digit_byte in Hd.
      apply andb_true_iff in Hd. destruct Hd as [_ Hd].
      apply Z.ltb_lt in Hd. apply Z.ltb_ge in E. lia.
    + right. split; [exact Hge|]. eauto.
Qed.

(** A match of two digits is two digit texts. *)
Lemma digits_at_two (t : string) :
  (forall r', PyStr.digits_at 2 (t ++ r') = Some (t, r')) ->
  exists p1 c1 p2 c2,
    t = (p1 ++ p2)%string /\ digit_text p1 c1 /\ digit_text p2 c2.
Proof.
  intros H. specialize (H EmptyString). cbn [PyStr.digits_at] in H.
  destruct (PyStr.digit_at (t ++ "")) as [[[v1 p1] r1]|] eqn:H1;
    [|discriminate].
  destruct (PyStr.digit_at r1) as [[[v2 p2] r2]|] eqn:H2; [|discriminate].
  injection H as Ht Hr.
  destruct (digit_at_text _ _ _ _ H1) as (c1 & D1 & _).
  destruct (digit_at_text _ _ _ _ H2) as (c2 & D2 & _).
  exists p1, c1, p2, c2. rewrite append_nil_r in Ht. auto.
Qed.

(** What a match of the date pattern says. *)
Lemma match_date_inv (s d : string) :
  PyStr.match_date s = Some d ->
  exists y m dd r,
    d = (y ++ "-" ++ m ++ "-" ++ dd)%string
    /\ s = (d ++ r)%string
    /\ (forall r', PyStr.digits_at 4 (y ++ r') = Some (y, r'))
    /\ (forall r', PyStr.digits_at 2 (m ++ r') = Some (m, r'))
    /\ (forall r', PyStr.digits_at 2 (dd ++ r') = Some (dd, r')).
Proof.
  unfold PyStr.match_date.
  destruct (PyStr.digits_at 4 s) as [[y [|h1 r1]]|] eqn:Hy; try discriminate.
  destruct (PyStr.digits_at 2 r1) as [[m [|h2 r2]]|] eqn:Hm;
    try discriminate.
  destruct (PyStr.digits_at 2 r2) as [[dd r3]|] eqn:Hd; try discriminate.
  destruct (Ascii.eqb_spec h1 "-") as [->|]; [|discriminate].
  destruct (Ascii.eqb_spec h2 "-") as [->|]; [|discriminate].
  cbn [andb]. intros [= <-].
  destruct (digits_at_inv _ _ _ _ Hy) as (Ey & Ay & _).
  destruct (digits_at_inv _ _ _ _ Hm) as (Em & Am & _).
  destruct (digits_at_inv _ _ _ _ Hd) as (Ed & Ad & _).
  exists y, m, dd, r3. repeat split; auto.
  rewrite Ey, Em, Ed. change ("-" ++ ?x)%string with (String "-" x).
  norm_append. reflexivity.
Qed.

(** The text of a match is matched whole by the pattern. *)
Lemma match_date_self (s d : string) :
  PyStr.match_date s = Some d -> PyStr.match_date d = Some d.
Proof.
  intros H.
  destruct (match_date_inv _ _ H) as (y & m & dd & r & -> & _ & Ay & Am & Ad).
  pose proof (Ad EmptyString) as Hd. rewrite append_nil_r in Hd.
  unfold PyStr.match_date. norm_append. rewrite Ay, Am, Hd. reflexivity.
Qed.

Lemma re_findall_date_match (s : string) :
  forall (skip : nat) (d : string),
    In d (PyStr.re_findall_date_from skip s) -> PyStr.match_date d = Some d.
Proof.
  induction s as [|c s IH]; intros skip d; [contradiction|].
  cbn [PyStr.re_findall_date_from]. destruct skip as [|k]; [|apply IH].
  destruct (PyStr.match_date (String c s)) as [m|] eqn:Hm; [|apply IH].
  intros [<-|Hin]; [eapply match_date_self; eauto | eapply IH; eauto].
Qed.

(** [strptime] on the text of a match: it returns the date that the text
    writes when the month and the day are written as the format wants them
    and the date exists, and raises [ValueError] otherwise. *)
Lemma strptime_date_text (d : string) :
  PyStr.match_date d = Some d ->
  (readable d && valid_date (date_of_text d) = true
   /\ strptime d = Returns (date_of_text d))
  \/ (readable d && valid_date (date_of_text d) = false
      /\ exists msg, strptime d = Raises (ValueError msg)).
Proof.
  intros H.
  destruct (match_date_inv _ _ H) as (y & m & dd & r & Hd & _ & Ay & Am & Ad).
  destruct (digits_at_two _ Am) as (p5 & c5 & p6 & c6 & -> & D5 & D6).
  destruct (digits_at_two _ Ad) as (p7 & c7 & p8 & c8 & -> & D7 & D8).
  destruct (int_digits_at 4 _ _ _ (Ay EmptyString))
    as (_ & cps & Hlen & Hcps & Hint).
  destruct D5 as [F5 K5], D6 as [F6 K6], D7 as [F7 K7], D8 as [F8 K8].
  assert (code_points d = cps ++ [45; c5; c6; 45; c7; c8]) as Hcp.
  { subst d. norm_append. rewrite Hcps, code_points_hyphen.
    rewrite (proj2 (F5 _)), (proj2 (F6 _)), code_points_hyphen.
    rewrite (proj2 (F7 _)). rewrite <- (append_nil_r p8).
    rewrite (proj2 (F8 _)). reflexivity. }
  destruct cps as [|y1 [|y2 [|y3 [|y4 [|]]]]]; try discriminate Hlen.
  unfold readable, date_of_text. rewrite Hcp. cbn [app].
  rewrite <- Hint, !number_two.
  assert (PyStr.digits_at 4 d
          = Some (y, String "-" (p5 ++ p6 ++ String "-" (p7 ++ p8 ++ "")))%string)
    as Hy4.
  { subst d. norm_append. rewrite Ay. now rewrite append_nil_r. }
  clear Hcp Hcps Hint Hlen Ay Am Ad H Hd.
  (* the month *)
  destruct K5 as [[L5 (a5 & -> & I5 & V5 & B5)]|[L5 (b & p' & -> & Hb)]].
  2:{ right. split.
      - destruct (Z.ltb_spec c5 128); [lia | reflexivity].
      - rewrite append_String in Hy4.
        eapply strptime_no_month; [exact Hy4|].
        intros m2. apply month_field_lead. now left. }
  destruct K6 as [[L6 (a6 & -> & I6 & V6 & B6)]|[L6 (b & p' & -> & Hb)]].
  2:{ right. split.
      - destruct (Z.ltb_spec c6 128); [lia|]. now rewrite andb_false_r.
      - rewrite !append_String, append_Empty in Hy4.
        eapply strptime_no_fields; [exact Hy4|].
        apply month_field_lead. now right. }
  (* the day *)
  destruct K7 as [[L7 (a7 & -> & I7 & V7 & B7)]|[L7 (b & p' & -> & Hb)]].
  2:{ right. split.
      - destruct (Z.ltb_spec c7 128); [lia|].
        now rewrite !andb_false_r.
      - rewrite !append_String, !append_Empty in Hy4.
        rewrite (strptime_fields _ _ _ _ _ _ Hy4).
        rewrite day_field_lead by exact Hb.
        destruct (month_field a5 a6); eauto. }
  rewrite !append_String, !append_Empty in Hy4.
  rewrite (strptime_fields _ _ _ _ _ _ Hy4).
  rewrite month_field_spec, I5, I6, V5, V6. cbn [andb].
  destruct (Z.ltb_spec c5 128); [|lia].
  destruct (Z.ltb_spec c6 128); [|lia].
  destruct (Z.ltb_spec c7 128); [|lia]. cbn [andb].
  set (Y := PyStr.int y).
  set (M := 10 * digit_value c5 + digit_value c6).
  set (D := 10 * digit_value c7 + digit_value c8).
  destruct (valid_date {| year := Y; month := M; day := D |}) eqn:V.
  - (* the date exists *)
    pose proof (valid_date_days _ V) as (HY & HM & HD & HD31).
    cbn [year month day] in HY, HM, HD, HD31.
    destruct (Z.leb_spec 1 M); [|lia]. destruct (Z.leb_spec M 12); [|lia].
    cbn [andb].
    destruct K8 as [[L8 (a8 & -> & I8 & V8 & B8)]|[L8 (b & p' & -> & Hb)]].
    + left. rewrite append_String, append_Empty.
      rewrite (day_field_ascii _ _ I7 I8), V7, V8. fold D.
      destruct (Z.leb_spec 1 D); [|lia]. destruct (Z.leb_spec D 31); [|lia].
      cbn [andb String.eqb negb].
      destruct (Z.ltb_spec c8 128); [|lia].
      split; [reflexivity|]. now apply datetime_new_date.
    + destruct (F8 EmptyString) as [G8 _].
      rewrite (day_field_wide _ _ _ _ _ I7 Hb G8), V7.
      destruct (Z.ltb_spec c8 128); [lia|]. cbn [orb].
      assert (digit_value c7 = c7 - 48) as E7.
      { rewrite <- V7, <- B7. reflexivity. }
      rewrite E7.
      destruct (Z.eqb_spec c7 49), (Z.eqb_spec (c7 - 48) 1); try lia;
        cbn [orb].
      * left. cbn [String.eqb negb]. rewrite <- E7. fold D.
        split; [reflexivity|]. now apply datetime_new_date.
      * destruct (Z.eqb_spec c7 50), (Z.eqb_spec (c7 - 48) 2); try lia.
        -- left. cbn [String.eqb negb]. rewrite <- E7. fold D.
           split; [reflexivity|]. now apply datetime_new_date.
        -- right. split; [reflexivity|].
           destruct (c7 - 48 =? 0); [eauto|].
           rewrite append_String. cbn [String.eqb negb]. eauto.
  - (* no such date *)
    right. split; [now rewrite andb_false_r|].
    destruct ((1 <=? M) && (M <=? 12)) eqn:EM; [|eauto].
    destruct (day_field a7 (p8 ++ "")) as [[d0 unread]|] eqn:ED; [|eauto].
    destruct unread as [|u unread]; [|cbn [String.eqb negb]; eauto].
    cbn [String.eqb negb].
    assert (d0 = D) as ->; [|now apply datetime_new_no_date].
    destruct K8 as [[L8 (a8 & -> & I8 & V8 & B8)]|[L8 (b & p' & -> & Hb)]].
    + rewrite append_String, append_Empty in ED.
      rewrite (day_field_ascii _ _ I7 I8), V7, V8 in ED. fold D in ED.
      destruct ((1 <=? D) && (D <=? 31)); [now injection ED|].
      destruct (digit_value c7 =? 0); discriminate ED.
    + destruct (F8 EmptyString) as [G8 _].
      rewrite (day_field_wide _ _ _ _ _ I7 Hb G8), V7 in ED.
      destruct ((digit_value c7 =? 1) || (digit_value c7 =? 2));
        [now injection ED|].
      destruct (digit_value c7 =? 0); [discriminate ED|].
      rewrite append_String in ED. discriminate ED.
Qed.

(** [strptime] on the text of a match that writes a date. *)
Lemma strptime_valid (s : string) :
  PyStr.match_date s = Some s ->
  readable s = true ->
  valid_date (date_of_text s) = true ->
  strptime s = Returns (date_of_text s).
Proof.
  intros H Hr Hv.
  destruct (strptime_date_text s H) as [[_ E]|[E _]]; [exact E|].
  rewrite Hr, Hv in E. discriminate E.
Qed.

Lemma strptime_invalid (s : string) :
  PyStr.match_date s = Some s ->
  readable s && valid_date (date_of_text s) = false ->
  exists msg, strptime s = Raises (ValueError msg).
Proof.
  intros H Hv.
  destruct (strptime_date_text s H) as [[E _]|[_ E]]; [congruence | exact E].
Qed.

End ExtractDates.

Section ExtractDatesClaims.

Import Agent AgentSpec.

Lemma find_after {A : Type} (f : A -> bool) (l1 : list A) (x : A) (l2 : list A) :
  forallb (fun e => negb (f e)) l1 = true -> f x = true ->
  List.find f (l1 ++ x :: l2) = Some x.
Proof.
  intros Hl Hx. induction l1 as [|e l1 IH]; simpl in *.
  - now rewrite Hx.
  - apply andb_true_iff in Hl. destruct Hl as [He Hl].
    destruct (f e); [discriminate | auto].
Qed.

Lemma decimo_first (prompt : string) :
  PyStr.contains "décimo" prompt = true ->
  none_occurs (entries_before "décimo" month_mapping) prompt = true ->
  first_month_word prompt = Some ("décimo"%string, 10).
Proof.
  intros Hc Hn. unfold first_month_word.
  change month_mapping
    with (entries_before "décimo" month_mapping
          ++ ("décimo"%string, 10) :: skipn 19 month_mapping).
  apply find_after; [exact Hn | exact Hc].
Qed.

(** C5, as amended.  The month strategy returns the first day of the month
    and its last day by the fixed rule (28, 30 or 31), for the first month
    word of the table found in the prompt and the leftmost run of four
    decimal digits, when that run does not write the year 0; the year it
    writes is between 0 and 9999.  When the month strategy gives nothing
    and the scan finds exactly two texts [dddd-dd-dd], they are returned in
    the order of the prompt if [strptime] reads both, that is if the month
    and the day of each are written in ASCII digits (the second digit of a
    day from 10 to 29 may be any decimal digit) and the date exists in the
    calendar; when the scan finds another number of texts, the result is
    [(None, None)].  A year 0, and a text that [strptime] does not read,
    make the call raise [ValueError]. *)
Theorem extract_dates_cases (prompt : string) :
  (forall word m yt,
      first_month_word prompt = Some (word, m) ->
      PyStr.re_search_d4 prompt = Some yt ->
      1 <= PyStr.int yt ->
      extract_dates prompt
      = Returns (Some {| year := PyStr.int yt; month := m; day := 1 |},
                 Some {| year := PyStr.int yt; month := m; day := last_day m |}))
  /\ (forall d0 d1,
      no_month_year prompt ->
      PyStr.re_findall_date prompt = [d0; d1] ->
      readable d0 && valid_date (date_of_text d0) = true ->
      readable d1 && valid_date (date_of_text d1) = true ->
      extract_dates prompt
      = Returns (Some (date_of_text d0), Some (date_of_text d1)))
  /\ (no_month_year prompt ->
      List.length (PyStr.re_findall_date prompt) <> 2%nat ->
      extract_dates prompt = Returns (None, None))
  /\ (forall word m yt,
      first_month_word prompt = Some (word, m) ->
      PyStr.re_search_d4 prompt = Some yt ->
      PyStr.int yt = 0 ->
      extract_dates prompt = Raises (ValueError "year 0 is out of range"))
  /\ (forall d0 d1,
      no_month_year prompt ->
      PyStr.re_findall_date prompt = [d0; d1] ->
      (readable d0 && valid_date (date_of_text d0))
      && (readable d1 && valid_date (date_of_text d1)) = false ->
      exists msg, extract_dates prompt = Raises (ValueError msg))
  /\ (forall yt,
      PyStr.re_search_d4 prompt = Some yt -> 0 <= PyStr.int yt <= 9999).
Proof.
  assert (forall d0 d1,
            PyStr.re_findall_date prompt = [d0; d1] ->
            PyStr.match_date d0 = Some d0 /\ PyStr.match_date d1 = Some d1)
    as Hshape.
  { intros d0 d1 Hf. unfold PyStr.re_findall_date in Hf.
    split; apply (re_findall_date_match prompt 0); rewrite Hf;
      [now left | right; now left]. }
  split; [|split; [|split; [|split; [|split]]]].
  - intros word m yt. apply extract_dates_month.
  - intros d0 d1 Hn Hf H0 H1. unfold extract_dates.
    destruct (Hshape _ _ Hf) as [S0 S1].
    apply andb_true_iff in H0, H1. destruct H0 as [R0 V0], H1 as [R1 V1].
    rewrite (scan_months_none _ Hn), Hf.
    now rewrite (strptime_valid _ S0 R0 V0), (strptime_valid _ S1 R1 V1).
  - intros Hn Hlen. unfold extract_dates.
    rewrite (scan_months_none _ Hn).
    destruct (PyStr.re_findall_date prompt) as [|a [|b [|c l]]];
      try reflexivity.
    now contradict Hlen.
  - intros word m yt. apply extract_dates_month_year0.
  - intros d0 d1 Hn Hf Hv. unfold extract_dates.
    destruct (Hshape _ _ Hf) as [S0 S1].
    rewrite (scan_months_none _ Hn), Hf.
    destruct (readable d0 && valid_date (date_of_text d0)) eqn:H0.
    + apply andb_true_iff in H0. destruct H0 as [R0 V0].
      rewrite (strptime_valid _ S0 R0 V0). cbn [bind].
      destruct (strptime_invalid d1 S1 Hv) as [msg ->]. now exists msg.
    + destruct (strptime_invalid d0 S0 H0) as [msg ->]. now exists msg.
  - intros yt. apply re_search_d4_year.
Qed.

(** C5, as stated, fails: the prompt holds exactly two texts of the shape
    YYYY-MM-DD and no month word, and the call raises instead of returning
    them, because April has no day 31. *)
Lemma extract_dates_two_texts_raise :
  first_month_word "del 2021-04-01 al 2021-04-31" = None
  /\ PyStr.re_findall_date "del 2021-04-01 al 2021-04-31"
     = ["2021-04-01"; "2021-04-31"]%string
  /\ extract_dates "del 2021-04-01 al 2021-04-31"
     = Raises (ValueError "day is out of range for month").
Proof. repeat split; vm_compute; reflexivity. Qed.

(** Prompts for the cases of the amended C5: a month word and a year, in
    ASCII digits and in Arabic-Indic ones; two dates; no date; and two
    texts of which [strptime] does not read the first, its month being
    written in Arabic-Indic digits. *)
Lemma extract_dates_cases_witness :
  extract_dates "informe del segundo mes de 2021"
  = Returns (Some {| year := 2021; month := 2; day := 1 |},
             Some {| year := 2021; month := 2; day := 28 |})
  /\ extract_dates "segundo mes de ٢٠٢١"
     = Returns (Some {| year := 2021; month := 2; day := 1 |},
                Some {| year := 2021; month := 2; day := 28 |})
  /\ extract_dates "entre 2021-05-01 y 2021-05-31"
     = Returns (Some {| year := 2021; month := 5; day := 1 |},
                Some {| year := 2021; month := 5; day := 31 |})
  /\ extract_dates "informe del mes pasado" = Returns (None, None)
  /\ (exists msg,
        extract_dates "٢٠٢١-٠٥-٠١ 2021-05-31" = Raises (ValueError msg)).
Proof.
  split; [|split; [|split; [|split]]].
  - apply (proj1 (extract_dates_cases _) "segundo"%string 2 "2021"%string);
      [vm_compute; reflexivity | vm_compute; reflexivity
       | vm_compute; discriminate].
  - apply (proj1 (extract_dates_cases _) "segundo"%string 2 "٢٠٢١"%string);
      [vm_compute; reflexivity | vm_compute; reflexivity
       | vm_compute; discriminate].
  - apply (proj1 (proj2 (extract_dates_cases _)) "2021-05-01"%string
             "2021-05-31"%string);
      [left; vm_compute; reflexivity | vm_compute; reflexivity
       | vm_compute; reflexivity | vm_compute; reflexivity].
  - apply (proj1 (proj2 (proj2 (extract_dates_cases _))));
      [left; vm_compute; reflexivity | vm_compute; discriminate].
  - apply (proj1 (proj2 (proj2 (proj2 (proj2 (extract_dates_cases _)))))
             "٢٠٢١-٠٥-٠١"%string "2021-05-31"%string);
      [left; vm_compute; reflexivity | vm_compute; reflexivity
       | vm_compute; reflexivity].
Defined.

(** C10, as amended.  The word "décimo" is part of "undécimo" and of
    "duodécimo" and comes before both in the month table.  Hence a prompt
    that holds "undécimo" or "duodécimo", none of the table entries that
    come before "décimo", and a run of four decimal digits is answered for
    month 10: the leftmost run writes a year from 0 to 9999; when the year
    is not 0 the October range of that year is returned, not that of month
    11 or 12, and when it is 0 the call raises [ValueError]. *)
Theorem extract_dates_decimo_shadows :
  PyStr.contains "décimo" "undécimo" = true
  /\ PyStr.contains "décimo" "duodécimo" = true
  /\ (exists later,
        month_mapping
        = entries_before "décimo" month_mapping
          ++ ("décimo"%string, 10) :: later
        /\ In ("undécimo"%string, 11) later
        /\ In ("duodécimo"%string, 12) later)
  /\ (forall prompt yt : string,
        PyStr.contains "undécimo" prompt = true
        \/ PyStr.contains "duodécimo" prompt = true ->
        none_occurs (entries_before "décimo" month_mapping) prompt = true ->
        PyStr.re_search_d4 prompt = Some yt ->
        0 <= PyStr.int yt <= 9999
        /\ (1 <= PyStr.int yt ->
            extract_dates prompt
            = Returns (Some {| year := PyStr.int yt; month := 10; day := 1 |},
                       Some {| year := PyStr.int yt; month := 10;
                               day := 31 |}))
        /\ (PyStr.int yt = 0 ->
            extract_dates prompt
            = Raises (ValueError "year 0 is out of range"))).
Proof.
  split; [vm_compute; reflexivity|]. split; [vm_compute; reflexivity|]. split.
  - exists (skipn 19 month_mapping). split; [reflexivity|].
    simpl. split; [right; now left | right; right; right; now left].
  - intros prompt yt Hw Hn Hy.
    assert (PyStr.contains "décimo" prompt = true) as Hd.
    { destruct Hw as [Hw|Hw];
        (eapply contains_trans; [|exact Hw]); vm_compute; reflexivity. }
    pose proof (decimo_first _ Hd Hn) as Hf.
    split; [exact (re_search_d4_year _ _ Hy)|]. split.
    + intros Hpos. exact (extract_dates_month _ _ _ _ Hf Hy Hpos).
    + intros H0. exact (extract_dates_month_year0 _ _ _ _ Hf Hy H0).
Qed.

(** Two prompts to which the amended C10 applies. *)
Lemma extract_dates_decimo_shadows_witness :
  extract_dates "informe del undécimo mes de 2021"
  = Returns (Some {| year := 2021; month := 10; day := 1 |},
             Some {| year := 2021; month := 10; day := 31 |})
  /\ extract_dates "gastos del duodécimo mes de 2020"
     = Returns (Some {| year := 2020; month := 10; day := 1 |},
                Some {| year := 2020; month := 10; day := 31 |}).
Proof.
  pose proof (proj2 (proj2 (proj2 extract_dates_decimo_shadows))) as H.
  split.
  - apply (H _ "2021"%string);
      [left; vm_compute; reflexivity | vm_compute; reflexivity
       | vm_compute; reflexivity | vm_compute; discriminate].
  - apply (H _ "2020"%string);
      [right; vm_compute; reflexivity | vm_compute; reflexivity
       | vm_compute; reflexivity | vm_compute; discriminate].
Defined.

(** C10, as stated, fails: the prompt holds "undécimo", a run of four
    digits and no earlier entry of the table, and the call raises instead of
    returning the October range, because no [datetime] has the year 0. *)
Lemma extract_dates_decimo_year0 :
  PyStr.contains "undécimo" "informe del undécimo mes de 0000" = true
  /\ none_occurs (entries_before "décimo" month_mapping)
       "informe del undécimo mes de 0000" = true
  /\ PyStr.re_search_d4 "informe del undécimo mes de 0000" = Some "0000"%string
  /\ extract_dates "informe del undécimo mes de 0000"
     = Raises (ValueError "year 0 is out of range").
Proof. repeat split; vm_compute; reflexivity. Qed.

End ExtractDatesClaims.

(** ** The report agent *)

Section RunAgent.

Import Agent AgentSpec.

(** The language model: any function from the prompt to a text or to an
    error. *)
Variable predict : string -> outcome string.

Lemma extract_dates_pair (prompt : string)
    (a b : option datetime) :
  extract_dates prompt = Returns (a, b) ->
  (a = None /\ b = None) \/ (exists s e, a = Some s /\ b = Some e).
Proof.
  unfold extract_dates.
  destruct (scan_months month_mapping prompt) as [[[s e]|err]|].
  - cbn [bind fst snd]. intros [= <- <-]. right. eauto.
  - discriminate.
  - destruct (PyStr.re_findall_date prompt) as [|d0 [|d1 [|d2 l]]];
      try (intros [= <- <-]; now left).
    destruct (strptime d0) as [s|err]; [|discriminate].
    destruct (strptime d1) as [e|err]; [|discriminate].
    cbn [bind]. intros [= <- <-]. right. eauto.
Qed.

Lemma datetime_new_error (y m d : Z) (err : exn) :
  datetime_new y m d = Raises err -> err <> run_agent_error.
Proof.
  unfold datetime_new, run_agent_error.
  destruct (negb _); [intros [= <-]; rewrite append_String; discriminate|].
  destruct (negb _); [intros [= <-]; discriminate|].
  destruct (negb _); [intros [= <-]; discriminate|].
  discriminate.
Qed.

Lemma month_range_error (yt : string) (m : Z) (err : exn) :
  month_range yt m = Raises err -> err <> run_agent_error.
Proof.
  unfold month_range.
  destruct (datetime_new (PyStr.int yt) m 1) as [s|e1] eqn:H1; cbn [bind].
  - destruct (if m =? 2 then _ else _) as [e|e2] eqn:H2; cbn [bind];
      [discriminate|].
    intros [= <-].
    destruct (m =? 2); [now apply datetime_new_error in H2|].
    destruct (existsb _ _); now apply datetime_new_error in H2.
  - intros [= <-]. now apply datetime_new_error in H1.
Qed.

Lemma strptime_error (s : string) (err : exn) :
  strptime s = Raises err -> err <> run_agent_error.
Proof.
  assert (forall t : string,
            ValueError ("time data '" ++ t) <> run_agent_error) as Hno.
  { intros t. unfold run_agent_error. rewrite append_String. discriminate. }
  unfold strptime.
  destruct (PyStr.digits_at 4 s)
    as [[y [|h1 [|m1 [|m2 [|h2 [|d1 rest]]]]]]|];
    try (intros [= <-]; apply Hno).
  destruct (month_field m1 m2) as [m|]; [|intros [= <-]; apply Hno].
  destruct (day_field d1 rest) as [[d unread]|]; [|intros [= <-]; apply Hno].
  destruct (negb _); [intros [= <-]; apply Hno|].
  destruct (negb _); [|apply datetime_new_error].
  intros [= <-]. unfold run_agent_error. rewrite append_String. discriminate.
Qed.

Lemma scan_months_error (items : list (string * Z)) (prompt : string)
    (err : exn) :
  scan_months items prompt = Some (Raises err) -> err <> run_agent_error.
Proof.
  induction items as [|[name num] rest IH]; simpl; [discriminate|].
  destruct (PyStr.contains name prompt); [|exact IH].
  destruct (PyStr.re_search_d4 prompt); [|exact IH].
  intros [= H]. now apply month_range_error in H.
Qed.

Lemma extract_dates_error (prompt : string) (err : exn) :
  extract_dates prompt = Raises err -> err <> run_agent_error.
Proof.
  unfold extract_dates.
  destruct (scan_months month_mapping prompt) as [[[s e]|e1]|] eqn:Hs.
  - discriminate.
  - cbn [bind]. intros [= <-]. now apply scan_months_error in Hs.
  - destruct (PyStr.re_findall_date prompt) as [|d0 [|d1 [|d2 l]]];
      try discriminate.
    destruct (strptime d0) as [s|e0] eqn:H0; cbn [bind].
    + destruct (strptime d1) as [e|e1] eqn:H1; cbn [bind]; [discriminate|].
      intros [= <-]. now apply strptime_error in H1.
    + intros [= <-]. now apply strptime_error in H0.
Qed.

(** The filter of [run_agent] keeps a row exactly when some row of the
    table is of the client and dated within the two dates. *)
Lemma in_client_range_spec {A : Type} (cid a b : Z) (r : row A) :
  in_client_range cid a b r = true
  <-> client_id r = cid /\ exists d, date r = Some d /\ a <= d <= b.
Proof.
  unfold in_client_range, date_ge, date_le.
  rewrite !andb_true_iff, Z.eqb_eq.
  destruct (date r) as [d|].
  - rewrite !Z.leb_le. split.
    + intros [[H1 H2] H3]. split; [exact H1|]. exists d. split; [reflexivity|lia].
    + intros [H1 (d' & [= <-] & H2)]. repeat split; auto; lia.
  - split; [intros [[_ H] _]; discriminate|].
    intros [_ (d & H & _)]. discriminate.
Qed.

Lemma filter_selected (df : list transaction) (cid : Z) (s e : datetime) :
  List.filter (in_client_range cid (toordinal s) (toordinal e)) df <> []
  <-> selected df cid s e.
Proof.
  unfold selected.
  set (l := List.filter (in_client_range cid (toordinal s) (toordinal e)) df).
  assert (forall r,
            In r l
            <-> In r df
                /\ in_client_range cid (toordinal s) (toordinal e) r = true)
    as Hin by (intros r; apply List.filter_In).
  clearbody l. split.
  - destruct l as [|r l]; [congruence|]. intros _.
    destruct (proj1 (Hin r) (or_introl eq_refl)) as [Hr Hk].
    apply in_client_range_spec in Hk. destruct Hk as [Hc (d & Hd & Hb)].
    exists r, d. auto.
  - intros (r & d & Hr & Hc & Hd & Hb) E.
    assert (In r l) as Hf.
    { apply Hin. split; [exact Hr|]. apply in_client_range_spec. eauto. }
    rewrite E in Hf. contradiction.
Qed.

(** C6, as amended.  When [extract_dates] returns no dates, [run_agent]
    raises its validation error and leaves the outside world as it was;
    an error raised inside [extract_dates] is passed on as it is, and is
    another error.  When [extract_dates] returns two dates, [create_report]
    is decided by the table: if no row is of the client and within the two
    dates, the record is returned with [create_report] false and the
    outside world is as it was, so no PDF is written; if some row is, the
    language model is asked for the text, its error, if any, is passed on,
    a text outside Latin-1 makes the PDF writer raise and no file is
    written, and otherwise the document holding the text is stored, its
    path is printed and the record is returned with [create_report] true.  So a
    record that is returned has [create_report] true exactly when some row
    is selected, and the validation error is raised exactly when
    [extract_dates] returns no dates, provided that the language model
    does not raise that very error. *)
Theorem run_agent_outcome (df : list transaction) (cid : Z) (input : string)
    (w : world) :
  (extract_dates input = Returns (None, None) ->
   run_agent predict df cid input w = (Raises run_agent_error, w))
  /\ (forall err,
      extract_dates input = Raises err ->
      run_agent predict df cid input w = (Raises err, w)
      /\ err <> run_agent_error)
  /\ (forall s e,
      extract_dates input = Returns (Some s, Some e) ->
      let record := fun create_report =>
        {| vd_start_date := strftime_Y_m_d s;
           vd_end_date := strftime_Y_m_d e;
           vd_client_id := cid;
           vd_create_report := create_report |} in
      (~ selected df cid s e ->
       run_agent predict df cid input w = (Returns (record false), w))
      /\ (selected df cid s e ->
          (forall err,
              predict (report_prompt cid s e) = Raises err ->
              run_agent predict df cid input w = (Raises err, w))
          /\ (forall text,
              predict (report_prompt cid s e) = Returns text ->
              latin1 text = false ->
              exists w',
                run_agent predict df cid input w
                = (Raises (UnicodeEncodeError text), w')
                /\ files w' = files w /\ stdout w' = stdout w)
          /\ (forall text,
              predict (report_prompt cid s e) = Returns text ->
              latin1 text = true ->
              exists path doc w',
                run_agent predict df cid input w
                = (Returns (record true), w')
                /\ files w' = <[ path := doc ]> (files w)
                /\ pdf_body doc = text
                /\ stdout w'
                   = stdout w ++ [("Informe generado en: " ++ path)%string])))
  /\ (forall r w',
      run_agent predict df cid input w = (Returns r, w') ->
      exists s e,
        extract_dates input = Returns (Some s, Some e)
        /\ (vd_create_report r = true <-> selected df cid s e)
        /\ (vd_create_report r = false -> w' = w))
  /\ ((forall p, predict p <> Raises run_agent_error) ->
      (fst (run_agent predict df cid input w) = Raises run_agent_error
       <-> extract_dates input = Returns (None, None))).
Proof.
  split; [|split; [|split; [|split]]].
  - intros He. unfold run_agent. now rewrite He.
  - intros err He. split; [|now apply extract_dates_error in He].
    unfold run_agent. now rewrite He.
  - intros s e He record. unfold run_agent. rewrite He.
    pose proof (filter_selected df cid s e) as Hsel.
    destruct (List.filter (in_client_range cid (toordinal s) (toordinal e)) df)
      as [|r0 l]; cbn [negb].
    + split; [reflexivity|]. intros H. apply Hsel in H. congruence.
    + split; [intros H; exfalso; apply H, Hsel; discriminate|].
      intros _. split; [|split].
      * intros err Hp. now rewrite Hp.
      * intros text Hp Hl. rewrite Hp. unfold create_pdf_report.
        cbn [String.eqb Ascii.eqb Bool.eqb]. rewrite Hl.
        eexists. split; [reflexivity|].
        now destruct (decide _).
      * intros text Hp Hl. rewrite Hp. unfold create_pdf_report.
        cbn [String.eqb Ascii.eqb Bool.eqb]. rewrite Hl.
        eexists _, _, _. split; [reflexivity|]. cbn [files stdout].
        split; [now destruct (decide _)|].
        split; [reflexivity | now destruct (decide _)].
  - intros r w'. unfold run_agent.
    destruct (extract_dates input) as [[[s|] [e|]]|err] eqn:He;
      try discriminate.
    pose proof (filter_selected df cid s e) as Hsel.
    destruct (List.filter (in_client_range cid (toordinal s) (toordinal e)) df)
      as [|r0 l]; cbn [negb].
    + intros [= <- <-]. exists s, e. split; [reflexivity|].
      cbn [vd_create_report]. split; [|reflexivity].
      split; [discriminate|]. intros H. apply Hsel in H. congruence.
    + destruct (predict _) as [text|err]; [|discriminate].
      destruct (create_pdf_report _ _ _ _ _ _) as [[path|err] w1];
        [|discriminate].
      intros [= <- <-]. exists s, e. split; [reflexivity|].
      cbn [vd_create_report]. split; [|discriminate].
      split; [|reflexivity]. intros _. apply Hsel. discriminate.
  - intros Hpredict. unfold run_agent.
    destruct (extract_dates input) as [[a b]|err] eqn:He.
    + destruct (extract_dates_pair _ _ _ He) as [[-> ->]|(s & e & -> & ->)];
        [cbn [fst]; tauto|].
      destruct (List.filter
                  (in_client_range cid (toordinal s) (toordinal e)) df)
        as [|r0 l]; cbn [negb fst]; [split; discriminate|].
      destruct (predict (report_prompt cid s e)) as [text|err] eqn:Hp;
        cbn [fst].
      * unfold create_pdf_report. cbn [String.eqb Ascii.eqb Bool.eqb].
        destruct (latin1 text); cbn [fst]; split; discriminate.
      * split; [|discriminate]. intros [= ->]. exfalso.
        eapply Hpredict. exact Hp.
    + cbn [fst]. split; [|discriminate]. intros [= ->].
      now apply extract_dates_error in He.
Qed.

End RunAgent.

(** ** Rounding to hundredths *)

Section Rounding.

Import Numeric.
Local Open Scope Q_scope.

Lemma Qlt_bool_iff (x y : Q) : Qlt_bool x y = true <-> x < y.
Proof.
  unfold Qlt_bool. rewrite negb_true_iff, <- not_true_iff_false, Qle_bool_iff.
  split; [apply Qnot_le_lt | apply Qlt_not_le].
Qed.

Lemma Qlt_bool_false_iff (x y : Q) : Qlt_bool x y = false <-> y <= x.
Proof.
  unfold Qlt_bool. rewrite negb_false_iff. apply Qle_bool_iff.
Qed.

(** The integer [rint x] is within one half of [x], and on a tie it is
    even.  Stated on the numerator [n] and denominator [d] of [x]. *)
Lemma rint_near (x : Q) :
  let n := Qnum x in
  let d := Zpos (Qden x) in
  let k := rint x in
  (2 * d * k - d <= 2 * n <= 2 * d * k + d)%Z
  /\ ((2 * n = 2 * d * k + d)%Z -> Z.even k = true)
  /\ ((2 * n = 2 * d * k - d)%Z -> Z.even k = true).
Proof.
  intros n d k. subst k. unfold rint. fold n. fold d.
  assert (0 < d)%Z as Hd by (subst d; lia).
  pose proof (Z.div_mod n d ltac:(lia)) as Hn.
  pose proof (Z.mod_pos_bound n d Hd) as Hr.
  set (q := (n / d)%Z) in *. set (r := (n mod d)%Z) in *.
  destruct (Z.ltb_spec (2 * r) d) as [H1|H1].
  - repeat split; nia.
  - destruct (Z.ltb_spec d (2 * r)) as [H2|H2].
    + repeat split; nia.
    + assert (2 * r = d)%Z as H3 by lia.
      destruct (Z.even q) eqn:Hq.
      * repeat split; try nia. intros _. exact Hq.
      * repeat split; try nia.
        intros _. rewrite Z.even_add, Hq. reflexivity.
Qed.

Lemma rint_mono (x y : Q) : x <= y -> (rint x <= rint y)%Z.
Proof.
  intros Hxy. unfold Qle in Hxy.
  destruct (rint_near x) as (Hx & _ & Hxe).
  destruct (rint_near y) as (Hy & Hye & _).
  set (kx := rint x) in *. set (ky := rint y) in *.
  set (nx := Qnum x) in *. set (ny := Qnum y) in *.
  assert (0 < Zpos (Qden x))%Z as Hdx by lia.
  assert (0 < Zpos (Qden y))%Z as Hdy by lia.
  set (dx := Zpos (Qden x)) in *. set (dy := Zpos (Qden y)) in *.
  destruct (Z.le_gt_cases kx ky) as [|Hgt]; [assumption|exfalso].
  assert (2 * nx * dy <= 2 * ny * dx)%Z as H1 by lia.
  assert ((2 * kx - 1) * dx * dy <= 2 * nx * dy)%Z as H2 by nia.
  assert (2 * ny * dx <= (2 * ky + 1) * dx * dy)%Z as H3 by nia.
  assert (0 < dx * dy)%Z as Hdd by nia.
  assert (2 * kx - 1 <= 2 * ky + 1)%Z as H4 by nia.
  assert (kx = ky + 1)%Z as Hk by lia.
  assert ((2 * kx - 1) * dx * dy = 2 * nx * dy)%Z as E1 by nia.
  assert (2 * ny * dx = (2 * ky + 1) * dx * dy)%Z as E2 by nia.
  assert (2 * nx = 2 * dx * kx - dx)%Z as E3 by nia.
  assert (2 * ny = 2 * dy * ky + dy)%Z as E4 by nia.
  specialize (Hxe E3). specialize (Hye E4).
  rewrite Hk, Z.even_add, Hye in Hxe. discriminate.
Qed.

Lemma rint_Qeq (x y : Q) : x == y -> rint x = rint y.
Proof.
  intros H. apply Z.le_antisymm; apply rint_mono; rewrite H; apply Qle_refl.
Qed.

Lemma rint_inject_Z (k : Z) : rint (inject_Z k) = k.
Proof.
  unfold rint, inject_Z. simpl. rewrite Z.div_1_r, Z.mod_1_r. reflexivity.
Qed.

Lemma round2_Qeq (x y : Q) : x == y -> round2 x = round2 y.
Proof.
  intros H. unfold round2. f_equal. apply rint_Qeq. now rewrite H.
Qed.

Lemma round2_mono (x y : Q) : x <= y -> round2 x <= round2 y.
Proof.
  intros H. unfold round2, Qle. simpl.
  apply Z.mul_le_mono_nonneg_r; [lia|].
  apply rint_mono. apply Qmult_le_compat_r; [exact H | discriminate].
Qed.

(** A number of hundredths is its own rounding. *)
Lemma round2_hundredths (k : Z) : round2 (k # 100) = k # 100.
Proof.
  unfold round2. f_equal.
  rewrite <- (rint_inject_Z k) at 2. apply rint_Qeq.
  unfold Qeq, inject_Z. simpl. lia.
Qed.

Lemma round2_idem (x : Q) : round2 (round2 x) = round2 x.
Proof. unfold round2 at 2 3. apply round2_hundredths. Qed.

Lemma round2_0 : round2 0 = 0 # 100.
Proof. reflexivity. Qed.

(** Rounding moves a number by half a hundredth at most. *)
Lemma round2_near (x : Q) : Qabs (round2 x - x) <= 1 # 200.
Proof.
  destruct (rint_near (x * 100)) as (H & _ & _).
  apply Qabs_Qle_condition.
  unfold round2. set (k := rint (x * 100)) in *.
  assert (Qnum (x * 100) = (Qnum x * 100)%Z) as Hn by reflexivity.
  assert (Zpos (Qden (x * 100)) = (Zpos (Qden x) * 1)%Z) as Hd
    by (simpl; lia).
  rewrite Hn, Hd in H. cbv zeta in H.
  destruct x as [n d]. simpl in H.
  unfold Qle, Qminus, Qplus, Qopp. simpl. split; nia.
Qed.

End Rounding.

(** ** Grouping and sorting *)

Section Grouping.

Import DataFunctions.

Lemma In_merge_sort {A : Type} (R : relation A)
    (dec : forall x y, Decision (R x y)) (l : list A) (x : A) :
  In x (@merge_sort A R dec l) <-> In x l.
Proof.
  rewrite <- !list_elem_of_In. now rewrite merge_sort_Permutation.
Qed.

Lemma In_group_keys (keys : list (option string)) (k : string) :
  In k (group_keys keys) <-> In (Some k) keys.
Proof.
  unfold group_keys. rewrite In_merge_sort.
  rewrite <- !list_elem_of_In, elem_of_remove_dups, list_elem_of_omap.
  split.
  - intros (x & Hx & Hk). simpl in Hk. now subst x.
  - intros H. now exists (Some k).
Qed.

Lemma In_members {A : Type} (key : A -> option string) (k : string)
    (l : list A) (r : A) :
  In r (members key k l) <-> In r l /\ key r = Some k.
Proof.
  unfold members. rewrite filter_In, bool_decide_eq_true. reflexivity.
Qed.

Lemma In_groupby {A : Type} (key : A -> option string) (l : list A)
    (k : string) (g : list A) :
  In (k, g) (groupby key l)
  <-> (exists r, In r l /\ key r = Some k) /\ g = members key k l.
Proof.
  unfold groupby. rewrite in_map_iff. split.
  - intros (k' & [= -> <-] & Hk).
    apply In_group_keys, in_map_iff in Hk.
    destruct Hk as (r & Hr & Hin). split; [eauto | reflexivity].
  - intros [(r & Hin & Hr) ->]. exists k. split; [reflexivity|].
    apply In_group_keys, in_map_iff. eauto.
Qed.

Lemma groupby_nil {A : Type} (key : A -> option string) (l : list A) :
  (forall r, In r l -> key r = None) -> groupby key l = [].
Proof.
  intros H. destruct (groupby key l) as [|[k g] rest] eqn:E; [reflexivity|].
  assert (In (k, g) (groupby key l)) as Hin by (rewrite E; now left).
  apply In_groupby in Hin. destruct Hin as [(r & Hr & Hk) _].
  rewrite (H r Hr) in Hk. discriminate.
Qed.

End Grouping.

(** ** Sums, extremes and two-decimal numbers *)

Section Aggregates.

Import Numeric DataSpec.
Local Open Scope Q_scope.

Lemma two_decimals_iff (q : Q) :
  two_decimals q <-> exists k : Z, q == k # 100.
Proof.
  unfold two_decimals. split.
  - intros H. exists (rint (q * 100)). symmetry. exact H.
  - intros [k Hk]. rewrite (round2_Qeq _ _ Hk), round2_hundredths.
    symmetry. exact Hk.
Qed.

Lemma two_decimals_round2 (q : Q) : two_decimals (round2 q).
Proof. unfold two_decimals. rewrite round2_idem. reflexivity. Qed.

Lemma two_decimals_plus (a b : Q) :
  two_decimals a -> two_decimals b -> two_decimals (a + b).
Proof.
  rewrite !two_decimals_iff. intros [k Hk] [j Hj]. exists (k + j)%Z.
  rewrite Hk, Hj. unfold Qeq, Qplus. simpl. lia.
Qed.

Lemma two_decimals_minus (a b : Q) :
  two_decimals a -> two_decimals b -> two_decimals (a - b).
Proof.
  rewrite !two_decimals_iff. intros [k Hk] [j Hj]. exists (k - j)%Z.
  rewrite Hk, Hj. unfold Qeq, Qminus, Qplus, Qopp. simpl. lia.
Qed.

Lemma two_decimals_abs (a : Q) : two_decimals a -> two_decimals (Qabs a).
Proof.
  rewrite !two_decimals_iff. intros [k Hk]. exists (Z.abs k).
  rewrite Hk. reflexivity.
Qed.

Lemma two_decimals_0 : two_decimals 0.
Proof. apply two_decimals_iff. exists 0%Z. reflexivity. Qed.

Lemma two_decimals_Qsum (l : list Q) :
  Forall two_decimals l -> two_decimals (Qsum l).
Proof.
  induction 1 as [|x l Hx Hl IH]; simpl.
  - apply two_decimals_0.
  - now apply two_decimals_plus.
Qed.

Lemma Qsum_Qeq (l1 l2 : list Q) :
  Forall2 Qeq l1 l2 -> Qsum l1 == Qsum l2.
Proof.
  induction 1 as [|x y l1 l2 Hxy Hl IH]; simpl.
  - reflexivity.
  - now rewrite Hxy, IH.
Qed.

Lemma fold_left_Qmax_cases (l : list Q) (x : Q) :
  let m := fold_left Qmax l x in
  (m = x \/ In m l) /\ x <= m /\ (forall y, In y l -> y <= m).
Proof.
  revert x. induction l as [|a l IH]; intros x; simpl.
  - repeat split; [now left | apply Qle_refl | tauto].
  - destruct (IH (Qmax x a)) as (Hin & Hle & Hall).
    repeat split.
    + destruct Hin as [Hin|Hin]; [|now right; right].
      rewrite Hin. unfold Qmax, GenericMinMax.gmax.
      destruct (x ?= a); [now left | now right; left | now left].
    + eapply Qle_trans; [apply Q.le_max_l | exact Hle].
    + intros y [<-|Hy]; [|now apply Hall].
      eapply Qle_trans; [apply Q.le_max_r | exact Hle].
Qed.

Lemma fold_left_Qmin_cases (l : list Q) (x : Q) :
  let m := fold_left Qmin l x in
  (m = x \/ In m l) /\ m <= x /\ (forall y, In y l -> m <= y).
Proof.
  revert x. induction l as [|a l IH]; intros x; simpl.
  - repeat split; [now left | apply Qle_refl | tauto].
  - destruct (IH (Qmin x a)) as (Hin & Hle & Hall).
    repeat split.
    + destruct Hin as [Hin|Hin]; [|now right; right].
      rewrite Hin. unfold Qmin, GenericMinMax.gmin.
      destruct (x ?= a); [now left | now left | now right; left].
    + eapply Qle_trans; [exact Hle | apply Q.le_min_l].
    + intros y [<-|Hy]; [|now apply Hall].
      eapply Qle_trans; [exact Hle | apply Q.le_min_r].
Qed.

Lemma Qmaximum_In (l : list Q) : l <> [] -> In (Qmaximum l) l.
Proof.
  destruct l as [|x l]; [congruence|]. intros _. simpl.
  destruct (fold_left_Qmax_cases l x) as ([H|H] & _); auto.
Qed.

Lemma Qminimum_In (l : list Q) : l <> [] -> In (Qminimum l) l.
Proof.
  destruct l as [|x l]; [congruence|]. intros _. simpl.
  destruct (fold_left_Qmin_cases l x) as ([H|H] & _); auto.
Qed.

Lemma Qmaximum_ge (l : list Q) (y : Q) : In y l -> y <= Qmaximum l.
Proof.
  destruct l as [|x l]; [contradiction|]. simpl.
  destruct (fold_left_Qmax_cases l x) as (_ & Hx & Hall).
  intros [<-|Hy]; auto.
Qed.

Lemma Qminimum_le (l : list Q) (y : Q) : In y l -> Qminimum l <= y.
Proof.
  destruct l as [|x l]; [contradiction|]. simpl.
  destruct (fold_left_Qmin_cases l x) as (_ & Hx & Hall).
  intros [<-|Hy]; auto.
Qed.

(** The rounded difference of two numbers and the difference of their
    roundings are at most one hundredth apart. *)
Lemma round2_minus_near (a b : Q) :
  Qabs (round2 (a - b) - (round2 a - round2 b)) <= 1 # 100.
Proof.
  pose proof (round2_near a) as Ha.
  pose proof (round2_near b) as Hb.
  pose proof (round2_near (a - b)) as Hab.
  apply Qabs_Qle_condition in Ha, Hb, Hab.
  assert (- (3 # 200) <= round2 (a - b) - (round2 a - round2 b) <= 3 # 200)
    as [H1 H2] by (split; lra).
  unfold round2 in *.
  set (k := rint ((a - b) * 100)) in *.
  set (i := rint (a * 100)) in *. set (j := rint (b * 100)) in *.
  apply Qabs_Qle_condition.
  unfold Qle, Qminus, Qplus, Qopp in H1, H2 |- *. simpl in *. split; lia.
Qed.

End Aggregates.

(** ** The three aggregators *)

Section Aggregators.

Import Numeric DataFunctions DataSpec.
Local Open Scope Q_scope.

Variable to_numeric : string -> option Q.
Variable mcc_codes : gmap string string.

(** *** The selection of rows *)

Lemma filter_map_comm {A B : Type} (f : A -> B) (p : B -> bool) (l : list A) :
  List.filter p (map f l) = map f (List.filter (fun x => p (f x)) l).
Proof.
  induction l as [|x l IH]; simpl; [reflexivity|].
  destruct (p (f x)); simpl; now rewrite IH.
Qed.

Lemma filter_filter_and {A : Type} (p q : A -> bool) (l : list A) :
  (forall x, p x = true -> q x = true) ->
  List.filter p (List.filter q l) = List.filter p l.
Proof.
  intros H. induction l as [|x l IH]; simpl; [reflexivity|].
  destruct (q x) eqn:Hq; simpl.
  - destruct (p x); now rewrite IH.
  - destruct (p x) eqn:Hp; [|exact IH].
    apply H in Hp. congruence.
Qed.

Lemma convert_amount_restrict (df : list transaction) (cid s e : Z) :
  convert_amount to_numeric (restrict df cid s e)
  = List.filter (in_client_range cid s e) (convert_amount to_numeric df).
Proof.
  unfold convert_amount, restrict. now rewrite filter_map_comm.
Qed.

Lemma expense_rows_amount (df : list transaction) (cid s e : Z)
    (r : row (option Q)) :
  In r (expense_rows to_numeric df cid s e) -> exists q, amount r = Some q /\ q < 0.
Proof.
  unfold expense_rows. rewrite filter_In, andb_true_iff.
  intros (_ & _ & H). unfold is_expense in H.
  destruct (amount r) as [q|]; [|discriminate]. exists q. split; [reflexivity|].
  now apply Qlt_bool_iff.
Qed.

Lemma numbers_all (g : list (row (option Q))) :
  (forall r, In r g -> exists q, amount r = Some q) ->
  List.length (numbers g) = List.length g.
Proof.
  unfold numbers. induction g as [|r g IH]; intros H; [reflexivity|].
  destruct (H r (or_introl eq_refl)) as [q Hq].
  cbn [omap list_omap]. rewrite Hq. simpl.
  f_equal. apply IH. intros r' Hr'. apply H. now right.
Qed.

Lemma In_numbers (g : list (row (option Q))) (q : Q) :
  In q (numbers g) <-> exists r, In r g /\ amount r = Some q.
Proof.
  unfold numbers. rewrite <- list_elem_of_In, list_elem_of_omap.
  split; intros (r & Hr & Hq); exists r; split; auto;
    now apply list_elem_of_In.
Qed.

(** *** What a row of each summary is *)

Lemma In_expenses_summary (df : list transaction) (cid s e : Z)
    (o : expenses_row) :
  In o (expenses_summary to_numeric mcc_codes df cid s e)
  <-> exists name,
        (exists r, In r (expense_rows to_numeric df cid s e)
                   /\ expenses_type mcc_codes r = Some name)
        /\ o = expenses_stats name
                 (members (expenses_type mcc_codes) name
                    (expense_rows to_numeric df cid s e)).
Proof.
  unfold expenses_summary. cbv zeta.
  rewrite In_merge_sort, in_map_iff. split.
  - intros ([name g] & <- & Hin). apply In_groupby in Hin.
    destruct Hin as [Hr ->]. eauto.
  - intros (name & Hr & ->).
    refine (ex_intro _ (name, _) (conj eq_refl _)).
    apply In_groupby. auto.
Qed.

Lemma In_cash_flow_summary (df : list transaction) (cid s e : Z)
    (o : cash_flow_row) :
  let key := fun r : row (option Q) => period_label (e - s) <$> date r in
  In o (cash_flow_summary to_numeric df cid s e)
  <-> exists label,
        (exists r, In r (period_rows to_numeric df cid s e) /\ key r = Some label)
        /\ o = cash_flow_stats label
                 (members key label (period_rows to_numeric df cid s e)).
Proof.
  intros key. unfold cash_flow_summary. cbv zeta.
  rewrite In_merge_sort, in_map_iff. split.
  - intros ([label g] & <- & Hin). apply In_groupby in Hin.
    destruct Hin as [Hr ->]. eauto.
  - intros (label & Hr & ->).
    refine (ex_intro _ (label, _) (conj eq_refl _)).
    apply In_groupby. auto.
Qed.

(** *** The expenses by category *)

(** C1, as amended.  A filtered expense row whose code is not a key of the
    lookup raises no error and is left out of the summary: every row of the
    summary carries the display name of some filtered row whose code is
    mapped and counts the filtered rows of that name only, every mapped
    filtered row has its row in the summary, an unmapped row is a member of
    no group, and when no filtered row is mapped the summary has no row. *)
Theorem expenses_summary_mapped_only (df : list transaction) (cid s e : Z) :
  let rows := expense_rows to_numeric df cid s e in
  let out := expenses_summary to_numeric mcc_codes df cid s e in
  (forall o, In o out ->
     (exists r, In r rows
                /\ expenses_type mcc_codes r = Some (Expenses_Type o))
     /\ Num_Transactions o
        = Z.of_nat (List.length
            (members (expenses_type mcc_codes) (Expenses_Type o) rows)))
  /\ (forall r name, In r rows -> expenses_type mcc_codes r = Some name ->
       exists o, In o out /\ Expenses_Type o = name)
  /\ (forall r o, In r rows -> expenses_type mcc_codes r = None ->
       In o out ->
       ~ In r (members (expenses_type mcc_codes) (Expenses_Type o) rows))
  /\ ((forall r, In r rows -> expenses_type mcc_codes r = None) -> out = []).
Proof.
  intros rows out. split; [|split; [|split]].
  - intros o Ho. apply In_expenses_summary in Ho.
    destruct Ho as (name & Hr & ->). cbn [Expenses_Type Num_Transactions expenses_stats].
    split; [exact Hr|]. f_equal. apply numbers_all.
    intros r Hin. apply In_members in Hin. destruct Hin as [Hin _].
    apply expense_rows_amount in Hin. destruct Hin as (q & Hq & _). eauto.
  - intros r name Hr Hn.
    exists (expenses_stats name (members (expenses_type mcc_codes) name rows)).
    split; [|reflexivity]. apply In_expenses_summary. eauto.
  - intros r o Hr Hn Ho Hin. apply In_members in Hin.
    destruct Hin as [_ Hin]. congruence.
  - intros Hall. subst out. unfold expenses_summary. cbv zeta.
    fold rows. now rewrite (groupby_nil _ _ Hall).
Qed.

(** C1, as stated, fails: the only filtered expense row has a code absent
    from the lookup, and the summary has no row at all, neither under a
    null name nor under any other. *)
Lemma expenses_summary_unmapped_dropped :
  expense_rows decimal_to_numeric Examples.unmapped_df 1
    Examples.may_1 Examples.may_31
  = [ {| client_id := 1; date := ts 2021 5 10; amount := Some (-3);
         mcc := IntCode 9999 |} ]
  /\ Examples.codes !! astype_str (IntCode 9999) = None
  /\ expenses_summary decimal_to_numeric Examples.codes Examples.unmapped_df 1
       Examples.may_1 Examples.may_31 = [].
Proof. repeat split; vm_compute; reflexivity. Qed.


(** *** Earnings and expenses *)

Lemma two_decimals_earning (x : option Q) :
  (forall q, x = Some q -> two_decimals q) -> two_decimals (earning x).
Proof.
  intros H. destruct x as [q|]; simpl; [|apply two_decimals_0].
  destruct (Qlt_bool 0 q); [now apply H | apply two_decimals_0].
Qed.

Lemma two_decimals_expense (x : option Q) :
  (forall q, x = Some q -> two_decimals q) -> two_decimals (expense x).
Proof.
  intros H. destruct x as [q|]; simpl; [|apply two_decimals_0].
  destruct (Qlt_bool q 0); [now apply H | apply two_decimals_0].
Qed.

Lemma Qsum_round2_two_decimals {A : Type} (f : A -> Q) (l : list A) :
  (forall a, In a l -> two_decimals (f a)) ->
  Qsum (map (fun a => round2 (f a)) l) == Qsum (map f l).
Proof.
  intros H. apply Qsum_Qeq. induction l as [|a l IH]; simpl; constructor.
  - apply H. now left.
  - apply IH. intros b Hb. apply H. now right.
Qed.

Lemma round2_Qsum_round2 {A : Type} (f : A -> Q) (l : list A) :
  round2 (Qsum (map round2 (map f l)))
  == Qsum (map (fun a => round2 (f a)) l).
Proof.
  rewrite map_map. apply two_decimals_Qsum.
  apply List.Forall_forall. intros q Hq. apply in_map_iff in Hq.
  destruct Hq as (a & <- & _). apply two_decimals_round2.
Qed.

(** C3, as amended.  The result is one row under the columns Earnings and
    Expenses, in this order.  Earnings is the sum, over the rows of the
    client within the range, of the parsed amount if positive else 0, each
    value rounded to 2 decimals before the sum (the rounding of the sum
    then changes nothing); Expenses likewise with the negative amounts.
    When every parsed amount has at most two decimals, these are the
    roundings of the sums of the unrounded values.  On the two
    transactions of the example, for a parser that reads "100" as 100 and
    "-40" as -40, the row is 100.00 and -40.00. *)
Theorem earnings_and_expenses_result (df : list transaction) (cid s e : Z) :
  (let rows := convert_amount to_numeric (restrict df cid s e) in
   exists E X : Q,
     earnings_and_expenses to_numeric df cid s e
     = {| columns := ["Earnings"; "Expenses"]%string; values := [[E; X]] |}
     /\ E == Qsum (map (fun r => round2 (earning (amount r))) rows)
     /\ X == Qsum (map (fun r => round2 (expense (amount r))) rows)
     /\ ((forall q, In q (numbers rows) -> two_decimals q) ->
         E = round2 (Qsum (map (fun r => earning (amount r)) rows))
         /\ X = round2 (Qsum (map (fun r => expense (amount r)) rows))))
  /\ (forall q1 q2 : Q,
        to_numeric "100" = Some q1 -> q1 == 100 ->
        to_numeric "-40" = Some q2 -> q2 == -40 ->
        earnings_and_expenses to_numeric Examples.spec_df 1
          Examples.may_1 Examples.may_31
        = {| columns := ["Earnings"; "Expenses"]%string;
             values := [[100.00; -40.00]] |}).
Proof.
  split.
  - intros rows. unfold earnings_and_expenses. cbv zeta.
    fold (restrict df cid s e). fold rows.
    eexists _, _. split; [reflexivity|].
    split; [apply round2_Qsum_round2|].
    split; [apply round2_Qsum_round2|].
    intros H2.
    assert (forall r, In r rows -> forall q, amount r = Some q -> two_decimals q)
      as Hr.
    { intros r Hin q Hq. apply H2, In_numbers. eauto. }
    split; apply round2_Qeq; rewrite map_map;
      apply Qsum_round2_two_decimals; intros r Hin;
      [apply two_decimals_earning | apply two_decimals_expense]; eauto.
  - intros q1 q2 H1 E1 H2 E2. unfold earnings_and_expenses. cbv zeta.
    change (List.filter (in_client_range 1 Examples.may_1 Examples.may_31)
              Examples.spec_df) with Examples.spec_df.
    unfold convert_amount, Examples.spec_df, Examples.txn, with_amount.
    cbn [map amount remove_dollar Ascii.eqb Bool.eqb].
    rewrite H1, H2. cbn [earning expense].
    assert (Qlt_bool 0 q1 = true) as -> by (apply Qlt_bool_iff; lra).
    assert (Qlt_bool q1 0 = false) as -> by (apply Qlt_bool_false_iff; lra).
    assert (Qlt_bool 0 q2 = false) as -> by (apply Qlt_bool_false_iff; lra).
    assert (Qlt_bool q2 0 = true) as -> by (apply Qlt_bool_iff; lra).
    rewrite (round2_Qeq _ _ E1), (round2_Qeq _ _ E2).
    reflexivity.
Qed.

(** C3, as stated, fails: two earnings of 0.004 are rounded to 0.00 each
    before they are added, so Earnings is 0.00, while the rounding of their
    sum 0.008 is 0.01. *)
Lemma earnings_rounded_before_sum :
  earnings_and_expenses decimal_to_numeric Examples.thousandths_df 1
    Examples.may_1 Examples.may_31
  = {| columns := ["Earnings"; "Expenses"]%string;
       values := [[0.00; 0.00]] |}
  /\ round2 (Qsum (map (fun r => earning (amount r))
                     (convert_amount decimal_to_numeric
                        (restrict Examples.thousandths_df 1
                           Examples.may_1 Examples.may_31))))
     = 0.01.
Proof. split; vm_compute; reflexivity. Qed.

(** *** The cash flow by period *)

Lemma In_numbers_filter (p : row (option Q) -> bool)
    (x : list (row (option Q))) (q : Q) :
  In q (numbers (List.filter p x)) -> In q (numbers x).
Proof.
  rewrite !In_numbers. intros (r & Hr & Hq). apply filter_In in Hr.
  exists r. tauto.
Qed.

Lemma two_decimals_flows (x : list (row (option Q))) :
  (forall q, In q (numbers x) -> two_decimals q) ->
  two_decimals (inflows x) /\ two_decimals (outflows x).
Proof.
  intros H. split; apply two_decimals_Qsum, List.Forall_forall.
  - intros q Hq. eapply H, In_numbers_filter, Hq.
  - intros q Hq. apply in_map_iff in Hq. destruct Hq as (q' & <- & Hq).
    apply two_decimals_abs. eapply H, In_numbers_filter, Hq.
Qed.

Lemma outflows_nonneg (x : list (row (option Q))) : 0 <= outflows x.
Proof.
  unfold outflows.
  induction (numbers (List.filter (fun r => is_expense (amount r)) x))
    as [|q l IH]; simpl.
  - apply Qle_refl.
  - pose proof (Qabs_nonneg q). lra.
Qed.

(** The savings rate of a period, case by case: a rate when the inflows are
    not zero; zero when inflows and outflows are both zero; minus infinity
    when there are outflows and the inflows are zero. *)
Lemma cash_flow_stats_savings (label : string) (x : list (row (option Q))) :
  (~ inflows x == 0 ->
   Savings (cash_flow_stats label x)
   = Fin (round2 ((inflows x - outflows x) / inflows x * 100)))
  /\ (inflows x == 0 -> outflows x == 0 ->
      Savings (cash_flow_stats label x) = Fin (round2 (0 * 100)))
  /\ (inflows x == 0 -> ~ outflows x == 0 ->
      Savings (cash_flow_stats label x) = NInf).
Proof.
  unfold cash_flow_stats. cbn [Savings]. unfold fdiv.
  pose proof (outflows_nonneg x) as Hout.
  split; [|split].
  - intros Hin.
    destruct (Qeq_bool (inflows x) 0) eqn:E; [|reflexivity].
    apply Qeq_bool_iff in E. contradiction.
  - intros Hin H0.
    assert (Qeq_bool (inflows x) 0 = true) as -> by now apply Qeq_bool_iff.
    assert (Qeq_bool (inflows x - outflows x) 0 = true) as ->
      by (apply Qeq_bool_iff; lra).
    reflexivity.
  - intros Hin H0.
    assert (Qeq_bool (inflows x) 0 = true) as -> by now apply Qeq_bool_iff.
    destruct (Qeq_bool (inflows x - outflows x) 0) eqn:E.
    + apply Qeq_bool_iff in E. exfalso. apply H0. lra.
    + assert (Qlt_bool 0 (inflows x - outflows x) = false) as ->
        by (apply Qlt_bool_false_iff; lra).
      reflexivity.
Qed.

(** C2: the code at a period with an expense and no earning.  The inflows
    are 0 and the savings rate is minus infinity, not 0: the division by
    zero gives [nan], which [fillna(0)] replaces, only when the net flow is
    zero as well. *)
Lemma cash_flow_savings_without_inflows :
  cash_flow_summary decimal_to_numeric Examples.only_expense_df 1
    Examples.may_1 Examples.may_31
  = [ {| Date := "2021-05-16"; Inflows := 0.00; Outflows := 40.00;
         Net_Cash_Flow := -40.00; Savings := NInf |} ].
Proof. vm_compute. reflexivity. Qed.

(** C4, as amended.  In every row, the three columns are the roundings of
    the inflows, of the outflows and of their difference, each taken from
    the unrounded sums of the period; the net cash flow shown is therefore
    within one hundredth of the difference of the inflows and outflows
    shown, and equal to it when every amount of the period has at most two
    decimals. *)
Theorem cash_flow_net_rounded (df : list transaction) (cid s e : Z)
    (o : cash_flow_row) :
  In o (cash_flow_summary to_numeric df cid s e) ->
  exists x : list (row (option Q)),
    x = members (fun r => period_label (e - s) <$> date r) (Date o)
          (period_rows to_numeric df cid s e)
    /\ Inflows o = round2 (inflows x)
    /\ Outflows o = round2 (outflows x)
    /\ Net_Cash_Flow o = round2 (inflows x - outflows x)
    /\ Qabs (Net_Cash_Flow o - (Inflows o - Outflows o)) <= 1 # 100
    /\ ((forall q, In q (numbers x) -> two_decimals q) ->
        Net_Cash_Flow o == Inflows o - Outflows o).
Proof.
  intros Ho. apply In_cash_flow_summary in Ho.
  destruct Ho as (label & _ & ->).
  cbn [Date Inflows Outflows Net_Cash_Flow cash_flow_stats].
  eexists. split; [reflexivity|].
  split; [reflexivity|]. split; [reflexivity|]. split; [reflexivity|].
  split; [apply round2_minus_near|].
  intros H. apply two_decimals_flows in H. destruct H as [Hi Ho].
  pose proof (two_decimals_minus _ _ Hi Ho) as Hd.
  unfold two_decimals in *. rewrite Hd, Hi, Ho. reflexivity.
Qed.

(** C4, as stated, fails: with an earning of 1.004 and an expense of 0.006
    in one week, the row shows inflows 1.00, outflows 0.01 and a net cash
    flow of 1.00, which is not 1.00 - 0.01. *)
Lemma cash_flow_net_not_difference :
  cash_flow_summary decimal_to_numeric Examples.three_decimals_df 1
    Examples.may_1 Examples.may_31
  = [ {| Date := "2021-05-16"; Inflows := 1.00; Outflows := 0.01;
         Net_Cash_Flow := 1.00; Savings := Fin 99.40 |} ]
  /\ ~ (1.00 == 1.00 - 0.01).
Proof. split; [vm_compute; reflexivity | discriminate]. Qed.

Lemma week_end_sunday (d : Z) :
  Calendar.weekday (Calendar.week_end d) = 6%Z
  /\ (d <= Calendar.week_end d < d + 7)%Z.
Proof.
  unfold Calendar.week_end, Calendar.weekday.
  pose proof (Z.div_mod (d + 6) 7 ltac:(lia)) as Hd.
  pose proof (Z.mod_pos_bound (d + 6) 7 ltac:(lia)) as Hr.
  split; [|lia].
  replace (d + (6 - (d + 6) mod 7) + 6)%Z
    with (6 + ((d + 6) / 7) * 7)%Z by lia.
  rewrite Z.mod_add by lia. reflexivity.
Qed.

Lemma In_cash_flow_dates (df : list transaction) (cid s e : Z)
    (label : string) :
  In label (map Date (cash_flow_summary to_numeric df cid s e))
  <-> exists r d, In r (period_rows to_numeric df cid s e)
                  /\ date r = Some d /\ label = period_label (e - s) d.
Proof.
  rewrite in_map_iff. split.
  - intros (o & <- & Ho). apply In_cash_flow_summary in Ho.
    destruct Ho as (label & (r & Hr & Hk) & ->). cbn [Date cash_flow_stats].
    destruct (date r) as [d|] eqn:Hd; [|discriminate].
    exists r, d. simpl in Hk. split; [exact Hr|]. split; congruence.
  - intros (r & d & Hr & Hd & ->).
    eexists. split; [|apply In_cash_flow_summary; eexists; split;
                       [exists r; split; [exact Hr|]|reflexivity]].
    + reflexivity.
    + rewrite Hd. reflexivity.
Qed.


(** *** The filter run twice *)

(** C9.  Each of the three aggregators gives, on the table cut down in
    advance to the rows of the client within the range, the result it
    gives on the whole table. *)
Theorem aggregators_on_restricted_table (df : list transaction)
    (cid s e : Z) :
  earnings_and_expenses to_numeric (restrict df cid s e) cid s e
  = earnings_and_expenses to_numeric df cid s e
  /\ expenses_summary to_numeric mcc_codes (restrict df cid s e) cid s e
     = expenses_summary to_numeric mcc_codes df cid s e
  /\ cash_flow_summary to_numeric (restrict df cid s e) cid s e
     = cash_flow_summary to_numeric df cid s e.
Proof.
  split; [|split].
  - unfold earnings_and_expenses, restrict. cbv zeta.
    now rewrite filter_filter_and.
  - unfold expenses_summary, expense_rows. cbv zeta.
    rewrite convert_amount_restrict, filter_filter_and; [reflexivity|].
    intros r H. apply andb_true_iff in H. tauto.
  - unfold cash_flow_summary, period_rows. cbv zeta.
    rewrite convert_amount_restrict, (filter_filter_and _ _ _ (fun _ H => H)).
    reflexivity.
Qed.

End Aggregators.

(** ** Worked examples *)

Section WorkedExamples.

Import Numeric DataFunctions DataSpec.
Local Open Scope Q_scope.


(** The worked example of C3 with the parser of decimal literals. *)
Lemma earnings_and_expenses_result_witness :
  earnings_and_expenses decimal_to_numeric Examples.spec_df 1
    Examples.may_1 Examples.may_31
  = {| columns := ["Earnings"; "Expenses"]%string;
       values := [[100.00; -40.00]] |}.
Proof.
  apply (proj2 (earnings_and_expenses_result decimal_to_numeric [] 0 0 0)
           100 (-40));
    reflexivity.
Defined.

(** The amended C4 on the week of the expense of the worked example. *)
Lemma cash_flow_net_rounded_witness :
  exists x : list (row (option Q)),
    x = [ {| client_id := 1; date := ts 2021 5 10; amount := Some (-40);
             mcc := IntCode 5411 |} ]
    /\ 0.00 = round2 (inflows x)
    /\ 40.00 = round2 (outflows x)
    /\ -40.00 = round2 (inflows x - outflows x)
    /\ Qabs (-40.00 - (0.00 - 40.00)) <= 1 # 100
    /\ ((forall q, In q (numbers x) -> two_decimals q) ->
        -40.00 == 0.00 - 40.00).
Proof.
  apply (cash_flow_net_rounded decimal_to_numeric Examples.spec_df 1
           Examples.may_1 Examples.may_31
           {| Date := "2021-05-16"; Inflows := 0.00; Outflows := 40.00;
              Net_Cash_Flow := -40.00; Savings := NInf |}).
  vm_compute. right. left. reflexivity.
Defined.

(** The amended C1 on a table with two mapped expenses and an unmapped
    one: the summary has a row for the mapped name, which counts two
    transactions. *)
Lemma expenses_summary_mapped_only_witness :
  (exists o,
      In o (expenses_summary decimal_to_numeric Examples.codes
              Examples.mixed_df 1 Examples.may_1 Examples.may_31)
      /\ Expenses_Type o = "Grocery Stores, Supermarkets"%string)
  /\ expenses_summary decimal_to_numeric Examples.codes
       Examples.mixed_df 1 Examples.may_1 Examples.may_31
     = [ {| Expenses_Type := "Grocery Stores, Supermarkets";
            Total_Amount := 12.50; Average := 6.25;
            Max := 2.50; Min := 10.00; Num_Transactions := 2 |} ].
Proof.
  split.
  - apply (proj1 (proj2 (expenses_summary_mapped_only decimal_to_numeric
                           Examples.codes Examples.mixed_df 1
                           Examples.may_1 Examples.may_31))
             {| client_id := 1; date := ts 2021 5 10; amount := Some (-10);
                mcc := IntCode 5411 |}).
    + vm_compute. left. reflexivity.
    + vm_compute. reflexivity.
  - vm_compute. reflexivity.
Defined.

(** C6 on the worked example: two dates are found, a row matches, the
    language model answers a text of Latin-1, and the record says that the
    report was created. *)
Lemma run_agent_outcome_witness :
  exists path doc w',
    Agent.run_agent (fun _ => Returns "texto"%string) Examples.spec_df 1
      "entre 2021-05-01 y 2021-05-31"
      {| Agent.dirs := ∅; Agent.files := ∅; Agent.stdout := [] |}
    = (Returns {| Agent.vd_start_date := "2021-05-01";
                  Agent.vd_end_date := "2021-05-31";
                  Agent.vd_client_id := 1;
                  Agent.vd_create_report := true |}, w')
    /\ Agent.files w' = <[ path := doc ]> ∅
    /\ Agent.pdf_body doc = "texto"%string.
Proof.
  pose proof (proj1 (proj2 (proj2 (run_agent_outcome
                (fun _ => Returns "texto"%string)
                Examples.spec_df 1 "entre 2021-05-01 y 2021-05-31"
                {| Agent.dirs := ∅; Agent.files := ∅; Agent.stdout := [] |})))
                {| Agent.year := 2021; Agent.month := 5; Agent.day := 1 |}
                {| Agent.year := 2021; Agent.month := 5; Agent.day := 31 |})
    as H.
  destruct H as [_ H]; [vm_compute; reflexivity|].
  destruct H as (_ & _ & H).
  { exists (Examples.txn 1 (ts 2021 5 2) "$100" 5411),
      (Calendar.ymd2ord 2021 5 2).
    split; [left; reflexivity|]. split; [reflexivity|].
    split; [reflexivity|]. vm_compute. split; discriminate. }
  destruct (H "texto"%string eq_refl eq_refl)
    as (path & doc & w' & Hrun & Hfiles & Hbody & _).
  exists path, doc, w'. split; [exact Hrun|]. split; assumption.
Defined.

(** C6, as stated, fails.  On a prompt with two texts of which one is no
    date [extract_dates] returns no dates, since it raises, and
    [run_agent] raises that error, which is not its validation error.  And
    on a prompt with two dates and a table with a row of the client within
    them, a text of the language model that Latin-1 cannot write makes
    [run_agent] raise instead of returning the record. *)
Lemma run_agent_no_record :
  Agent.extract_dates "del 2021-04-01 al 2021-04-31"
  = Raises (ValueError "day is out of range for month")
  /\ Agent.run_agent (fun _ => Returns "texto"%string) Examples.spec_df 1
       "del 2021-04-01 al 2021-04-31"
       {| Agent.dirs := ∅; Agent.files := ∅; Agent.stdout := [] |}
     = (Raises (ValueError "day is out of range for month"),
        {| Agent.dirs := ∅; Agent.files := ∅; Agent.stdout := [] |})
  /\ ValueError "day is out of range for month" <> AgentSpec.run_agent_error
  /\ Agent.extract_dates "entre 2021-05-01 y 2021-05-31"
     = Returns (Some {| Agent.year := 2021; Agent.month := 5;
                        Agent.day := 1 |},
                Some {| Agent.year := 2021; Agent.month := 5;
                        Agent.day := 31 |})
  /\ fst (Agent.run_agent (fun _ => Returns "total: 5 €"%string)
            Examples.spec_df 1 "entre 2021-05-01 y 2021-05-31"
            {| Agent.dirs := ∅; Agent.files := ∅; Agent.stdout := [] |})
     = Raises (UnicodeEncodeError "total: 5 €").
Proof.
  repeat split; try (vm_compute; reflexivity). discriminate.
Qed.

End WorkedExamples.

(** * Further properties of the aggregators *)

(** ** Signs and ranges of the figures *)

Section Figures.

Import Numeric DataFunctions DataSpec.
Local Open Scope Q_scope.

Variable to_numeric : string -> option Q.
Variable mcc_codes : gmap string string.

Lemma Qsum_nonneg (l : list Q) : (forall q, In q l -> 0 <= q) -> 0 <= Qsum l.
Proof.
  induction l as [|x l IH]; intros H; simpl.
  - apply Qle_refl.
  - assert (0 <= x) by (apply H; now left).
    assert (0 <= Qsum l) by (apply IH; intros q Hq; apply H; now right).
    lra.
Qed.

Lemma Qsum_nonpos (l : list Q) : (forall q, In q l -> q <= 0) -> Qsum l <= 0.
Proof.
  induction l as [|x l IH]; intros H; simpl.
  - apply Qle_refl.
  - assert (x <= 0) by (apply H; now left).
    assert (Qsum l <= 0) by (apply IH; intros q Hq; apply H; now right).
    lra.
Qed.

Lemma round2_nonneg (x : Q) : 0 <= x -> 0 <= round2 x.
Proof.
  intros H. apply round2_mono in H. rewrite round2_0 in H. lra.
Qed.

Lemma round2_nonpos (x : Q) : x <= 0 -> round2 x <= 0.
Proof.
  intros H. apply round2_mono in H. rewrite round2_0 in H. lra.
Qed.

Lemma earning_nonneg (x : option Q) : 0 <= earning x.
Proof.
  destruct x as [q|]; simpl; [|apply Qle_refl].
  destruct (Qlt_bool 0 q) eqn:E; [|apply Qle_refl].
  apply Qlt_bool_iff in E. lra.
Qed.

Lemma expense_nonpos (x : option Q) : expense x <= 0.
Proof.
  destruct x as [q|]; simpl; [|apply Qle_refl].
  destruct (Qlt_bool q 0) eqn:E; [|apply Qle_refl].
  apply Qlt_bool_iff in E. lra.
Qed.

(** X1.  Whatever the table, the client and the range, the single row of
    [earnings_and_expenses] has Earnings at least 0 and Expenses at most
    0. *)
Theorem earnings_and_expenses_signs (df : list transaction) (cid s e : Z) :
  exists E X : Q,
    values (earnings_and_expenses to_numeric df cid s e) = [[E; X]]
    /\ 0 <= E /\ X <= 0.
Proof.
  unfold earnings_and_expenses. cbv zeta. cbn [values].
  eexists _, _. split; [reflexivity|]. split.
  - apply round2_nonneg, Qsum_nonneg. intros q Hq.
    apply in_map_iff in Hq. destruct Hq as (y & <- & Hy).
    apply in_map_iff in Hy. destruct Hy as (r & <- & _).
    apply round2_nonneg, earning_nonneg.
  - apply round2_nonpos, Qsum_nonpos. intros q Hq.
    apply in_map_iff in Hq. destruct Hq as (y & <- & Hy).
    apply in_map_iff in Hy. destruct Hy as (r & <- & _).
    apply round2_nonpos, expense_nonpos.
Qed.

Lemma inflows_nonneg (x : list (row (option Q))) : 0 <= inflows x.
Proof.
  unfold inflows. apply Qsum_nonneg. intros q Hq.
  apply In_numbers in Hq. destruct Hq as (r & Hr & Hq).
  apply filter_In in Hr. destruct Hr as [_ Hr].
  rewrite Hq in Hr. simpl in Hr. now apply Qle_bool_iff.
Qed.

(** X2.  In every row of [cash_flow_summary], Inflows and Outflows are at
    least 0 and the savings rate is either a number, at most 100, or minus
    infinity; it is never plus infinity and never [nan].  It is minus
    infinity exactly when the period has outflows and its inflows are
    zero. *)
Theorem cash_flow_summary_ranges (df : list transaction) (cid s e : Z)
    (o : cash_flow_row) :
  In o (cash_flow_summary to_numeric df cid s e) ->
  0 <= Inflows o
  /\ 0 <= Outflows o
  /\ ((exists q, Savings o = Fin q /\ q <= 100) \/ Savings o = NInf)
  /\ (Savings o = NInf
      <-> let x := members (fun r => period_label (e - s) <$> date r) (Date o)
                     (period_rows to_numeric df cid s e) in
          inflows x == 0 /\ 0 < outflows x).
Proof.
  intros Ho. apply In_cash_flow_summary in Ho.
  destruct Ho as (label & _ & ->).
  cbn [Date Inflows Outflows cash_flow_stats]. cbv zeta.
  set (x := members _ label _).
  pose proof (inflows_nonneg x) as Hin.
  pose proof (outflows_nonneg x) as Hout.
  destruct (cash_flow_stats_savings label x) as (H1 & H2 & H3).
  split; [now apply round2_nonneg|]. split; [now apply round2_nonneg|].
  destruct (Qeq_dec (inflows x) 0) as [Hz|Hnz].
  - destruct (Qeq_dec (outflows x) 0) as [Hoz|Honz].
    + rewrite (H2 Hz Hoz). split.
      * left. eexists. split; [reflexivity|]. vm_compute. discriminate.
      * split; [discriminate|]. intros [_ H]. lra.
    + rewrite (H3 Hz Honz). split; [now right|].
      split; [|reflexivity]. intros _. split; [exact Hz|].
      destruct (Qlt_le_dec 0 (outflows x)) as [|Hle]; [assumption|].
      exfalso. apply Honz. lra.
  - rewrite (H1 Hnz). split.
    + left. eexists. split; [reflexivity|].
      apply Qle_trans with (round2 100); [|vm_compute; discriminate].
      apply round2_mono.
      assert (0 < inflows x) as Hpos.
      { destruct (Qlt_le_dec 0 (inflows x)) as [|Hle]; [assumption|].
        exfalso. apply Hnz. lra. }
      assert ((inflows x - outflows x) / inflows x <= 1) as Hd.
      { apply Qle_shift_div_r; [exact Hpos | lra]. }
      lra.
    + split; [discriminate|]. intros [Hz _]. contradiction.
Qed.

Lemma Qsum_le_member (l : list Q) (x : Q) :
  (forall q, In q l -> q <= 0) -> In x l -> Qsum l <= x.
Proof.
  induction l as [|y l IH]; intros H Hx; [contradiction|]. simpl.
  assert (y <= 0) by (apply H; now left).
  assert (Qsum l <= 0) by (apply Qsum_nonpos; intros q Hq; apply H; now right).
  destruct Hx as [->|Hx].
  - lra.
  - assert (Qsum l <= x) by (apply IH; [intros q Hq; apply H; now right | exact Hx]).
    lra.
Qed.

Lemma Qmean_between (l : list Q) :
  l <> [] -> (forall q, In q l -> q <= 0) ->
  Qsum l <= Qmean l /\ Qmean l <= 0.
Proof.
  intros Hne Hneg. unfold Qmean.
  pose proof (Qsum_nonpos l Hneg) as Hs.
  set (n := inject_Z (Z.of_nat (List.length l))).
  assert (1 <= n) as Hn.
  { subst n. destruct l; [congruence|]. simpl List.length.
    rewrite <- (Zle_Qle 1). lia. }
  assert (0 <= (- Qsum l) * (n - 1)) as Hp
    by (apply Qmult_le_0_compat; lra).
  split.
  - apply Qle_shift_div_l; [lra|].
    assert (Qsum l * n == Qsum l - (- Qsum l) * (n - 1)) as -> by ring.
    lra.
  - apply Qle_shift_div_r; [lra|]. lra.
Qed.

(** X3.  In every row of [expenses_summary] the four amounts are at least
    0, [Max] is at most [Min], and neither [Min] nor [Average] exceeds
    [Total Amount]: the statistics are taken on negative amounts and made
    absolute afterwards, so the largest absolute value is under Min and the
    smallest under Max.  The number of transactions is at least 1. *)
Theorem expenses_summary_order (df : list transaction) (cid s e : Z)
    (o : expenses_row) :
  In o (expenses_summary to_numeric mcc_codes df cid s e) ->
  0 <= Max o
  /\ Max o <= Min o
  /\ Min o <= Total_Amount o
  /\ 0 <= Average o
  /\ Average o <= Total_Amount o
  /\ (1 <= Num_Transactions o)%Z.
Proof.
  intros Ho. apply In_expenses_summary in Ho.
  destruct Ho as (name & (r & Hr & Hname) & ->).
  cbn [Max Min Average Total_Amount Num_Transactions expenses_stats].
  set (g := numbers (members (expenses_type mcc_codes) name
                       (expense_rows to_numeric df cid s e))).
  assert (forall q, In q g -> q <= 0) as Hneg.
  { intros q Hq. apply In_numbers in Hq. destruct Hq as (r' & Hin & Hq).
    apply In_members in Hin. destruct Hin as [Hin _].
    apply expense_rows_amount in Hin. destruct Hin as (q' & Hq' & Hlt).
    assert (q = q') by congruence. subst q'. lra. }
  assert (g <> []) as Hne.
  { destruct (expense_rows_amount _ _ _ _ _ _ Hr) as (q & Hq & _).
    assert (In q g) as Hin.
    { apply In_numbers. exists r. split; [|exact Hq].
      apply In_members. auto. }
    intros E. rewrite E in Hin. contradiction. }
  pose proof (Qmaximum_In g Hne) as Hmax.
  pose proof (Qminimum_In g Hne) as Hmin.
  destruct (Qmean_between g Hne Hneg) as [Hm1 Hm2].
  pose proof (Qminimum_le g _ Hmax) as Hle.
  pose proof (Qsum_le_member g _ Hneg Hmin) as Hsum.
  pose proof (round2_nonpos _ (Hneg _ Hmax)) as R0.
  pose proof (round2_nonpos _ Hm2) as R1.
  pose proof (round2_mono _ _ Hle) as R2.
  pose proof (round2_mono _ _ Hsum) as R3.
  pose proof (round2_mono _ _ Hm1) as R4.
  rewrite !Qabs_neg by lra.
  repeat split; try lra.
  destruct g; [congruence|]. simpl List.length. lia.
Qed.

End Figures.

(** ** Order of the rows and count of the transactions *)

Section Ordering.

Import Numeric DataFunctions DataSpec Measures.
Local Open Scope Q_scope.

Variable to_numeric : string -> option Q.
Variable mcc_codes : gmap string string.

Lemma pulled_le_total {A : Type} (f : A -> string) :
  Total (fun a b => String.le (f a) (f b)).
Proof. intros a b. apply String.le_total. Qed.

Lemma pulled_le_trans {A : Type} (f : A -> string) :
  Transitive (fun a b => String.le (f a) (f b)).
Proof. intros a b c. apply (transitivity (R := String.le)). Qed.

Lemma StronglySorted_map {A : Type} (f : A -> string) (l : list A) :
  StronglySorted (fun a b => String.le (f a) (f b)) l ->
  StronglySorted String.le (map f l).
Proof.
  induction 1 as [|x l Hl IH Hx]; simpl; constructor; [exact IH|].
  apply List.Forall_forall. intros y Hy. apply in_map_iff in Hy.
  destruct Hy as (z & <- & Hz).
  rewrite List.Forall_forall in Hx. now apply Hx.
Qed.

Lemma group_keys_NoDup (keys : list (option string)) :
  NoDup (group_keys keys).
Proof.
  unfold group_keys. rewrite merge_sort_Permutation.
  apply NoDup_remove_dups.
Qed.

Lemma summary_names {A B : Type} (key : A -> option string) (l : list A)
    (stats : string -> list A -> B) (name : B -> string) :
  (forall k g, name (stats k g) = k) ->
  map name (map (fun '(k, g) => stats k g) (groupby key l))
  = group_keys (map key l).
Proof.
  intros H. unfold groupby. rewrite !map_map.
  induction (group_keys (map key l)) as [|k ks IH]; simpl; congruence.
Qed.

Lemma sorted_summary_names {A B : Type} (key : A -> option string)
    (l : list A) (stats : string -> list A -> B) (name : B -> string)
    (dec : forall a b, Decision (String.le (name a) (name b))) :
  (forall k g, name (stats k g) = k) ->
  let out :=
    @merge_sort B (fun a b => String.le (name a) (name b)) dec
      (map (fun '(k, g) => stats k g) (groupby key l)) in
  StronglySorted String.le (map name out) /\ NoDup (map name out).
Proof.
  intros H out. split.
  - apply StronglySorted_map.
    apply (@Sorted_StronglySorted _ _ (pulled_le_trans name)).
    apply (@Sorted_merge_sort _ _ _ (pulled_le_total name)).
  - assert (map name out ≡ₚ group_keys (map key l)) as ->.
    { rewrite <- (summary_names key l stats name H).
      apply Permutation_map. subst out. apply merge_sort_Permutation. }
    apply group_keys_NoDup.
Qed.

(** X4.  The rows of [expenses_summary] are in ascending order of their
    category name, compared as texts, and no name comes twice. *)
Theorem expenses_summary_sorted (df : list transaction) (cid s e : Z) :
  let names :=
    map Expenses_Type (expenses_summary to_numeric mcc_codes df cid s e) in
  StronglySorted String.le names /\ NoDup names.
Proof.
  unfold expenses_summary. cbv zeta.
  apply (sorted_summary_names (expenses_type mcc_codes)
           (expense_rows to_numeric df cid s e) expenses_stats Expenses_Type).
  reflexivity.
Qed.

(** X5.  The rows of [cash_flow_summary] are in ascending order of their
    period label, compared as texts, and no period comes twice. *)
Theorem cash_flow_summary_sorted (df : list transaction) (cid s e : Z) :
  let labels := map Date (cash_flow_summary to_numeric df cid s e) in
  StronglySorted String.le labels /\ NoDup labels.
Proof.
  unfold cash_flow_summary. cbv zeta.
  apply (sorted_summary_names
           (fun r : row (option Q) => period_label (e - s) <$> date r)
           (period_rows to_numeric df cid s e) cash_flow_stats Date).
  reflexivity.
Qed.

Lemma Ztotal_Permutation (l1 l2 : list Z) :
  l1 ≡ₚ l2 -> Ztotal l1 = Ztotal l2.
Proof.
  induction 1 as [|x l1 l2 _ IH|x y l|l1 l2 l3 _ IH1 _ IH2]; simpl; lia.
Qed.

Lemma Ztotal_map_add {A : Type} (a b : A -> Z) (l : list A) :
  Ztotal (map (fun k => a k + b k)%Z l)
  = (Ztotal (map a l) + Ztotal (map b l))%Z.
Proof. induction l as [|k l IH]; simpl; lia. Qed.

Lemma Ztotal_indicator (x : option string) (ks : list string) :
  NoDup ks ->
  Ztotal (map (fun k => if bool_decide (x = Some k) then 1 else 0)%Z ks)
  = match x with
    | Some k0 => if bool_decide (k0 ∈ ks) then 1%Z else 0%Z
    | None => 0%Z
    end.
Proof.
  induction 1 as [|k ks Hk Hks IH]; cbn [map Ztotal fold_right].
  - destruct x as [k0|]; [|reflexivity].
    case_bool_decide as Hin; [|reflexivity].
    now apply not_elem_of_nil in Hin.
  - fold (Ztotal (map (fun k => if bool_decide (x = Some k) then 1 else 0)%Z
                   ks)).
    rewrite IH. destruct x as [k0|].
    + rewrite (bool_decide_ext (k0 ∈ k :: ks) (k0 = k \/ k0 ∈ ks))
        by apply elem_of_cons.
      destruct (decide (k0 = k)) as [->|Hne].
      * rewrite (bool_decide_eq_true_2 (Some k = Some k)) by reflexivity.
        rewrite (bool_decide_eq_false_2 (k ∈ ks)) by exact Hk.
        rewrite bool_decide_eq_true_2 by now left.
        reflexivity.
      * rewrite (bool_decide_eq_false_2 (Some k0 = Some k)) by congruence.
        destruct (decide (k0 ∈ ks)) as [Hin|Hin].
        -- rewrite !bool_decide_eq_true_2 by tauto. reflexivity.
        -- rewrite !bool_decide_eq_false_2 by tauto. reflexivity.
    + rewrite bool_decide_eq_false_2 by discriminate. reflexivity.
Qed.

(** The groups of a list divide the rows that have a key. *)
Lemma members_partition {A : Type} (key : A -> option string)
    (ks : list string) (l : list A) :
  NoDup ks ->
  (forall r k, In r l -> key r = Some k -> In k ks) ->
  Ztotal (map (fun k => Z.of_nat (List.length (members key k l))) ks)
  = Z.of_nat
      (List.length (List.filter (fun r => bool_decide (is_Some (key r))) l)).
Proof.
  intros Hnd. induction l as [|r l IH]; intros Hin.
  - simpl. clear Hnd Hin.
    induction ks as [|k ks IHk]; simpl; [reflexivity | now rewrite IHk].
  - assert (forall k,
              Z.of_nat (List.length (members key k (r :: l)))
              = ((if bool_decide (key r = Some k) then 1 else 0)
                 + Z.of_nat (List.length (members key k l)))%Z) as Hstep.
    { intros k. unfold members. simpl.
      destruct (bool_decide (key r = Some k)); simpl List.length; lia. }
    rewrite (map_ext _ _ Hstep), Ztotal_map_add, (Ztotal_indicator _ _ Hnd).
    rewrite IH by (intros r' k Hr'; apply Hin; now right).
    simpl List.filter. destruct (key r) as [k0|] eqn:Hk.
    + rewrite (bool_decide_eq_true_2 (is_Some (Some k0))) by eauto.
      rewrite (bool_decide_eq_true_2 (k0 ∈ ks))
        by (apply list_elem_of_In, (Hin r); [now left | exact Hk]).
      simpl List.length. lia.
    + rewrite (bool_decide_eq_false_2 (is_Some None))
        by (intros [? ?]; discriminate).
      lia.
Qed.

(** X6.  The transaction counts of the rows of [expenses_summary] add up
    to the number of filtered expense rows whose code is a key of the
    lookup: each of them is counted once, and no other row is. *)
Theorem expenses_summary_count (df : list transaction) (cid s e : Z) :
  Ztotal (map Num_Transactions
            (expenses_summary to_numeric mcc_codes df cid s e))
  = Z.of_nat
      (List.length
         (List.filter (mapped mcc_codes)
            (expense_rows to_numeric df cid s e))).
Proof.
  unfold expenses_summary. cbv zeta.
  set (rows := expense_rows to_numeric df cid s e).
  rewrite (Ztotal_Permutation _
             (map Num_Transactions
                (map (fun '(name, g) => expenses_stats name g)
                   (groupby (expenses_type mcc_codes) rows)))).
  2:{ apply Permutation_map, merge_sort_Permutation. }
  unfold groupby. rewrite !map_map.
  cbn [Num_Transactions expenses_stats].
  rewrite (map_ext_in _
             (fun k => Z.of_nat
                (List.length (members (expenses_type mcc_codes) k rows)))).
  - apply members_partition; [apply group_keys_NoDup|].
    intros r k Hr Hk. apply In_group_keys, in_map_iff. eauto.
  - intros k _. f_equal. apply numbers_all.
    intros r Hr. apply In_members in Hr. destruct Hr as [Hr _].
    apply expense_rows_amount in Hr. destruct Hr as (q & Hq & _). eauto.
Qed.

End Ordering.

(** ** Rows that do not count, and ranges put together *)

Section Selection.

Import Numeric DataFunctions DataSpec Measures.
Local Open Scope Q_scope.

Variable to_numeric : string -> option Q.
Variable mcc_codes : gmap string string.

Lemma filter_comm {A : Type} (p q : A -> bool) (l : list A) :
  List.filter p (List.filter q l) = List.filter q (List.filter p l).
Proof.
  induction l as [|x l IH]; simpl; [reflexivity|].
  destruct (p x) eqn:Hp, (q x) eqn:Hq; simpl; rewrite ?Hp, ?Hq, IH; reflexivity.
Qed.

Lemma Qsum_filter_zero {A : Type} (f : A -> Q) (p : A -> bool) (l : list A) :
  (forall x, p x = false -> f x == 0) ->
  Qsum (map f (List.filter p l)) == Qsum (map f l).
Proof.
  intros H. induction l as [|x l IH]; simpl; [reflexivity|].
  destruct (p x) eqn:Hp; simpl; rewrite IH; [reflexivity|].
  rewrite (H x Hp). ring.
Qed.

Lemma Qsum_filter_split {A : Type} (f : A -> Q) (p p1 p2 : A -> bool)
    (l : list A) :
  (forall x, p x = p1 x || p2 x) ->
  (forall x, p1 x && p2 x = false) ->
  Qsum (map f (List.filter p l))
  == Qsum (map f (List.filter p1 l)) + Qsum (map f (List.filter p2 l)).
Proof.
  intros Hp Hd. induction l as [|x l IH]; simpl; [reflexivity|].
  rewrite (Hp x). specialize (Hd x).
  destruct (p1 x), (p2 x); try discriminate; simpl; rewrite IH; ring.
Qed.

Lemma parsable_amount (r : transaction) :
  parsable to_numeric r = false ->
  amount (with_amount (fun a => to_numeric (remove_dollar a)) r) = None.
Proof.
  unfold parsable. intros H. apply bool_decide_eq_false in H.
  cbn [amount with_amount].
  destruct (to_numeric (remove_dollar (amount r))); [|reflexivity].
  exfalso. apply H. eauto.
Qed.

(** X7.  A row whose amount is not a number is without effect on
    [earnings_and_expenses] and on [expenses_summary]: both give, on the
    table without such rows, the result they give on the whole table. *)
Theorem unparsable_rows_ignored (df : list transaction) (cid s e : Z) :
  earnings_and_expenses to_numeric
    (List.filter (parsable to_numeric) df) cid s e
  = earnings_and_expenses to_numeric df cid s e
  /\ expenses_summary to_numeric mcc_codes
       (List.filter (parsable to_numeric) df) cid s e
     = expenses_summary to_numeric mcc_codes df cid s e.
Proof.
  split.
  - unfold earnings_and_expenses. cbv zeta.
    rewrite filter_comm. unfold convert_amount.
    rewrite !map_map.
    f_equal. f_equal. f_equal; [|f_equal]; apply round2_Qeq;
      apply Qsum_filter_zero; intros r Hr;
      rewrite (parsable_amount r Hr); reflexivity.
  - unfold expenses_summary, expense_rows. cbv zeta.
    f_equal. f_equal. f_equal.
    unfold convert_amount. rewrite !filter_map_comm. f_equal.
    apply filter_filter_and. intros r H.
    apply andb_true_iff in H. destruct H as [_ H].
    unfold parsable. apply bool_decide_eq_true.
    cbn [amount with_amount] in H.
    destruct (to_numeric (remove_dollar (amount r))); [eauto|discriminate].
Qed.

Lemma numbers_none (x : list (row (option Q))) :
  (forall r, In r x -> amount r = None) -> numbers x = [].
Proof.
  intros H. destruct (numbers x) as [|q l] eqn:E; [reflexivity|].
  assert (In q (numbers x)) as Hq by (rewrite E; now left).
  apply In_numbers in Hq. destruct Hq as (r & Hr & Hq).
  rewrite (H r Hr) in Hq. discriminate.
Qed.

(** X8.  A period of [cash_flow_summary] whose selected rows all have an
    amount that is not a number is not left out: it has its row, with
    inflows, outflows, net cash flow and savings rate all 0. *)
Theorem cash_flow_summary_unparsable_period (df : list transaction)
    (cid s e : Z) (r : row (option Q)) (d : Z) :
  In r (period_rows to_numeric df cid s e) ->
  date r = Some d ->
  (forall r', In r' (period_rows to_numeric df cid s e) ->
              period_label (e - s) <$> date r' = Some (period_label (e - s) d) ->
              amount r' = None) ->
  In {| Date := period_label (e - s) d; Inflows := 0.00; Outflows := 0.00;
        Net_Cash_Flow := 0.00; Savings := Fin 0.00 |}
     (cash_flow_summary to_numeric df cid s e).
Proof.
  intros Hr Hd Hall. apply In_cash_flow_summary.
  exists (period_label (e - s) d). split.
  - exists r. split; [exact Hr|]. now rewrite Hd.
  - set (x := members _ _ _).
    assert (forall p, numbers (List.filter p x) = []) as Hnone.
    { intros p. apply numbers_none. intros r' Hr'.
      apply filter_In in Hr'. destruct Hr' as [Hr' _].
      apply In_members in Hr'. destruct Hr' as [Hin Hk]. now apply Hall. }
    unfold cash_flow_stats, inflows, outflows. rewrite !Hnone.
    reflexivity.
Qed.

Lemma in_client_range_split {A : Type} (cid s m e : Z) (r : row A) :
  (s <= m + 1)%Z -> (m <= e)%Z ->
  in_client_range cid s e r
  = in_client_range cid s m r || in_client_range cid (m + 1) e r
  /\ in_client_range cid s m r && in_client_range cid (m + 1) e r = false.
Proof.
  intros H1 H2. unfold in_client_range, date_ge, date_le.
  destruct (client_id r =? cid)%Z; [|split; reflexivity].
  destruct (date r) as [x|]; [|split; reflexivity]. simpl.
  destruct (Z.leb_spec s x), (Z.leb_spec x e), (Z.leb_spec x m),
    (Z.leb_spec (m + 1) x); simpl; split; try reflexivity; lia.
Qed.

(** X9.  The totals of [earnings_and_expenses] over two ranges that follow
    each other, from [s] to [m] and from the day after [m] to [e], add up
    to its totals over the whole range from [s] to [e]: each value is
    rounded before the sum, so nothing is lost in between. *)
Theorem earnings_and_expenses_adjacent_ranges (df : list transaction)
    (cid s m e : Z) :
  (s <= m + 1)%Z -> (m <= e)%Z ->
  exists E X E1 X1 E2 X2 : Q,
    values (earnings_and_expenses to_numeric df cid s e) = [[E; X]]
    /\ values (earnings_and_expenses to_numeric df cid s m) = [[E1; X1]]
    /\ values (earnings_and_expenses to_numeric df cid (m + 1) e) = [[E2; X2]]
    /\ E == E1 + E2
    /\ X == X1 + X2.
Proof.
  intros H1 H2. unfold earnings_and_expenses. cbv zeta. cbn [values].
  eexists _, _, _, _, _, _.
  split; [reflexivity|]. split; [reflexivity|]. split; [reflexivity|].
  unfold convert_amount. rewrite !round2_Qsum_round2, !map_map.
  split; apply Qsum_filter_split; intros r;
    now apply in_client_range_split.
Qed.

Lemma In_period_rows (df : list transaction) (cid s e : Z)
    (r' : row (option Q)) :
  In r' (period_rows to_numeric df cid s e)
  <-> exists r d,
        In r df /\ r' = with_amount (fun a => to_numeric (remove_dollar a)) r
        /\ client_id r = cid /\ date r = Some d /\ (s <= d <= e)%Z.
Proof.
  unfold period_rows, convert_amount.
  rewrite !List.filter_In, in_map_iff, in_client_range_spec,
    bool_decide_eq_true.
  split.
  - intros [[(r & <- & Hr) [Hc (d & Hd & Hb)]] _].
    exists r, d. auto.
  - intros (r & d & Hr & -> & Hc & Hd & Hb). split; [split|].
    + now exists r.
    + split; [exact Hc|]. exists d. auto.
    + cbn [date with_amount]. rewrite Hd. now eexists.
Qed.

(** X19.  A call of [cash_flow_summary] raises [KeyError] on the column
    ['Inflows'] when no row of the table is of the client with a date
    within the range; when some row is, it returns its summary, which has
    at least one row. *)
Theorem cash_flow_summary_result_cases (df : list transaction) (cid s e : Z) :
  (~ dated_row df cid s e ->
   cash_flow_summary_result to_numeric df cid s e
   = Raises (KeyError "Inflows"))
  /\ (dated_row df cid s e ->
      cash_flow_summary_result to_numeric df cid s e
      = Returns (cash_flow_summary to_numeric df cid s e)
      /\ cash_flow_summary to_numeric df cid s e <> []).
Proof.
  unfold cash_flow_summary_result, dated_row. split.
  - intros Hno.
    destruct (period_rows to_numeric df cid s e) as [|r' l] eqn:Hp;
      [reflexivity|].
    exfalso. apply Hno.
    assert (In r' (period_rows to_numeric df cid s e)) as Hin
      by (rewrite Hp; now left).
    apply In_period_rows in Hin.
    destruct Hin as (r & d & Hr & _ & Hc & Hd & Hb). exists r, d. auto.
  - intros (r & d & Hr & Hc & Hd & Hb).
    assert (In (with_amount (fun a => to_numeric (remove_dollar a)) r)
               (period_rows to_numeric df cid s e)) as Hin.
    { apply In_period_rows. exists r, d. auto. }
    split.
    + destruct (period_rows to_numeric df cid s e); [contradiction|].
      reflexivity.
    + assert (In (period_label (e - s) d)
                 (map Date (cash_flow_summary to_numeric df cid s e))) as Hl.
      { apply In_cash_flow_dates. eexists _, d.
        split; [exact Hin|]. split; [exact Hd | reflexivity]. }
      intros E. rewrite E in Hl. contradiction.
Qed.

End Selection.

(** ** The order of the rows of the table *)

Section Reordering.

Import Numeric DataFunctions DataSpec Measures.
Local Open Scope Q_scope.

Variable to_numeric : string -> option Q.
Variable mcc_codes : gmap string string.

Lemma Permutation_List_filter {A : Type} (p : A -> bool) (l1 l2 : list A) :
  l1 ≡ₚ l2 -> List.filter p l1 ≡ₚ List.filter p l2.
Proof.
  induction 1 as [|x l1 l2 _ IH|x y l|l1 l2 l3 _ IH1 _ IH2]; simpl.
  - reflexivity.
  - destruct (p x); [now constructor | exact IH].
  - destruct (p x), (p y); try reflexivity. constructor.
  - now transitivity (List.filter p l2).
Qed.

Lemma Qsum_Permutation (l1 l2 : list Q) : l1 ≡ₚ l2 -> Qsum l1 == Qsum l2.
Proof.
  induction 1 as [|x l1 l2 _ IH|x y l|l1 l2 l3 _ IH1 _ IH2]; simpl.
  - reflexivity.
  - now rewrite IH.
  - ring.
  - now rewrite IH1.
Qed.

Lemma Qmaximum_Permutation (l1 l2 : list Q) :
  l1 ≡ₚ l2 -> Qmaximum l1 == Qmaximum l2.
Proof.
  intros H. destruct l1 as [|x l1].
  - apply Permutation_nil in H. now subst.
  - assert (l2 <> []) as Hne.
    { intros ->. symmetry in H. now apply Permutation_nil in H. }
    apply Qle_antisym; apply Qmaximum_ge.
    + eapply Permutation_in; [exact H|]. now apply Qmaximum_In.
    + eapply Permutation_in; [symmetry; exact H|].
      now apply Qmaximum_In.
Qed.

Lemma Qminimum_Permutation (l1 l2 : list Q) :
  l1 ≡ₚ l2 -> Qminimum l1 == Qminimum l2.
Proof.
  intros H. destruct l1 as [|x l1].
  - apply Permutation_nil in H. now subst.
  - assert (l2 <> []) as Hne.
    { intros ->. symmetry in H. now apply Permutation_nil in H. }
    apply Qle_antisym; apply Qminimum_le.
    + eapply Permutation_in; [symmetry; exact H|].
      now apply Qminimum_In.
    + eapply Permutation_in; [exact H|]. now apply Qminimum_In.
Qed.

Lemma numbers_Permutation (x1 x2 : list (row (option Q))) :
  x1 ≡ₚ x2 -> numbers x1 ≡ₚ numbers x2.
Proof. intros H. unfold numbers. now rewrite H. Qed.

Lemma group_keys_sorted (keys : list (option string)) :
  Sorted String.le (group_keys keys).
Proof. unfold group_keys. apply Sorted_merge_sort. apply _. Qed.

Lemma group_keys_Permutation (keys1 keys2 : list (option string)) :
  keys1 ≡ₚ keys2 -> group_keys keys1 = group_keys keys2.
Proof.
  intros H. apply (Sorted_unique String.le).
  - apply group_keys_sorted.
  - apply group_keys_sorted.
  - apply NoDup_Permutation; try apply group_keys_NoDup.
    intros k. rewrite !list_elem_of_In, !In_group_keys.
    split; apply Permutation_in; [exact H | symmetry; exact H].
Qed.

Lemma expenses_stats_Permutation (name : string)
    (g1 g2 : list (row (option Q))) :
  g1 ≡ₚ g2 -> expenses_stats name g1 = expenses_stats name g2.
Proof.
  intros H. apply numbers_Permutation in H. unfold expenses_stats.
  rewrite (round2_Qeq _ _ (Qsum_Permutation _ _ H)).
  rewrite (round2_Qeq _ _ (Qmaximum_Permutation _ _ H)).
  rewrite (round2_Qeq _ _ (Qminimum_Permutation _ _ H)).
  rewrite (Permutation_length H).
  f_equal. f_equal. apply round2_Qeq. unfold Qmean.
  rewrite (Qsum_Permutation _ _ H), (Permutation_length H). reflexivity.
Qed.

Lemma fdiv_Qeq (a1 a2 b1 b2 : Q) :
  a1 == a2 -> b1 == b2 ->
  fround2 (fmul100 (fillna0 (fdiv a1 b1)))
  = fround2 (fmul100 (fillna0 (fdiv a2 b2))).
Proof.
  intros Ha Hb. unfold fdiv.
  assert (Qeq_bool b1 0 = Qeq_bool b2 0) as ->.
  { apply eq_true_iff_eq. rewrite !Qeq_bool_iff. now rewrite Hb. }
  assert (Qeq_bool a1 0 = Qeq_bool a2 0) as ->.
  { apply eq_true_iff_eq. rewrite !Qeq_bool_iff. now rewrite Ha. }
  assert (Qlt_bool 0 a1 = Qlt_bool 0 a2) as ->.
  { apply eq_true_iff_eq. rewrite !Qlt_bool_iff. now rewrite Ha. }
  destruct (Qeq_bool b2 0) eqn:E; [reflexivity|].
  cbn [fillna0 fmul100 fround2]. f_equal. apply round2_Qeq.
  apply Qeq_bool_neq in E. now rewrite Ha, Hb.
Qed.

Lemma cash_flow_stats_Permutation (label : string)
    (x1 x2 : list (row (option Q))) :
  x1 ≡ₚ x2 -> cash_flow_stats label x1 = cash_flow_stats label x2.
Proof.
  intros H.
  assert (inflows x1 == inflows x2) as Hi.
  { unfold inflows.
    now apply Qsum_Permutation, numbers_Permutation, Permutation_List_filter. }
  assert (outflows x1 == outflows x2) as Ho.
  { unfold outflows.
    now apply Qsum_Permutation, Permutation_map, numbers_Permutation,
      Permutation_List_filter. }
  unfold cash_flow_stats.
  rewrite (round2_Qeq _ _ Hi), (round2_Qeq _ _ Ho).
  rewrite (round2_Qeq (inflows x1 - outflows x1) (inflows x2 - outflows x2))
    by now rewrite Hi, Ho.
  f_equal. apply fdiv_Qeq; [now rewrite Hi, Ho | exact Hi].
Qed.

Lemma groupby_stats_Permutation {A B : Type} (key : A -> option string)
    (stats : string -> list A -> B) (l1 l2 : list A) :
  (forall k g1 g2, g1 ≡ₚ g2 -> stats k g1 = stats k g2) ->
  l1 ≡ₚ l2 ->
  map (fun '(k, g) => stats k g) (groupby key l1)
  = map (fun '(k, g) => stats k g) (groupby key l2).
Proof.
  intros Hs H. unfold groupby. rewrite !map_map.
  rewrite (group_keys_Permutation (map key l1) (map key l2))
    by now apply Permutation_map.
  apply map_ext. intros k. apply Hs.
  unfold members. now apply Permutation_List_filter.
Qed.

(** X10.  The order of the rows of the table is without effect on what
    the two summaries list: on two tables that hold the same rows in
    another order, [expenses_summary] gives the same categories in the same
    order, each with the same [Max], [Min] and number of transactions, and
    [cash_flow_summary] gives the same periods in the same order. *)
Theorem aggregators_row_order (df1 df2 : list transaction) (cid s e : Z) :
  df1 ≡ₚ df2 ->
  map (fun o => (Expenses_Type o, Max o, Min o, Num_Transactions o))
      (expenses_summary to_numeric mcc_codes df1 cid s e)
  = map (fun o => (Expenses_Type o, Max o, Min o, Num_Transactions o))
        (expenses_summary to_numeric mcc_codes df2 cid s e)
  /\ map Date (cash_flow_summary to_numeric df1 cid s e)
     = map Date (cash_flow_summary to_numeric df2 cid s e).
Proof.
  intros H. split.
  - f_equal. unfold expenses_summary, expense_rows. cbv zeta. f_equal.
    apply groupby_stats_Permutation; [apply expenses_stats_Permutation|].
    now apply Permutation_List_filter, Permutation_map.
  - f_equal. unfold cash_flow_summary, period_rows. cbv zeta. f_equal.
    apply groupby_stats_Permutation; [apply cash_flow_stats_Permutation|].
    now do 2 apply Permutation_List_filter; apply Permutation_map.
Qed.

End Reordering.

(** * Further properties of the agent *)

(** ** The dates that [extract_dates] returns *)

Section ReturnedDates.

Import Agent AgentSpec.

Lemma datetime_new_returns (y m d : Z) (t : datetime) :
  datetime_new y m d = Returns t ->
  t = {| year := y; month := m; day := d |} /\ valid_date t = true.
Proof.
  unfold datetime_new.
  destruct ((1 <=? y) && (y <=? 9999)) eqn:Hy; [|discriminate].
  destruct ((1 <=? m) && (m <=? 12)) eqn:Hm; [|discriminate].
  destruct ((1 <=? d) && (d <=? Calendar.days_in_month y m)) eqn:Hd;
    [|discriminate].
  simpl. intros [= <-]. split; [reflexivity|].
  unfold valid_date. simpl.
  rewrite andb_true_iff in Hy, Hm, Hd.
  destruct Hy as [-> ->], Hm as [-> ->], Hd as [-> ->]. reflexivity.
Qed.

Lemma strptime_returns (text : string) (t : datetime) :
  strptime text = Returns t -> valid_date t = true.
Proof.
  unfold strptime.
  destruct (PyStr.digits_at 4 text)
    as [[y [|h1 [|m1 [|m2 [|h2 [|d1 rest]]]]]]|]; try discriminate.
  destruct (month_field m1 m2) as [m|]; [|discriminate].
  destruct (day_field d1 rest) as [[d unread]|]; [|discriminate].
  destruct (negb _); [discriminate|].
  destruct (negb _); [discriminate|].
  intros H. now apply datetime_new_returns in H.
Qed.

Lemma month_range_returns (yt : string) (m : Z) (s e : datetime) :
  month_range yt m = Returns (s, e) ->
  valid_date s = true /\ valid_date e = true
  /\ year s = PyStr.int yt /\ month s = m /\ day s = 1
  /\ year e = PyStr.int yt /\ month e = m /\ day e = last_day m.
Proof.
  unfold month_range.
  destruct (datetime_new (PyStr.int yt) m 1) as [s'|] eqn:Hs; [|discriminate].
  cbn [bind].
  assert ((if m =? 2 then datetime_new (PyStr.int yt) m 28
           else if existsb (Z.eqb m) [4; 6; 9; 11]
                then datetime_new (PyStr.int yt) m 30
                else datetime_new (PyStr.int yt) m 31)
          = datetime_new (PyStr.int yt) m (last_day m)) as ->.
  { unfold last_day. destruct (m =? 2); [reflexivity|].
    now destruct (existsb (Z.eqb m) [4; 6; 9; 11]). }
  destruct (datetime_new (PyStr.int yt) m (last_day m)) as [e'|] eqn:He;
    [|discriminate].
  cbn [bind]. intros [= <- <-].
  apply datetime_new_returns in Hs, He.
  destruct Hs as [-> Hs], He as [-> He]. simpl. tauto.
Qed.

Lemma scan_months_returns (items : list (string * Z)) (prompt : string)
    (res : outcome (datetime * datetime)) :
  scan_months items prompt = Some res ->
  exists word m yt,
    List.find (occurs_in prompt) items = Some (word, m)
    /\ PyStr.re_search_d4 prompt = Some yt
    /\ res = month_range yt m.
Proof.
  induction items as [|[name num] rest IH]; simpl; [discriminate|].
  unfold occurs_in at 1. simpl.
  destruct (PyStr.contains name prompt) eqn:Hc.
  - destruct (PyStr.re_search_d4 prompt) as [yt|] eqn:Hy.
    + intros [= <-]. exists name, num, yt. auto.
    + intros H. rewrite scan_months_no_year in H by exact Hy. discriminate.
  - exact IH.
Qed.

(** X11.  [extract_dates] never returns one date without the other, and
    every date it returns is a day of the calendar, with a year from 1 to
    9999. *)
Theorem extract_dates_calendar (prompt : string) (a b : option datetime) :
  extract_dates prompt = Returns (a, b) ->
  (a = None /\ b = None)
  \/ (exists s e, a = Some s /\ b = Some e
                  /\ valid_date s = true /\ valid_date e = true).
Proof.
  unfold extract_dates.
  destruct (scan_months month_mapping prompt) as [[[s e]|err]|] eqn:Hscan.
  - cbn [bind fst snd]. intros [= <- <-]. right. exists s, e.
    apply scan_months_returns in Hscan.
    destruct Hscan as (word & m & yt & _ & _ & Hres). symmetry in Hres.
    apply month_range_returns in Hres. tauto.
  - discriminate.
  - clear Hscan.
    destruct (PyStr.re_findall_date prompt) as [|d0 [|d1 [|d2 l]]].
    + intros H. injection H as <- <-. left. split; reflexivity.
    + intros H. injection H as <- <-. left. split; reflexivity.
    + destruct (strptime d0) as [s|err] eqn:H0; [|discriminate].
      destruct (strptime d1) as [e|err] eqn:H1; [|discriminate].
      cbn [bind]. intros H. injection H as <- <-. right. exists s, e.
      apply strptime_returns in H0, H1.
      split; [reflexivity|]. split; [reflexivity|]. split; assumption.
    + intros H. injection H as <- <-. left. split; reflexivity.
Qed.

(** X12.  When the month strategy applies, the end of the range is the
    last day of the month in the calendar unless the month is February of
    a leap year: then the range ends on the 28th and leaves the 29th
    out. *)
Theorem extract_dates_february (prompt word yt : string) (m : Z) :
  first_month_word prompt = Some (word, m) ->
  PyStr.re_search_d4 prompt = Some yt ->
  1 <= PyStr.int yt ->
  exists s e,
    extract_dates prompt = Returns (Some s, Some e)
    /\ (day e = Calendar.days_in_month (year e) (month e)
        <-> ~ (m = 2 /\ Calendar.is_leap (PyStr.int yt) = true))
    /\ (m = 2 -> Calendar.is_leap (PyStr.int yt) = true ->
        day e = 28 /\ Calendar.days_in_month (year e) (month e) = 29).
Proof.
  intros Hw Hy Hpos. eexists _, _.
  split; [exact (extract_dates_month _ _ _ _ Hw Hy Hpos)|].
  cbn [year month day].
  apply find_some in Hw. destruct Hw as [Hin _].
  apply month_mapping_range in Hin.
  assert (m = 1 \/ m = 2 \/ m = 3 \/ m = 4 \/ m = 5 \/ m = 6 \/ m = 7 \/ m = 8
          \/ m = 9 \/ m = 10 \/ m = 11 \/ m = 12) as H by lia.
  unfold last_day, Calendar.days_in_month.
  repeat (destruct H as [->|H]); try subst m; simpl.
  all: destruct (Calendar.is_leap (PyStr.int yt));
    intuition (first [lia | discriminate | congruence]).
Qed.

End ReturnedDates.

(** ** Months that the Spanish words cannot name *)

Section ShadowedWords.

Import Agent AgentSpec.

Lemma decimo_in_longer (prompt : string) :
  PyStr.contains "décimo" prompt = false ->
  PyStr.contains "undécimo" prompt = false
  /\ PyStr.contains "duodécimo" prompt = false.
Proof.
  intros Hd. split.
  - destruct (PyStr.contains "undécimo" prompt) eqn:Hu; [|reflexivity].
    rewrite <- Hd. symmetry.
    apply (contains_trans "décimo" "undécimo" prompt); [reflexivity | exact Hu].
  - destruct (PyStr.contains "duodécimo" prompt) eqn:Hu; [|reflexivity].
    rewrite <- Hd. symmetry.
    apply (contains_trans "décimo" "duodécimo" prompt); [reflexivity | exact Hu].
Qed.

Lemma first_month_word_11_12 (prompt word : string) (m : Z) :
  first_month_word prompt = Some (word, m) ->
  (m = 11 -> word = "eleventh"%string)
  /\ (m = 12 -> word = "twelfth"%string).
Proof.
  unfold first_month_word, month_mapping. cbn [List.find].
  unfold occurs_in. cbn [fst].
  repeat match goal with
         | |- (if ?c then _ else _) = _ -> _ =>
             let H := fresh "Hc" in
             destruct c eqn:H;
             [ intros [= <- <-]; split; intros Hm;
               first [ discriminate Hm
                     | reflexivity
                     | exfalso;
                       match goal with
                       | Hd : PyStr.contains "décimo" prompt = false |- _ =>
                           destruct (decimo_in_longer prompt Hd); congruence
                       end ]
             | ]
         end.
  discriminate.
Qed.

(** X13.  The month strategy never gives November or December on account
    of a Spanish word: when the loop over the month table returns a range
    of month 11, the prompt holds "eleventh", and when it returns a range
    of month 12, the prompt holds "twelfth". *)
Theorem scan_months_november_december (prompt : string) (s e : datetime) :
  scan_months month_mapping prompt = Some (Returns (s, e)) ->
  (month s = 11 -> PyStr.contains "eleventh" prompt = true)
  /\ (month s = 12 -> PyStr.contains "twelfth" prompt = true).
Proof.
  intros H. apply scan_months_returns in H.
  destruct H as (word & m & yt & Hfind & _ & Hres). symmetry in Hres.
  apply month_range_returns in Hres.
  destruct Hres as (_ & _ & _ & Hm & _).
  destruct (first_month_word_11_12 _ _ _ Hfind) as [H11 H12].
  apply find_some in Hfind. destruct Hfind as [_ Hocc].
  unfold occurs_in in Hocc. cbn [fst] in Hocc.
  split; intros Hs.
  - rewrite <- H11; [exact Hocc | congruence].
  - rewrite <- H12; [exact Hocc | congruence].
Qed.

End ShadowedWords.

(** ** What [run_agent] leaves alone *)

Section AgentFrame.

Import Agent AgentSpec.

Variable predict : string -> outcome string.

Lemma filter_app_nil {A : Type} (p : A -> bool) (l extra : list A) :
  (forall r, In r extra -> p r = false) ->
  List.filter p (l ++ extra) = List.filter p l.
Proof.
  intros H. rewrite List.filter_app.
  assert (List.filter p extra = []) as ->.
  { induction extra as [|x extra IH]; simpl; [reflexivity|].
    rewrite (H x) by now left. apply IH. intros r Hr. apply H. now right. }
  apply app_nil_r.
Qed.

(** X14.  The rows of other clients are without effect on [run_agent]:
    with such rows added to the table, it returns the same record and
    leaves the same files. *)
Theorem run_agent_other_clients (df extra : list transaction) (cid : Z)
    (input : string) (w : world) :
  (forall r, In r extra -> client_id r <> cid) ->
  run_agent predict (df ++ extra) cid input w
  = run_agent predict df cid input w.
Proof.
  intros H. unfold run_agent.
  destruct (extract_dates input) as [[[s|] [e|]]|err]; try reflexivity.
  rewrite filter_app_nil; [reflexivity|].
  intros r Hr. unfold in_client_range.
  apply H in Hr. apply Z.eqb_neq in Hr. now rewrite Hr.
Qed.

(** X15.  [create_pdf_report] with an empty folder name raises
    [FileNotFoundError] and changes nothing.  With another folder name, a
    report text of Latin-1 is stored as the document under the path that is
    returned, and a text outside Latin-1 makes the call raise
    [UnicodeEncodeError] without writing a file; in both cases no other file
    is touched, the folder is among the directories afterwards, none is
    removed, nothing is printed, and a second call with the same arguments
    gives the same result and changes nothing more. *)
Theorem create_pdf_report_frame (cid : Z) (start_date end_date : datetime)
    (report_content output_folder : string) (w : world) :
  let '(result, w') :=
    create_pdf_report cid start_date end_date report_content output_folder w in
  (output_folder = EmptyString ->
   result = Raises (FileNotFoundError "") /\ w' = w)
  /\ (output_folder <> EmptyString ->
      (latin1 report_content = true ->
       exists path doc,
         result = Returns path
         /\ files w' !! path = Some doc
         /\ pdf_body doc = report_content
         /\ (forall other,
               other <> path -> files w' !! other = files w !! other))
      /\ (latin1 report_content = false ->
          result = Raises (UnicodeEncodeError report_content)
          /\ files w' = files w)
      /\ output_folder ∈ dirs w'
      /\ dirs w ⊆ dirs w'
      /\ stdout w' = stdout w
      /\ create_pdf_report cid start_date end_date report_content
           output_folder w'
         = (result, w')).
Proof.
  unfold create_pdf_report. cbv zeta.
  set (path := (output_folder ++ _)%string).
  set (doc := {| pdf_title := _; pdf_range := _; pdf_body := _ |}).
  destruct (String.eqb_spec output_folder "") as [->|Hne].
  { split; [split; reflexivity | congruence]. }
  destruct (latin1 report_content) eqn:Hl.
  - split; [congruence|]. intros _.
    cbn [files dirs stdout].
    split; [|split; [|split; [|split; [|split]]]].
    + intros _. exists path, doc. split; [reflexivity|].
      split; [apply lookup_insert_eq|]. split; [reflexivity|].
      intros other Hother. rewrite lookup_insert_ne by congruence.
      now destruct (decide (output_folder ∈ dirs w)).
    + discriminate.
    + destruct (decide (output_folder ∈ dirs w)); simpl; set_solver.
    + destruct (decide (output_folder ∈ dirs w)); simpl; set_solver.
    + now destruct (decide (output_folder ∈ dirs w)).
    + f_equal.
      destruct (decide (output_folder ∈ dirs w)) as [Hin|Hin];
        cbn [dirs files stdout].
      * rewrite decide_True by exact Hin. cbn [dirs files stdout].
        now rewrite insert_insert_eq.
      * rewrite decide_True by set_solver. cbn [dirs files stdout].
        now rewrite insert_insert_eq.
  - split; [congruence|]. intros _.
    split; [|split; [|split; [|split; [|split]]]].
    + discriminate.
    + intros _. split; [reflexivity|].
      now destruct (decide (output_folder ∈ dirs w)).
    + destruct (decide (output_folder ∈ dirs w)); simpl; set_solver.
    + destruct (decide (output_folder ∈ dirs w)); simpl; set_solver.
    + now destruct (decide (output_folder ∈ dirs w)).
    + f_equal.
      destruct (decide (output_folder ∈ dirs w)) as [Hin|Hin].
      * now rewrite decide_True by exact Hin.
      * cbn [dirs]. now rewrite decide_True by set_solver.
Qed.

End AgentFrame.

(** ** The texts of dates and numbers *)

Section Rendering.

Import Agent AgentSpec TextSpec.

Lemma valid_date_bounds (t : datetime) :
  valid_date t = true ->
  1 <= year t <= 9999 /\ 1 <= month t <= 12 /\ 1 <= day t <= 31
  /\ day t <= Calendar.days_in_month (year t) (month t).
Proof.
  intros H. apply valid_date_days in H. lia.
Qed.

(** The text of a date of the calendar with a year of four digits,
    character by character. *)
Lemma strftime_Y_m_d_digits (t : datetime) :
  valid_date t = true -> 1000 <= year t ->
  strftime_Y_m_d t
  = (four_digits (year t) ++ "-" ++ two_digits (month t) ++ "-"
     ++ two_digits (day t))%string.
Proof.
  intros H Hy. apply valid_date_bounds in H.
  unfold strftime_Y_m_d, Calendar.fmt_Y_m_d.
  rewrite str_four_digits, !zfill_2 by lia. reflexivity.
Qed.

Lemma strftime_Ymd_digits (t : datetime) :
  valid_date t = true -> 1000 <= year t ->
  strftime_Ymd t
  = (four_digits (year t) ++ two_digits (month t)
     ++ two_digits (day t))%string.
Proof.
  intros H Hy. apply valid_date_bounds in H.
  unfold strftime_Ymd, Calendar.fmt_Ymd.
  rewrite str_four_digits, !zfill_2 by lia. reflexivity.
Qed.

Lemma date_digits (t : datetime) :
  valid_date t = true -> 1000 <= year t ->
  exists y1 y2 y3 y4 m1 m2 d1 d2,
    forallb PyStr.is_digit [y1; y2; y3; y4; m1; m2; d1; d2] = true
    /\ strftime_Y_m_d t = date_chars y1 y2 y3 y4 m1 m2 d1 d2 EmptyString
    /\ (forall rest,
          (strftime_Y_m_d t ++ rest)%string
          = date_chars y1 y2 y3 y4 m1 m2 d1 d2 rest)
    /\ PyStr.int (String y1 (String y2 (String y3 (String y4 EmptyString))))
       = year t
    /\ 10 * PyStr.digit_val m1 + PyStr.digit_val m2 = month t
    /\ 10 * PyStr.digit_val d1 + PyStr.digit_val d2 = day t.
Proof.
  intros H Hy. rewrite (strftime_Y_m_d_digits t H Hy).
  pose proof (valid_date_bounds t H) as Hb.
  destruct t as [y m d]. cbn [year month day] in *.
  exists (PyStr.digit_char (y / 1000)), (PyStr.digit_char ((y / 100) mod 10)),
    (PyStr.digit_char ((y / 10) mod 10)), (PyStr.digit_char (y mod 10)),
    (PyStr.digit_char (m / 10)), (PyStr.digit_char (m mod 10)),
    (PyStr.digit_char (d / 10)), (PyStr.digit_char (d mod 10)).
  split; [|split; [reflexivity | split; [intros rest; reflexivity|]]].
  - cbn [forallb].
    rewrite !(fun k Hk => proj1 (digit_char_digit k Hk))
      by (Z.to_euclidean_division_equations; lia).
    reflexivity.
  - split; [apply (int_four_digits y); lia|].
    rewrite !(fun k Hk => proj2 (digit_char_digit k Hk))
      by (Z.to_euclidean_division_equations; lia).
    split; Z.to_euclidean_division_equations; lia.
Qed.

Section DateChars.

Variables y1 y2 y3 y4 m1 m2 d1 d2 : ascii.
Hypothesis digits :
  forallb PyStr.is_digit [y1; y2; y3; y4; m1; m2; d1; d2] = true.

Lemma date_chars_digits :
  PyStr.is_digit y1 = true /\ PyStr.is_digit y2 = true
  /\ PyStr.is_digit y3 = true /\ PyStr.is_digit y4 = true
  /\ PyStr.is_digit m1 = true /\ PyStr.is_digit m2 = true
  /\ PyStr.is_digit d1 = true /\ PyStr.is_digit d2 = true.
Proof.
  pose proof digits as H. cbn [forallb] in H.
  rewrite !andb_true_iff in H. tauto.
Qed.

Lemma digits_at_date_chars (rest : string) :
  PyStr.digits_at 4 (date_chars y1 y2 y3 y4 m1 m2 d1 d2 rest)
  = Some (String y1 (String y2 (String y3 (String y4 EmptyString))),
          String "-" (String m1 (String m2 (String "-"
            (String d1 (String d2 rest)))))).
Proof.
  destruct date_chars_digits as (H1 & H2 & H3 & H4 & _).
  unfold date_chars.
  rewrite (digits_at_ascii _ _ _ H1), (digits_at_ascii _ _ _ H2),
    (digits_at_ascii _ _ _ H3), (digits_at_ascii _ _ _ H4).
  reflexivity.
Qed.

Lemma match_date_chars (rest : string) :
  PyStr.match_date (date_chars y1 y2 y3 y4 m1 m2 d1 d2 rest)
  = Some (date_chars y1 y2 y3 y4 m1 m2 d1 d2 EmptyString).
Proof.
  destruct date_chars_digits as (_ & _ & _ & _ & H5 & H6 & H7 & H8).
  assert (forall a b r,
            PyStr.is_digit a = true -> PyStr.is_digit b = true ->
            PyStr.digits_at 2 (String a (String b r))
            = Some (String a (String b EmptyString), r)) as Htwo.
  { intros a b r Ha Hb.
    now rewrite (digits_at_ascii _ _ _ Ha), (digits_at_ascii _ _ _ Hb). }
  unfold PyStr.match_date. rewrite digits_at_date_chars.
  rewrite (Htwo _ _ _ H5 H6), (Htwo _ _ _ H7 H8). reflexivity.
Qed.

Lemma findall_date_chars (rest : string) :
  PyStr.re_findall_date_from 0 (date_chars y1 y2 y3 y4 m1 m2 d1 d2 rest)
  = date_chars y1 y2 y3 y4 m1 m2 d1 d2 EmptyString
    :: PyStr.re_findall_date_from 0 rest.
Proof.
  pose proof (match_date_chars rest) as Hm.
  unfold date_chars in *.
  cbn [PyStr.re_findall_date_from]. rewrite Hm. reflexivity.
Qed.

(** [strptime] on the ten characters of a date. *)
Lemma strptime_date_chars :
  strptime (date_chars y1 y2 y3 y4 m1 m2 d1 d2 EmptyString)
  = match month_field m1 m2, day_field d1 (String d2 EmptyString) with
    | Some m, Some (d, unread) =>
        if negb (String.eqb unread "") then
          Raises (ValueError ("unconverted data remains: " ++ unread))
        else
          datetime_new
            (PyStr.int (String y1 (String y2 (String y3
                          (String y4 EmptyString))))) m d
    | _, _ =>
        Raises (ValueError
          ("time data '" ++ date_chars y1 y2 y3 y4 m1 m2 d1 d2 EmptyString
           ++ "' does not match format '%Y-%m-%d'"))
    end.
Proof.
  apply strptime_fields. apply digits_at_date_chars.
Qed.

Lemma plain_date_chars (rest : string) :
  forallb plain (chars (date_chars y1 y2 y3 y4 m1 m2 d1 d2 rest))
  = forallb plain (chars rest).
Proof.
  destruct date_chars_digits as (H1 & H2 & H3 & H4 & H5 & H6 & H7 & H8).
  unfold date_chars, chars. cbn [list_ascii_of_string forallb].
  unfold plain at 1 2 3 4 5 6 7 8 9 10.
  rewrite H1, H2, H3, H4, H5, H6, H7, H8. reflexivity.
Qed.

End DateChars.

(** Reading back the text of a date gives the date. *)
Lemma strptime_strftime (t : datetime) :
  valid_date t = true -> 1000 <= year t ->
  strptime (strftime_Y_m_d t) = Returns t.
Proof.
  intros H Hy.
  destruct (date_digits t H Hy)
    as (a1 & a2 & a3 & a4 & a5 & a6 & a7 & a8 & Da & Ea & _ & Ey & Em & Ed).
  pose proof (valid_date_bounds t H) as Hb.
  destruct (date_chars_digits _ _ _ _ _ _ _ _ Da)
    as (_ & _ & _ & _ & H5 & H6 & H7 & H8).
  rewrite Ea, (strptime_date_chars _ _ _ _ _ _ _ _ Da).
  rewrite month_field_spec, H5, H6, Em.
  rewrite (day_field_ascii _ _ H7 H8), Ed, Ey.
  destruct (Z.leb_spec 1 (month t)); [|lia].
  destruct (Z.leb_spec (month t) 12); [|lia].
  destruct (Z.leb_spec 1 (day t)); [|lia].
  destruct (Z.leb_spec (day t) 31); [|lia].
  cbn [andb String.eqb negb].
  destruct t as [y m d]. now apply datetime_new_date.
Qed.

Lemma extract_dates_some_valid (prompt : string) (s e : datetime) :
  extract_dates prompt = Returns (Some s, Some e) ->
  valid_date s = true /\ valid_date e = true.
Proof.
  unfold extract_dates.
  destruct (scan_months month_mapping prompt) as [res|] eqn:Hscan.
  - apply scan_months_returns in Hscan.
    destruct Hscan as (word & m & yt & _ & _ & ->).
    destruct (month_range yt m) as [[s0 e0]|err] eqn:Hr; cbn [bind fst snd];
      [|discriminate].
    intros H. injection H as <- <-. apply month_range_returns in Hr. tauto.
  - clear Hscan.
    destruct (PyStr.re_findall_date prompt) as [|d0 [|d1 [|d2 l]]];
      try discriminate.
    destruct (strptime d0) as [s0|] eqn:H0; cbn [bind]; [|discriminate].
    destruct (strptime d1) as [e0|] eqn:H1; cbn [bind]; [|discriminate].
    intros H. injection H as <- <-.
    split; eapply strptime_returns; eassumption.
Qed.

(** X16.  The two date texts of the record that [run_agent] returns are read
    back by [strptime] as the very dates that [extract_dates] found in the
    prompt, for a date with a year from 1000 on, and the record carries the
    client asked for. *)
Theorem run_agent_dates_read_back (predict : string -> outcome string)
    (df : list transaction) (cid : Z) (input : string) (w w' : world)
    (r : variables_dict) :
  run_agent predict df cid input w = (Returns r, w') ->
  exists s e,
    extract_dates input = Returns (Some s, Some e)
    /\ (1000 <= year s -> strptime (vd_start_date r) = Returns s)
    /\ (1000 <= year e -> strptime (vd_end_date r) = Returns e)
    /\ vd_client_id r = cid.
Proof.
  unfold run_agent.
  destruct (extract_dates input) as [[[s|] [e|]]|err] eqn:He;
    try discriminate.
  destruct (extract_dates_some_valid _ _ _ He) as [Hs Hv].
  intros H. exists s, e. split; [reflexivity|].
  assert (vd_start_date r = strftime_Y_m_d s
          /\ vd_end_date r = strftime_Y_m_d e /\ vd_client_id r = cid)
    as (-> & -> & ->).
  { destruct (negb _); [|now injection H as <- _].
    destruct (predict _) as [text|]; [|discriminate H].
    destruct (create_pdf_report _ _ _ _ _ _) as [[path|] w1];
      [|discriminate H].
    now injection H as <- _. }
  repeat split; auto using strptime_strftime.
Qed.

(** *** A prompt made of two date texts *)

Lemma find_all_false {A : Type} (f : A -> bool) (l : list A) :
  (forall x, In x l -> f x = false) -> List.find f l = None.
Proof.
  induction l as [|x l IH]; intros H; simpl; [reflexivity|].
  rewrite (H x) by now left. apply IH. intros y Hy. apply H. now right.
Qed.

Lemma contains_other_char (c0 : ascii) (word text : string)
    (p : ascii -> bool) :
  p c0 = false -> forallb p (chars text) = true ->
  PyStr.contains (String c0 word) text = false.
Proof.
  intros H0. induction text as [|c text IH]; intros Hp.
  - reflexivity.
  - unfold chars in Hp. cbn [list_ascii_of_string forallb] in Hp.
    apply andb_true_iff in Hp. destruct Hp as [Hc Hp].
    rewrite contains_String, (IH Hp), orb_false_r. simpl.
    destruct (ascii_dec c0 c) as [->|Hne]; [congruence | reflexivity].
Qed.

(** A text of digits, hyphens and spaces holds none of the month words. *)
Lemma plain_no_month_word (text : string) :
  forallb plain (chars text) = true -> first_month_word text = None.
Proof.
  intros Hp. apply find_all_false. intros [word num] Hin.
  assert (forallb (fun e : string * Z =>
                     match fst e with
                     | String c0 _ => negb (plain c0)
                     | EmptyString => false
                     end) month_mapping = true) as Hw by (vm_compute; reflexivity).
  rewrite forallb_forall in Hw. specialize (Hw _ Hin). cbn [fst] in Hw.
  unfold occurs_in; cbn [fst].
  destruct word as [|c0 word]; [discriminate|].
  apply negb_true_iff in Hw. now apply contains_other_char with (p := plain).
Qed.

(** [extract_dates] reads two date texts put side by side. *)
Lemma extract_dates_strftime (s e : datetime) :
  valid_date s = true -> valid_date e = true ->
  1000 <= year s -> 1000 <= year e ->
  extract_dates (strftime_Y_m_d s ++ " " ++ strftime_Y_m_d e)
  = Returns (Some s, Some e).
Proof.
  intros Hs He Ys Ye.
  pose proof (strptime_strftime s Hs Ys) as Ps.
  pose proof (strptime_strftime e He Ye) as Pe.
  destruct (date_digits s Hs Ys)
    as (a1 & a2 & a3 & a4 & a5 & a6 & a7 & a8 & Da & Ea & Ra & _).
  destruct (date_digits e He Ye)
    as (b1 & b2 & b3 & b4 & b5 & b6 & b7 & b8 & Db & Eb & Rb & _).
  rewrite Ra. rewrite Ea in Ps. rewrite Eb in *.
  change (" " ++ date_chars b1 b2 b3 b4 b5 b6 b7 b8 "")%string
    with (String " " (date_chars b1 b2 b3 b4 b5 b6 b7 b8 "")).
  unfold extract_dates.
  rewrite scan_months_no_word.
  2:{ apply plain_no_month_word.
      rewrite (plain_date_chars _ _ _ _ _ _ _ _ Da).
      unfold chars at 1. cbn [list_ascii_of_string forallb].
      fold (chars (date_chars b1 b2 b3 b4 b5 b6 b7 b8 "")).
      rewrite (plain_date_chars _ _ _ _ _ _ _ _ Db). reflexivity. }
  unfold PyStr.re_findall_date.
  rewrite (findall_date_chars _ _ _ _ _ _ _ _ Da).
  assert (PyStr.re_findall_date_from 0
            (String " " (date_chars b1 b2 b3 b4 b5 b6 b7 b8 ""))
          = PyStr.re_findall_date_from 0
              (date_chars b1 b2 b3 b4 b5 b6 b7 b8 "")) as ->.
  { cbn [PyStr.re_findall_date_from].
    assert (PyStr.match_date
              (String " " (date_chars b1 b2 b3 b4 b5 b6 b7 b8 "")) = None)
      as ->; [|reflexivity].
    unfold PyStr.match_date. cbn [PyStr.digits_at].
    now rewrite digit_at_other by (vm_compute; reflexivity). }
  rewrite (findall_date_chars _ _ _ _ _ _ _ _ Db).
  cbn [PyStr.re_findall_date_from].
  rewrite Ps. cbn [bind]. rewrite Pe. reflexivity.
Qed.

(** What a call of [run_agent] that returns a record went through. *)
Lemma run_agent_returns (predict : string -> outcome string)
    (df : list transaction) (cid : Z) (input : string) (w w' : world)
    (r : variables_dict) :
  run_agent predict df cid input w = (Returns r, w') ->
  exists s e,
    extract_dates input = Returns (Some s, Some e)
    /\ r = {| vd_start_date := strftime_Y_m_d s;
              vd_end_date := strftime_Y_m_d e;
              vd_client_id := cid;
              vd_create_report :=
                negb match List.filter
                             (in_client_range cid (toordinal s) (toordinal e))
                             df with
                     | [] => true
                     | _ :: _ => false
                     end |}
    /\ (vd_create_report r = true ->
        exists text,
          predict (report_prompt cid s e) = Returns text
          /\ latin1 text = true).
Proof.
  unfold run_agent.
  destruct (extract_dates input) as [[[s|] [e|]]|err] eqn:He;
    try discriminate.
  intros H. exists s, e. split; [reflexivity|].
  destruct (List.filter (in_client_range cid (toordinal s) (toordinal e)) df)
    as [|r0 l]; cbn [negb] in *.
  - injection H as <- _. split; [reflexivity|]. discriminate.
  - destruct (predict (report_prompt cid s e)) as [text|err] eqn:Hp;
      [|discriminate H].
    unfold create_pdf_report in H. cbn [String.eqb Ascii.eqb Bool.eqb] in H.
    destruct (latin1 text) eqn:Hl; [|discriminate H].
    injection H as <- _. split; [reflexivity|]. eauto.
Qed.

(** X17.  The two date texts of a returned record, put side by side, make a
    prompt on which [run_agent] gives the same record again, whatever the
    first prompt was and whatever the files and folders are by then, when
    the two dates have a year from 1000 on. *)
Theorem run_agent_dates_prompt (predict : string -> outcome string)
    (df : list transaction) (cid : Z) (input : string) (w w' : world)
    (r : variables_dict) (s e : datetime) :
  run_agent predict df cid input w = (Returns r, w') ->
  extract_dates input = Returns (Some s, Some e) ->
  1000 <= year s -> 1000 <= year e ->
  forall w2, fst (run_agent predict df cid (dates_prompt r) w2) = Returns r.
Proof.
  intros H He Ys Ye w2.
  destruct (run_agent_returns _ _ _ _ _ _ _ H) as (s' & e' & He' & Hr & Hp).
  rewrite He in He'. injection He' as <- <-.
  destruct (extract_dates_some_valid _ _ _ He) as [Hs Hv].
  assert (dates_prompt r
          = (strftime_Y_m_d s ++ " " ++ strftime_Y_m_d e)%string) as Hd
    by now rewrite Hr.
  unfold run_agent. rewrite Hd, (extract_dates_strftime s e Hs Hv Ys Ye).
  destruct (List.filter (in_client_range cid (toordinal s) (toordinal e)) df)
    as [|r0 l]; cbn [negb] in *.
  - cbn [fst]. now rewrite Hr.
  - destruct Hp as (text & Hp & Hl); [now rewrite Hr|].
    rewrite Hp. unfold create_pdf_report.
    cbn [String.eqb Ascii.eqb Bool.eqb]. rewrite Hl. cbn [fst].
    now rewrite Hr.
Qed.

(** *** The name of the report file *)

Lemma value_from_String (a : Z) (c : ascii) (s : string) :
  value_from a (String c s) = value_from (10 * a + PyStr.digit_val c) s.
Proof. reflexivity. Qed.

Lemma value_digits_of (fuel : nat) :
  forall (n : Z) (acc : string),
    0 <= n < 2 ^ Z.of_nat fuel ->
    value_from 0 (PyStr.digits_of fuel n acc) = value_from n acc.
Proof.
  induction fuel as [|fuel IH]; intros n acc Hn.
  - simpl in *. replace n with 0 by lia. reflexivity.
  - cbn [PyStr.digits_of].
    assert (0 <= n mod 10 <= 9) as Hd by (Z.to_euclidean_division_equations; lia).
    assert (2 ^ Z.of_nat (S fuel) = 2 * 2 ^ Z.of_nat fuel) as Hpow.
    { rewrite Nat2Z.inj_succ, Z.pow_succ_r by lia. reflexivity. }
    destruct (n / 10 =? 0) eqn:Hq.
    + apply Z.eqb_eq in Hq. rewrite value_from_String.
      rewrite (proj2 (digit_char_digit _ Hd)). f_equal.
      Z.to_euclidean_division_equations. lia.
    + rewrite IH by (Z.to_euclidean_division_equations; lia).
      rewrite value_from_String, (proj2 (digit_char_digit _ Hd)). f_equal.
      Z.to_euclidean_division_equations. lia.
Qed.

(** [int] reads back the text that [str] writes for a number. *)
Lemma int_str_of_nonneg (n : Z) :
  0 <= n -> value_from 0 (PyStr.str_of_nonneg n) = n.
Proof.
  intros Hn. unfold PyStr.str_of_nonneg.
  rewrite value_digits_of; [reflexivity|].
  split; [exact Hn|].
  rewrite Nat2Z.inj_succ, Z2Nat.id by apply Z.log2_nonneg.
  destruct (Z.eq_dec n 0) as [->|Hne]; [reflexivity|].
  apply Z.log2_spec. lia.
Qed.

Lemma digits_of_digits (fuel : nat) :
  forall (n : Z) (acc : string),
    0 <= n -> forallb PyStr.is_digit (chars acc) = true ->
    forallb PyStr.is_digit (chars (PyStr.digits_of fuel n acc)) = true.
Proof.
  induction fuel as [|fuel IH]; intros n acc Hn Hacc; [exact Hacc|].
  cbn [PyStr.digits_of].
  assert (forallb PyStr.is_digit
            (chars (String (PyStr.digit_char (n mod 10)) acc)) = true) as H.
  { unfold chars. cbn [list_ascii_of_string forallb].
    assert (0 <= n mod 10 <= 9) as Hd
      by (Z.to_euclidean_division_equations; lia).
    rewrite (proj1 (digit_char_digit _ Hd)). exact Hacc. }
  destruct (n / 10 =? 0); [exact H|].
  apply IH; [Z.to_euclidean_division_equations; lia | exact H].
Qed.

Lemma str_of_nonneg_digits (n : Z) :
  0 <= n -> forallb PyStr.is_digit (chars (PyStr.str_of_nonneg n)) = true.
Proof.
  intros Hn. now apply digits_of_digits.
Qed.

Lemma str_id_chars (n : Z) : forallb id_char (chars (PyStr.str n)) = true.
Proof.
  assert (forall l, forallb PyStr.is_digit l = true -> forallb id_char l = true)
    as Hweak.
  { intros l Hl. apply forallb_forall. intros c Hc.
    rewrite forallb_forall in Hl. unfold id_char. now rewrite (Hl c Hc). }
  unfold PyStr.str. destruct (n <? 0) eqn:Hs.
  - apply Z.ltb_lt in Hs. unfold chars. cbn [list_ascii_of_string forallb].
    apply Hweak, str_of_nonneg_digits. lia.
  - apply Z.ltb_ge in Hs. apply Hweak, str_of_nonneg_digits. lia.
Qed.

(** Two numbers with the same text are the same number. *)
Lemma str_inj (a b : Z) : PyStr.str a = PyStr.str b -> a = b.
Proof.
  unfold PyStr.str.
  destruct (a <? 0) eqn:Ha, (b <? 0) eqn:Hb;
    try apply Z.ltb_lt in Ha; try apply Z.ltb_ge in Ha;
    try apply Z.ltb_lt in Hb; try apply Z.ltb_ge in Hb; intros H.
  - injection H as H. apply (f_equal (value_from 0)) in H.
    rewrite !int_str_of_nonneg in H by lia. lia.
  - pose proof (str_of_nonneg_digits b Hb) as Hd. rewrite <- H in Hd.
    discriminate Hd.
  - pose proof (str_of_nonneg_digits a Ha) as Hd. rewrite H in Hd.
    discriminate Hd.
  - apply (f_equal (value_from 0)) in H.
    now rewrite !int_str_of_nonneg in H by lia.
Qed.

Lemma append_inv_length (a b r1 r2 : string) :
  String.length a = String.length b ->
  (a ++ r1)%string = (b ++ r2)%string -> a = b /\ r1 = r2.
Proof.
  revert b. induction a as [|c a IH]; intros [|c' b] Hl H;
    try discriminate Hl.
  - now split.
  - rewrite !append_String in H. injection H as -> H.
    injection Hl as Hl. destruct (IH b Hl H) as [-> ->]. now split.
Qed.

Lemma append_inv_separator (p : ascii -> bool) (sep : ascii)
    (a b r1 r2 : string) :
  p sep = false ->
  forallb p (chars a) = true -> forallb p (chars b) = true ->
  (a ++ String sep r1)%string = (b ++ String sep r2)%string ->
  a = b /\ r1 = r2.
Proof.
  intros Hsep. revert b.
  induction a as [|c a IH]; intros [|c' b] Ha Hb H.
  - injection H as ->. now split.
  - rewrite append_String in H. injection H as <- _.
    unfold chars in Hb. cbn [list_ascii_of_string forallb] in Hb.
    rewrite Hsep in Hb. discriminate Hb.
  - rewrite append_String in H. injection H as -> _.
    unfold chars in Ha. cbn [list_ascii_of_string forallb] in Ha.
    rewrite Hsep in Ha. discriminate Ha.
  - rewrite !append_String in H. injection H as -> H.
    unfold chars in Ha, Hb. cbn [list_ascii_of_string forallb] in Ha, Hb.
    apply andb_true_iff in Ha, Hb.
    destruct (IH b (proj2 Ha) (proj2 Hb) H) as [-> ->]. now split.
Qed.

(** Two dates of the calendar with the same compact text are the same. *)
Lemma strftime_Ymd_inv (t1 t2 : datetime) (r1 r2 : string) :
  written_date t1 = true -> written_date t2 = true ->
  (strftime_Ymd t1 ++ r1)%string = (strftime_Ymd t2 ++ r2)%string ->
  t1 = t2 /\ r1 = r2.
Proof.
  unfold written_date. rewrite !andb_true_iff, !Z.leb_le.
  intros [H1 Y1] [H2 Y2].
  rewrite (strftime_Ymd_digits t1 H1 Y1), (strftime_Ymd_digits t2 H2 Y2).
  apply valid_date_bounds in H1, H2.
  destruct t1 as [y m d], t2 as [y' m' d']. cbn [year month day] in *.
  intros H.
  apply append_inv_length in H; [|reflexivity]. destruct H as [H ->].
  apply append_inv_length in H; [|reflexivity]. destruct H as [Hy H].
  apply append_inv_length in H; [|reflexivity]. destruct H as [Hm Hd].
  apply (f_equal (value_from 0)) in Hy, Hm, Hd.
  rewrite !value_four_digits in Hy by lia.
  rewrite !value_two_digits in Hm, Hd by lia.
  subst. now split.
Qed.

(** X18.  The reports of two clients, or of two ranges of dates, never go to
    the same file of a folder: the path that [create_pdf_report] writes to
    determines the client and the two dates, for dates of the calendar with
    a year from 1000 on. *)
Theorem create_pdf_report_path_inj (c1 c2 : Z) (s1 e1 s2 e2 : datetime)
    (body1 body2 folder path : string) (w1 w2 : world) :
  written_date s1 = true -> written_date e1 = true ->
  written_date s2 = true -> written_date e2 = true ->
  fst (create_pdf_report c1 s1 e1 body1 folder w1) = Returns path ->
  fst (create_pdf_report c2 s2 e2 body2 folder w2) = Returns path ->
  c1 = c2 /\ s1 = s2 /\ e1 = e2.
Proof.
  intros Hs1 He1 Hs2 He2. unfold create_pdf_report.
  destruct (String.eqb folder ""); [discriminate|].
  destruct (latin1 body1); [|discriminate].
  destruct (latin1 body2); [|discriminate].
  cbn [fst]. intros [= <-] [= H].
  apply append_inv_head in H. apply append_inv_head in H.
  change ("_" ++ ?x)%string with (String "_" x) in H.
  apply (append_inv_separator id_char) in H;
    [|reflexivity | apply str_id_chars | apply str_id_chars].
  destruct H as [Hc H]. apply str_inj in Hc.
  apply strftime_Ymd_inv in H; [|assumption|assumption].
  destruct H as [<- H]. injection H as H.
  apply strftime_Ymd_inv in H; [|assumption|assumption].
  destruct H as [<- _]. now split.
Qed.

End Rendering.


(** * Worked examples of the further properties *)

Section FurtherExamples.

Import Numeric DataFunctions DataSpec Measures Agent AgentSpec TextSpec.

(** X2 on a week with a single expense, of 40, and no earning. *)
Lemma cash_flow_summary_ranges_witness :
  exists o,
    In o (cash_flow_summary decimal_to_numeric Examples.only_expense_df 1
            Examples.may_1 Examples.may_31)
    /\ (0 <= Inflows o)%Q /\ (0 <= Outflows o)%Q /\ Savings o = NInf.
Proof.
  exists {| Date := "2021-05-16"; Inflows := 0.00; Outflows := 40.00;
            Net_Cash_Flow := -(40.00); Savings := NInf |}.
  assert (In {| Date := "2021-05-16"; Inflows := 0.00; Outflows := 40.00;
                Net_Cash_Flow := -(40.00); Savings := NInf |}
            (cash_flow_summary decimal_to_numeric Examples.only_expense_df 1
               Examples.may_1 Examples.may_31)) as Hin
    by (vm_compute; left; reflexivity).
  destruct (cash_flow_summary_ranges decimal_to_numeric _ _ _ _ _ Hin)
    as (H1 & H2 & _).
  split; [exact Hin|]. split; [exact H1|]. split; [exact H2|reflexivity].
Defined.

(** X3 on two grocery expenses, of 10 and of 2.50. *)
Lemma expenses_summary_order_witness :
  (0 <= 2.50 /\ 2.50 <= 10.00 /\ 10.00 <= 12.50
   /\ 0 <= 6.25 /\ 6.25 <= 12.50)%Q
  /\ 1 <= 2.
Proof.
  pose proof (expenses_summary_order decimal_to_numeric Examples.codes
                Examples.groceries_df 1 Examples.may_1 Examples.may_31
                {| Expenses_Type := "Grocery Stores, Supermarkets";
                   Total_Amount := 12.50; Average := 6.25;
                   Max := 2.50; Min := 10.00; Num_Transactions := 2 |}) as H.
  cbn [Max Min Average Total_Amount Num_Transactions] in H.
  destruct H as (H1 & H2 & H3 & H4 & H5 & H6);
    [vm_compute; left; reflexivity|].
  repeat split; assumption.
Defined.

(** X8 on a week whose two amounts are not numbers. *)
Lemma cash_flow_summary_unparsable_period_witness :
  In {| Date := period_label (Examples.may_31 - Examples.may_1)
                  (Calendar.ymd2ord 2021 5 10);
        Inflows := 0.00; Outflows := 0.00;
        Net_Cash_Flow := 0.00; Savings := Fin 0.00 |}
     (cash_flow_summary decimal_to_numeric Examples.unreadable_df 1
        Examples.may_1 Examples.may_31)
  /\ period_label (Examples.may_31 - Examples.may_1)
       (Calendar.ymd2ord 2021 5 10) = "2021-05-16"%string.
Proof.
  split; [|vm_compute; reflexivity].
  apply (cash_flow_summary_unparsable_period decimal_to_numeric
           Examples.unreadable_df 1 Examples.may_1 Examples.may_31
           {| client_id := 1; date := Some (Calendar.ymd2ord 2021 5 10);
              amount := None; mcc := IntCode 5411 |}
           (Calendar.ymd2ord 2021 5 10)).
  - vm_compute. left. reflexivity.
  - reflexivity.
  - intros r' Hin _. vm_compute in Hin.
    destruct Hin as [<-|[<-|[]]]; reflexivity.
Defined.

(** X9 on May 2021 cut after its first Sunday. *)
Lemma earnings_and_expenses_adjacent_ranges_witness :
  exists E X E1 X1 E2 X2 : Q,
    values (earnings_and_expenses decimal_to_numeric Examples.three_weeks_df 1
              Examples.may_1 Examples.may_31) = [[E; X]]
    /\ values (earnings_and_expenses decimal_to_numeric
                 Examples.three_weeks_df 1
                 Examples.may_1 (Calendar.ymd2ord 2021 5 9)) = [[E1; X1]]
    /\ values (earnings_and_expenses decimal_to_numeric
                 Examples.three_weeks_df 1
                 (Calendar.ymd2ord 2021 5 9 + 1) Examples.may_31) = [[E2; X2]]
    /\ (E == E1 + E2)%Q
    /\ (X == X1 + X2)%Q.
Proof.
  apply (earnings_and_expenses_adjacent_ranges decimal_to_numeric
           Examples.three_weeks_df 1 Examples.may_1
           (Calendar.ymd2ord 2021 5 9) Examples.may_31);
    vm_compute; intros H; discriminate H.
Defined.

(** X10 on the table of the worked example and the same table read
    backwards. *)
Lemma aggregators_row_order_witness :
  map (fun o => (Expenses_Type o, Max o, Min o, Num_Transactions o))
      (expenses_summary decimal_to_numeric Examples.codes Examples.spec_df 1
         Examples.may_1 Examples.may_31)
  = map (fun o => (Expenses_Type o, Max o, Min o, Num_Transactions o))
        (expenses_summary decimal_to_numeric Examples.codes
           (rev Examples.spec_df) 1 Examples.may_1 Examples.may_31)
  /\ map Date (cash_flow_summary decimal_to_numeric Examples.spec_df 1
                 Examples.may_1 Examples.may_31)
     = map Date (cash_flow_summary decimal_to_numeric (rev Examples.spec_df) 1
                   Examples.may_1 Examples.may_31).
Proof.
  apply (aggregators_row_order decimal_to_numeric Examples.codes
           Examples.spec_df (rev Examples.spec_df) 1
           Examples.may_1 Examples.may_31).
  apply Permutation_rev.
Defined.

(** X11 on a prompt with two dates. *)
Lemma extract_dates_calendar_witness :
  exists s e,
    extract_dates "entre 2021-05-01 y 2021-05-31" = Returns (Some s, Some e)
    /\ valid_date s = true /\ valid_date e = true.
Proof.
  destruct (extract_dates_calendar "entre 2021-05-01 y 2021-05-31"
              (Some {| year := 2021; month := 5; day := 1 |})
              (Some {| year := 2021; month := 5; day := 31 |}))
    as [[H _]|(s & e & Hs & He & Hv)].
  - vm_compute. reflexivity.
  - discriminate H.
  - exists s, e. injection Hs as <-. injection He as <-.
    split; [vm_compute; reflexivity | exact Hv].
Defined.

(** X12 on February of the leap year 2024. *)
Lemma extract_dates_february_witness :
  exists s e,
    extract_dates "informe del segundo mes de 2024"
    = Returns (Some s, Some e)
    /\ day e = 28
    /\ Calendar.days_in_month (year e) (month e) = 29.
Proof.
  destruct (extract_dates_february "informe del segundo mes de 2024"
              "segundo" "2024" 2) as (s & e & He & _ & Hleap).
  - vm_compute. reflexivity.
  - vm_compute. reflexivity.
  - vm_compute. intros H. discriminate H.
  - exists s, e. split; [exact He|]. apply Hleap; reflexivity.
Defined.

(** X13 on a prompt for November in English. *)
Lemma scan_months_november_december_witness :
  PyStr.contains "eleventh" "report for the eleventh month of 2021" = true.
Proof.
  apply (scan_months_november_december
           "report for the eleventh month of 2021"
           {| year := 2021; month := 11; day := 1 |}
           {| year := 2021; month := 11; day := 30 |}).
  - vm_compute. reflexivity.
  - reflexivity.
Defined.

(** X14 on the table of the worked example with a row of client 2 added. *)
Lemma run_agent_other_clients_witness :
  run_agent (fun _ => Returns "texto"%string)
    (Examples.spec_df ++ [Examples.txn 2 (ts 2021 5 3) "$7" 5411]) 1
    "entre 2021-05-01 y 2021-05-31"
    {| dirs := ∅; files := ∅; stdout := [] |}
  = run_agent (fun _ => Returns "texto"%string) Examples.spec_df 1
      "entre 2021-05-01 y 2021-05-31"
      {| dirs := ∅; files := ∅; stdout := [] |}.
Proof.
  apply (run_agent_other_clients (fun _ => Returns "texto"%string) Examples.spec_df
           [Examples.txn 2 (ts 2021 5 3) "$7" 5411] 1).
  intros r [<-|[]]. simpl. lia.
Defined.

(** X16 on the worked example. *)
Lemma run_agent_dates_read_back_witness :
  exists s e,
    extract_dates "entre 2021-05-01 y 2021-05-31" = Returns (Some s, Some e)
    /\ (1000 <= year s -> strptime "2021-05-01" = Returns s)
    /\ (1000 <= year e -> strptime "2021-05-31" = Returns e)
    /\ 1 = 1.
Proof.
  apply (run_agent_dates_read_back (fun _ => Returns "texto"%string) Examples.spec_df
           1 "entre 2021-05-01 y 2021-05-31"
           {| dirs := ∅; files := ∅; stdout := [] |}
           (snd (run_agent (fun _ => Returns "texto"%string) Examples.spec_df 1
                   "entre 2021-05-01 y 2021-05-31"
                   {| dirs := ∅; files := ∅; stdout := [] |}))
           {| vd_start_date := "2021-05-01"; vd_end_date := "2021-05-31";
              vd_client_id := 1; vd_create_report := true |}).
  vm_compute. reflexivity.
Defined.

(** X17 on the worked example: the record comes back from the prompt
    "2021-05-01 2021-05-31". *)
Lemma run_agent_dates_prompt_witness :
  fst (run_agent (fun _ => Returns "texto"%string) Examples.spec_df 1
         "2021-05-01 2021-05-31"
         {| dirs := {[ "reports/"%string ]}; files := ∅; stdout := [] |})
  = Returns {| vd_start_date := "2021-05-01"; vd_end_date := "2021-05-31";
               vd_client_id := 1; vd_create_report := true |}.
Proof.
  refine (run_agent_dates_prompt (fun _ => Returns "texto"%string) Examples.spec_df
           1 "entre 2021-05-01 y 2021-05-31"
           {| dirs := ∅; files := ∅; stdout := [] |}
           (snd (run_agent (fun _ => Returns "texto"%string) Examples.spec_df 1
                   "entre 2021-05-01 y 2021-05-31"
                   {| dirs := ∅; files := ∅; stdout := [] |}))
           {| vd_start_date := "2021-05-01"; vd_end_date := "2021-05-31";
              vd_client_id := 1; vd_create_report := true |}
           {| year := 2021; month := 5; day := 1 |}
           {| year := 2021; month := 5; day := 31 |} _ _ _ _
           {| dirs := {[ "reports/"%string ]}; files := ∅; stdout := [] |}).
  - vm_compute. reflexivity.
  - vm_compute. reflexivity.
  - simpl. lia.
  - simpl. lia.
Defined.

(** X18 on two reports of client 7 for May 2021, with two texts. *)
Lemma create_pdf_report_path_inj_witness :
  fst (create_pdf_report 7 {| year := 2021; month := 5; day := 1 |}
         {| year := 2021; month := 5; day := 31 |} "uno" "reports/"
         {| dirs := ∅; files := ∅; stdout := [] |})
  = Returns "reports/reporte_cliente_7_20210501_20210531.pdf"%string
  /\ (7 = 7
      /\ {| year := 2021; month := 5; day := 1 |}
         = {| year := 2021; month := 5; day := 1 |}
      /\ {| year := 2021; month := 5; day := 31 |}
         = {| year := 2021; month := 5; day := 31 |}).
Proof.
  split; [vm_compute; reflexivity|].
  apply (create_pdf_report_path_inj 7 7
           {| year := 2021; month := 5; day := 1 |}
           {| year := 2021; month := 5; day := 31 |}
           {| year := 2021; month := 5; day := 1 |}
           {| year := 2021; month := 5; day := 31 |}
           "uno" "dos" "reports/"
           "reports/reporte_cliente_7_20210501_20210531.pdf"
           {| dirs := ∅; files := ∅; stdout := [] |}
           {| dirs := {[ "reports/"%string ]}; files := ∅; stdout := [] |});
    vm_compute; reflexivity.
Defined.

End FurtherExamples.
